(** * LangGraph JSON rules validator: a shallow embedding of [json_validator.py]

    The module embeds the validation workflow of [JSONValidator]: the three
    graph nodes ([schema_validation_node], [semantic_validation_node],
    [final_assessment_node]), the router [should_continue_to_semantic], the
    compiled graph and its [invoke] loop, [_generate_summary] and
    [validate_json].

    The collaborators that live outside the repository ([jsonschema.validate],
    [json.dumps], [json.loads] and the chat model behind [self.llm.invoke])
    are taken as parameters, bundled in [Externals].  Python exceptions are
    values of [PyException]; only subclasses of [Exception] are modelled
    ([KeyboardInterrupt] and the like are outside the model). *)

From Stdlib Require Import String Ascii List Bool ZArith.
From Stdlib Require Import DecimalString Lia.
From Stdlib Require Import Floats.SpecFloat.
Import ListNotations.
Open Scope list_scope.
Open Scope string_scope.

Set Warnings "-register-all".

(** ** Python values and exceptions *)

(** The exception classes the handlers of the module tell apart, and the ones
    raised by the builtins used on the judge's reply.  [OtherException] stands
    for every other subclass of [Exception] ([jsonschema.SchemaError],
    network errors of the chat client, ...). *)
Inductive ExcClass : Type :=
| ValidationError
| JSONDecodeError
| TypeError
| AttributeError
| GraphRecursionError
| OtherException.

Definition ExcClass_eqb (a b : ExcClass) : bool :=
  match a, b with
  | ValidationError, ValidationError
  | JSONDecodeError, JSONDecodeError
  | TypeError, TypeError
  | AttributeError, AttributeError
  | GraphRecursionError, GraphRecursionError
  | OtherException, OtherException => true
  | _, _ => false
  end.

(** An exception object: its class and the text of [str(e)]. *)
Record PyException : Type := mkExc {
  exc_class : ExcClass;
  exc_str : string
}.

Inductive Result (A : Type) : Type :=
| Ok (a : A)
| Raise (e : PyException).
Arguments Ok {A} a.
Arguments Raise {A} e.

(** The values [json.loads] can build.  A [dict] is kept as the list of its
    items in insertion order; the keys of a decoded JSON object are strings
    and pairwise distinct.  A [str] is held as the bytes of its UTF-8
    encoding (with a lone surrogate encoded as any other code point);
    [chars_of] recovers its characters. *)
Inductive pyvalue : Type :=
| PyNone
| PyBool (b : bool)
| PyInt (z : Z)
| PyFloat (f : spec_float)
| PyStr (s : string)
| PyList (items : list pyvalue)
| PyDict (items : list (string * pyvalue)).

Definition dq : string := String "034"%char EmptyString.
Definition nl : string := String "010"%char EmptyString.

(** [type(v).__name__] *)
Definition py_type_name (v : pyvalue) : string :=
  match v with
  | PyNone => "NoneType"
  | PyBool _ => "bool"
  | PyInt _ => "int"
  | PyFloat _ => "float"
  | PyStr _ => "str"
  | PyList _ => "list"
  | PyDict _ => "dict"
  end.

(** [bool(v)]: the truth value Python's [if] tests. *)
Definition py_truthy (v : pyvalue) : bool :=
  match v with
  | PyNone => false
  | PyBool b => b
  | PyInt z => negb (Z.eqb z 0)
  | PyFloat (S754_zero _) => false
  | PyFloat _ => true
  | PyStr s => negb (String.eqb s "")
  | PyList items => match items with [] => false | _ :: _ => true end
  | PyDict items => match items with [] => false | _ :: _ => true end
  end.

(** A byte [10xxxxxx] continues the character begun before it. *)
Definition is_continuation (c : ascii) : bool :=
  let n := nat_of_ascii c in
  ((128 <=? n) && (n <? 192))%nat.

(** The characters that follow [current] in a text, [current] being the
    bytes read so far of the character being read. *)
Fixpoint chars_from (current : string) (s : string) : list string :=
  match s with
  | EmptyString => [current]
  | String c rest =>
      if is_continuation c
      then chars_from (current ++ String c EmptyString) rest
      else current :: chars_from (String c EmptyString) rest
  end.

(** The characters of a [str], each as the text of its own bytes: a leading
    byte with the continuation bytes that follow it. *)
Definition chars_of (s : string) : list string :=
  match s with
  | EmptyString => []
  | String c rest => chars_from (String c EmptyString) rest
  end.

(** [len(v)]: a [str] counts its characters. *)
Definition py_len (v : pyvalue) : Result nat :=
  match v with
  | PyStr s => Ok (List.length (chars_of s))
  | PyList items => Ok (List.length items)
  | PyDict items => Ok (List.length items)
  | _ => Raise (mkExc TypeError
                  ("object of type '" ++ py_type_name v ++ "' has no len()"))
  end.

Fixpoint assoc_get (key : string) (items : list (string * pyvalue))
  : option pyvalue :=
  match items with
  | [] => None
  | (k, v) :: rest => if String.eqb k key then Some v else assoc_get key rest
  end.

(** [v.get(key, default)]: only a [dict] has the method. *)
Definition dict_get (v : pyvalue) (key : string) (default : pyvalue)
  : Result pyvalue :=
  match v with
  | PyDict items =>
      Ok (match assoc_get key items with Some x => x | None => default end)
  | _ => Raise (mkExc AttributeError
                  ("'" ++ py_type_name v ++ "' object has no attribute 'get'"))
  end.

(** The items of a sequence handed to [str.join], each of which must be a
    [str]; [i] is the index of the first item. *)
Fixpoint join_items (i : nat) (items : list pyvalue) : Result (list string) :=
  match items with
  | [] => Ok []
  | PyStr s :: rest =>
      match join_items (S i) rest with
      | Ok l => Ok (s :: l)
      | Raise e => Raise e
      end
  | v :: _ =>
      Raise (mkExc TypeError
               ("sequence item " ++ NilZero.string_of_uint (Nat.to_uint i)
                ++ ": expected str instance, " ++ py_type_name v ++ " found"))
  end.

(** [sep.join(v)]: a list is joined item by item, a [str] character by
    character, a [dict] over its keys. *)
Definition py_join (sep : string) (v : pyvalue) : Result string :=
  match v with
  | PyList items =>
      match join_items 0 items with
      | Ok l => Ok (String.concat sep l)
      | Raise e => Raise e
      end
  | PyStr s => Ok (String.concat sep (chars_of s))
  | PyDict items => Ok (String.concat sep (List.map fst items))
  | _ => Raise (mkExc TypeError "can only join an iterable")
  end.

(** ** The module's own types *)

Inductive ValidationStatus : Type :=
| PENDING
| SCHEMA_VALID
| SCHEMA_INVALID
| SEMANTIC_VALID
| SEMANTIC_INVALID
| COMPLETE.

Definition ValidationStatus_eqb (a b : ValidationStatus) : bool :=
  match a, b with
  | PENDING, PENDING
  | SCHEMA_VALID, SCHEMA_VALID
  | SCHEMA_INVALID, SCHEMA_INVALID
  | SEMANTIC_VALID, SEMANTIC_VALID
  | SEMANTIC_INVALID, SEMANTIC_INVALID
  | COMPLETE, COMPLETE => true
  | _, _ => false
  end.

(** The two message classes of [langchain.schema] the module builds. *)
Inductive Message : Type :=
| SystemMessage (content : string)
| HumanMessage (content : string).

(** One section of the report: [{"passed": ..., "errors": ...}]. *)
Record PhaseReport (E : Type) : Type := mkPhase {
  passed : bool;
  errors : E
}.
Arguments mkPhase {E} passed errors.
Arguments passed {E} p.
Arguments errors {E} p.

(** The dictionary stored under [state["validation_report"]].  The schema
    errors are always a list of [str]; the semantic errors are whatever the
    node stored, which may come straight from the judge's reply. *)
Record ValidationReport : Type := mkReport {
  overall_valid : bool;
  schema_validation : PhaseReport (list string);
  semantic_validation : PhaseReport pyvalue;
  summary : string
}.

(** The collaborators outside the repository.
    - [jsonschema_validate] returns [None] when [validate] returns normally
      and the exception it raises otherwise;
    - [json_dumps] is [json.dumps(., indent=2)];
    - [json_loads] is [json.loads];
    - [llm_invoke] is [self.llm.invoke]: it answers with the [content] of the
      reply or raises, and may change the judge's hidden state [World]. *)
Record Externals : Type := mkExternals {
  Document : Type;
  Schema : Type;
  World : Type;
  jsonschema_validate : Document -> Schema -> option PyException;
  json_dumps : Document -> Result string;
  json_loads : string -> Result pyvalue;
  llm_invoke : list Message -> World -> Result string * World
}.

(** [system_prompt.format(rules=r)]: the template has the single field
    [{rules}]. *)
Definition system_prompt_format (r : string) : string :=
  "You are a JSON validation expert. Analyze the provided JSON data against the custom rules and determine if it's valid."
  ++ nl ++ nl ++ "Rules to validate:" ++ nl ++ r ++ nl ++ nl
  ++ "Respond with a JSON object containing:" ++ nl
  ++ "- " ++ dq ++ "is_valid" ++ dq ++ ": boolean" ++ nl
  ++ "- " ++ dq ++ "errors" ++ dq
  ++ ": list of error messages (empty if valid)" ++ nl
  ++ "- " ++ dq ++ "warnings" ++ dq
  ++ ": list of warning messages (optional)" ++ nl ++ nl
  ++ "Be thorough and check each rule carefully.".

(** The f-string [human_prompt], given [json.dumps(state['json_data'])]. *)
Definition human_prompt_of (dumped : string) (custom_rules : list string)
  : string :=
  "JSON Data to validate:" ++ nl ++ dumped ++ nl ++ nl
  ++ "Custom Rules:" ++ nl
  ++ String.concat nl (List.map (fun rule => "- " ++ rule) custom_rules)
  ++ nl ++ nl
  ++ "Please validate this JSON against the rules and provide your assessment.".

(** The list [messages] sent to the judge: the system message carries the
    rules joined by newlines, the human message the f-string above. *)
Definition messages_for (dumped : string) (custom_rules : list string)
  : list Message :=
  let human_prompt := human_prompt_of dumped custom_rules in
  [SystemMessage (system_prompt_format (String.concat nl custom_rules));
   HumanMessage human_prompt].

Definition skipped_message : string :=
  "Skipped due to schema validation failure".
Definition parse_failure_message : string :=
  "Failed to parse LLM validation response".
Definition default_semantic_failure : string :=
  "Semantic validation failed".
Definition valid_summary : string :=
  "JSON data is valid according to both schema and semantic rules.".

(** LangGraph's default [recursion_limit]. *)
Definition recursion_limit : nat := 25.

(** The names of the graph's nodes, and where an edge can lead. *)
Module Node.
Inductive NodeName : Type :=
| schema_validation
| semantic_validation
| final_assessment.
End Node.
Definition NodeName : Type := Node.NodeName.

Inductive Target : Type :=
| Goto (n : NodeName)
| END.

(** ** The workflow *)

Section Workflow.

Variable X : Externals.

(** The [ValidationState] dictionary. [validation_report] is [None] for
    the empty dictionary the run starts with. *)
Record ValidationState : Type := mkState {
  json_data : Document X;
  schema : Schema X;
  custom_rules : list string;
  status : ValidationStatus;
  schema_errors : list string;
  semantic_errors : pyvalue;
  is_valid : bool;
  validation_report : option ValidationReport
}.

(** What outlives one call of [validate_json]: the judge's hidden state
    and, as a ghost log, the requests sent to it so far. *)
Record Env : Type := mkEnv {
  judge : World X;
  invocations : list (list Message)
}.

(** What a node works on: the state dictionary, mutated in place, and the
    environment. *)
Record Heap : Type := mkHeap {
  state : ValidationState;
  env : Env
}.

(** Computations that read and write the heap and may raise. *)
Definition M (A : Type) : Type := Heap -> Result A * Heap.

Definition ret {A : Type} (a : A) : M A := fun h => (Ok a, h).

Definition bind {A B : Type} (c : M A) (k : A -> M B) : M B :=
  fun h =>
    match c h with
    | (Ok a, h') => k a h'
    | (Raise e, h') => (Raise e, h')
    end.

Definition raise {A : Type} (e : PyException) : M A :=
  fun h => (Raise e, h).

(** [try: body / except Exception as e: handler e]; the writes the body
    made before it raised are kept. *)
Definition try_except {A : Type} (body : M A) (handler : PyException -> M A)
  : M A :=
  fun h =>
    match body h with
    | (Ok a, h') => (Ok a, h')
    | (Raise e, h') => handler e h'
    end.

Definition lift {A : Type} (r : Result A) : M A := fun h => (r, h).

Definition get_state : M ValidationState := fun h => (Ok (state h), h).

Definition modify_state (f : ValidationState -> ValidationState) : M unit :=
  fun h => (Ok tt, mkHeap (f (state h)) (env h)).

(** The item assignments [state[key] = value]. *)
Definition set_status (v : ValidationStatus) : M unit :=
  modify_state (fun s =>
    mkState (json_data s) (schema s) (custom_rules s) v (schema_errors s)
            (semantic_errors s) (is_valid s) (validation_report s)).

Definition set_schema_errors (v : list string) : M unit :=
  modify_state (fun s =>
    mkState (json_data s) (schema s) (custom_rules s) (status s) v
            (semantic_errors s) (is_valid s) (validation_report s)).

Definition set_semantic_errors (v : pyvalue) : M unit :=
  modify_state (fun s =>
    mkState (json_data s) (schema s) (custom_rules s) (status s)
            (schema_errors s) v (is_valid s) (validation_report s)).

Definition set_is_valid (v : bool) : M unit :=
  modify_state (fun s =>
    mkState (json_data s) (schema s) (custom_rules s) (status s)
            (schema_errors s) (semantic_errors s) v (validation_report s)).

Definition set_validation_report (v : ValidationReport) : M unit :=
  modify_state (fun s =>
    mkState (json_data s) (schema s) (custom_rules s) (status s)
            (schema_errors s) (semantic_errors s) (is_valid s) (Some v)).

(** [validate(instance=..., schema=...)] *)
Definition validate (instance : Document X) (sch : Schema X) : M unit :=
  match jsonschema_validate X instance sch with
  | None => ret tt
  | Some e => raise e
  end.

(** [self.llm.invoke(messages)], returning [response.content]. *)
Definition llm_call (messages : list Message) : M string :=
  fun h =>
    let (r, w) := llm_invoke X messages (judge (env h)) in
    (r, mkHeap (state h)
               (mkEnv w (invocations (env h) ++ [messages])%list)).

Declare Scope py_scope.
Notation "x <- c ;; k" := (bind c (fun x => k))
  (at level 61, c at next level, right associativity) : py_scope.
Notation "c ;; k" := (bind c (fun _ => k))
  (at level 61, right associativity) : py_scope.
Local Open Scope py_scope.

(** *** The nodes of the graph *)

(** Validate JSON against schema. *)
Definition schema_validation_node : M unit :=
  try_except
    (st <- get_state ;;
     validate (json_data st) (schema st) ;;
     set_status SCHEMA_VALID ;;
     set_schema_errors [])
    (fun e =>
       if ExcClass_eqb (exc_class e) ValidationError then
         set_status SCHEMA_INVALID ;;
         set_schema_errors [exc_str e]
       else
         set_status SCHEMA_INVALID ;;
         set_schema_errors ["Schema validation error: " ++ exc_str e]).

(** Validate JSON using the LLM for semantic rules. *)
Definition semantic_validation_node : M unit :=
  st <- get_state ;;
  if ValidationStatus_eqb (status st) SCHEMA_INVALID then
    set_semantic_errors (PyList [PyStr skipped_message])
  else
    try_except
      (st <- get_state ;;
       dumped <- lift (json_dumps X (json_data st)) ;;
       let messages := messages_for dumped (custom_rules st) in
       content <- llm_call messages ;;
       try_except
         (validation_result <- lift (json_loads X content) ;;
          v <- lift (dict_get validation_result "is_valid" (PyBool false)) ;;
          if py_truthy v then
            set_status SEMANTIC_VALID ;;
            set_semantic_errors (PyList [])
          else
            set_status SEMANTIC_INVALID ;;
            errs <- lift (dict_get validation_result "errors"
                            (PyList [PyStr default_semantic_failure])) ;;
            set_semantic_errors errs)
         (fun e =>
            if ExcClass_eqb (exc_class e) JSONDecodeError then
              set_status SEMANTIC_INVALID ;;
              set_semantic_errors (PyList [PyStr parse_failure_message])
            else raise e))
      (fun e =>
         set_status SEMANTIC_INVALID ;;
         set_semantic_errors
           (PyList [PyStr ("Semantic validation error: " ++ exc_str e)])).

(** Generate a human-readable summary of validation results. *)
Definition _generate_summary (st : ValidationState) : Result string :=
  if is_valid st then Ok valid_summary
  else
    let issues :=
      match schema_errors st with
      | [] => []
      | _ :: _ =>
          ["Schema validation failed: "
             ++ String.concat "; " (schema_errors st)]
      end in
    match
      (if py_truthy (semantic_errors st) then
         match py_join "; " (semantic_errors st) with
         | Ok joined =>
             Ok (List.app issues ["Semantic validation failed: " ++ joined])
         | Raise e => Raise e
         end
       else Ok issues)
    with
    | Ok issues =>
        Ok ("JSON data is invalid. Issues found: "
              ++ String.concat " | " issues)
    | Raise e => Raise e
    end.

(** Final assessment and report generation.  The items of the report are
    evaluated in the order they are written. *)
Definition final_assessment_node : M unit :=
  st <- get_state ;;
  let schema_valid :=
    existsb (ValidationStatus_eqb (status st))
            [SCHEMA_VALID; SEMANTIC_VALID; SEMANTIC_INVALID] in
  let semantic_valid := ValidationStatus_eqb (status st) SEMANTIC_VALID in
  set_is_valid (schema_valid && semantic_valid) ;;
  set_status COMPLETE ;;
  st <- get_state ;;
  let schema_passed := Nat.eqb (List.length (schema_errors st)) 0 in
  semantic_len <- lift (py_len (semantic_errors st)) ;;
  let semantic_passed := Nat.eqb semantic_len 0 in
  text <- lift (_generate_summary st) ;;
  set_validation_report
    (mkReport (is_valid st)
              (mkPhase schema_passed (schema_errors st))
              (mkPhase semantic_passed (semantic_errors st))
              text).

(** *** The graph and its execution *)

(** Decide whether to continue to semantic validation. *)
Definition should_continue_to_semantic (st : ValidationState) : NodeName :=
  if ValidationStatus_eqb (status st) SCHEMA_VALID
  then Node.semantic_validation
  else Node.final_assessment.

(** A compiled [StateGraph]: the node functions, the entry point, and for
    each node where the run goes after it, given the state the node left. *)
Record CompiledGraph : Type := mkGraph {
  node_fn : NodeName -> M unit;
  entry_point : NodeName;
  next_of : NodeName -> ValidationState -> Target
}.

(** Build the LangGraph workflow for JSON validation. *)
Definition _build_workflow : CompiledGraph :=
  mkGraph
    (fun n =>
       match n with
       | Node.schema_validation => schema_validation_node
       | Node.semantic_validation => semantic_validation_node
       | Node.final_assessment => final_assessment_node
       end)
    Node.schema_validation
    (fun n st =>
       match n with
       | Node.schema_validation => Goto (should_continue_to_semantic st)
       | Node.semantic_validation => Goto Node.final_assessment
       | Node.final_assessment => END
       end).

(** The run loop: call the node, follow its edge, stop at [END]; a run that
    takes more steps than the limit raises [GraphRecursionError]. *)
Fixpoint run_from (g : CompiledGraph) (fuel : nat) (n : NodeName) : M unit :=
  match fuel with
  | O => raise (mkExc GraphRecursionError
                  "Recursion limit reached without hitting a stop condition")
  | S fuel' =>
      node_fn g n ;;
      st <- get_state ;;
      match next_of g n st with
      | END => ret tt
      | Goto n' => run_from g fuel' n'
      end
  end.

Definition invoke (g : CompiledGraph) : M unit :=
  run_from g recursion_limit (entry_point g).

(** Validate JSON data against schema and custom rules: the report, or the
    exception that escaped the run. *)
Definition validate_json (json_data0 : Document X) (schema0 : Schema X)
  (custom_rules0 : list string) (e0 : Env)
  : Result (option ValidationReport) * Env :=
  let initial_state :=
    mkState json_data0 schema0 custom_rules0 PENDING [] (PyList []) false None
  in
  match invoke _build_workflow (mkHeap initial_state e0) with
  | (Ok _, h) => (Ok (validation_report (state h)), env h)
  | (Raise e, h) => (Raise e, env h)
  end.

End Workflow.

Arguments mkState {X}.
Arguments mkEnv {X}.
Arguments mkHeap {X}.
Arguments json_data {X}.
Arguments schema {X}.
Arguments custom_rules {X}.
Arguments status {X}.
Arguments schema_errors {X}.
Arguments semantic_errors {X}.
Arguments is_valid {X}.
Arguments validation_report {X}.
Arguments judge {X}.
Arguments invocations {X}.
Arguments state {X}.
Arguments env {X}.

(** The state [validate_json] starts the run with. *)
Definition initial_state (X : Externals) (d : Document X) (s : Schema X)
  (rules : list string) : ValidationState X :=
  mkState d s rules PENDING [] (PyList []) false None.

(** The heap after the structural node of a run, and after the semantic
    node run on it. *)
Definition after_schema (X : Externals) (d : Document X) (s : Schema X)
  (rules : list string) (e0 : Env X) : Heap X :=
  snd (schema_validation_node X (mkHeap (initial_state X d s rules) e0)).

Definition after_semantic (X : Externals) (d : Document X) (s : Schema X)
  (rules : list string) (e0 : Env X) : Heap X :=
  snd (semantic_validation_node X (after_schema X d s rules e0)).

(** The status and the semantic errors the semantic node is shown below to
    store for a reply of the judge ([semantic_verdict_correct]); a summary
    of the two nested [try] blocks used in the proofs. *)
Definition recovered (ex : PyException) : ValidationStatus * pyvalue :=
  (SEMANTIC_INVALID,
   PyList [PyStr ("Semantic validation error: " ++ exc_str ex)]).

Definition semantic_verdict (X : Externals) (reply : Result string)
  : ValidationStatus * pyvalue :=
  match reply with
  | Raise ex => recovered ex
  | Ok content =>
      match json_loads X content with
      | Raise ex =>
          if ExcClass_eqb (exc_class ex) JSONDecodeError
          then (SEMANTIC_INVALID, PyList [PyStr parse_failure_message])
          else recovered ex
      | Ok validation_result =>
          match dict_get validation_result "is_valid" (PyBool false) with
          | Raise ex => recovered ex
          | Ok v =>
              if py_truthy v then (SEMANTIC_VALID, PyList [])
              else
                match dict_get validation_result "errors"
                        (PyList [PyStr default_semantic_failure]) with
                | Raise ex => recovered ex
                | Ok errs => (SEMANTIC_INVALID, errs)
                end
          end
      end
  end.

(** A judge is a function of its request when its reply does not depend on
    its hidden state. *)
Definition judge_deterministic (X : Externals) : Prop :=
  forall (messages : list Message) (w1 w2 : World X),
    fst (llm_invoke X messages w1) = fst (llm_invoke X messages w2).

(** Python's falsy values, as [if] sees them. *)
Definition falsy (v : pyvalue) : Prop := py_truthy v = false.

(** ** Test doubles

    Small stand-ins for the collaborators, used to run the workflow on
    concrete inputs.  Documents and schemas are Python values. *)
Module Fixture.

(** The JSON texts the doubles know, written with [dq] for the quote. *)
Definition key (k : string) : string := dq ++ k ++ dq.
Definition payload_pass : string :=
  "{" ++ key "is_valid" ++ ": true, " ++ key "errors" ++ ": []}".
Definition payload_fail_bare : string :=
  "{" ++ key "is_valid" ++ ": false}".
Definition payload_errors_null : string :=
  "{" ++ key "is_valid" ++ ": false, " ++ key "errors" ++ ": null}".
Definition payload_string_false : string :=
  "{" ++ key "is_valid" ++ ": " ++ dq ++ "false" ++ dq ++ "}".
Definition payload_not_json : string := "not json".

Definition decode_error : PyException :=
  mkExc JSONDecodeError "Expecting value: line 1 column 1 (char 0)".

(** [json.loads] on the payloads above; it agrees with Python on each of
    them, and is not meant for any other text. *)
Definition loads (text : string) : Result pyvalue :=
  if String.eqb text payload_pass then
    Ok (PyDict [("is_valid", PyBool true); ("errors", PyList [])])
  else if String.eqb text payload_fail_bare then
    Ok (PyDict [("is_valid", PyBool false)])
  else if String.eqb text payload_errors_null then
    Ok (PyDict [("is_valid", PyBool false); ("errors", PyNone)])
  else if String.eqb text payload_string_false then
    Ok (PyDict [("is_valid", PyStr "false")])
  else Raise decode_error.

(** [json.dumps(., indent=2)], exact on the empty dictionary, the only
    document the runs below pass to the judge. *)
Definition dumps (d : pyvalue) : Result string :=
  match d with
  | PyDict [] => Ok "{}"
  | _ => Ok "{...}"
  end.

Fixpoint first_missing (required : list pyvalue)
  (items : list (string * pyvalue)) : option string :=
  match required with
  | [] => None
  | PyStr k :: rest =>
      match assoc_get k items with
      | Some _ => first_missing rest items
      | None => Some k
      end
  | _ :: rest => first_missing rest items
  end.

(** [jsonschema.validate] for schemas that at most list [required] keys: a
    schema that is not a dictionary is refused with a [SchemaError], a
    dictionary instance that lacks a required key with a [ValidationError]
    (here with the first line of the message of the library). *)
Definition check (instance sch : pyvalue) : option PyException :=
  match sch with
  | PyDict schema_items =>
      match assoc_get "required" schema_items, instance with
      | Some (PyList required), PyDict items =>
          match first_missing required items with
          | Some k =>
              Some (mkExc ValidationError ("'" ++ k ++ "' is a required property"))
          | None => None
          end
      | _, _ => None
      end
  | _ =>
      Some (mkExc OtherException
              "schema is not of type 'object', 'boolean'")
  end.

(** A judge that gives the same reply to every request and counts the
    requests it served in its hidden state. *)
Definition constant_judge (reply : Result string)
  (messages : list Message) (served : nat) : Result string * nat :=
  (reply, S served).

Definition externals (reply : Result string) : Externals :=
  mkExternals pyvalue pyvalue nat check dumps loads (constant_judge reply).

(** A judge whose replies are scripted in its hidden state: it answers
    with the next one, and refuses the connection when none is left. *)
Definition scripted_judge (messages : list Message)
  (script : list (Result string)) : Result string * list (Result string) :=
  match script with
  | reply :: rest => (reply, rest)
  | [] => (Raise (mkExc OtherException "Connection error."), [])
  end.

Definition scripted : Externals :=
  mkExternals pyvalue pyvalue (list (Result string)) check dumps loads
              scripted_judge.

Definition empty_document : pyvalue := PyDict [].
Definition any_schema : pyvalue := PyDict [].
Definition user_schema : pyvalue :=
  PyDict [("required", PyList [PyStr "user"])].
Definition broken_schema : pyvalue := PyInt 5.
Definition sample_rules : list string :=
  ["Version should follow semantic versioning format (e.g., 1.0.0)"].
Definition network_down : PyException :=
  mkExc OtherException "Connection error.".

Definition fresh (reply : Result string) : Env (externals reply) :=
  mkEnv (X := externals reply) 0 [].

(** The state a run reaches when the judge reports one violation. *)
Definition failed_state : ValidationState (externals (Ok "unused")) :=
  mkState (X := externals (Ok "unused")) empty_document any_schema []
          SEMANTIC_INVALID [] (PyList [PyStr "too young"]) false None.

(** [json.loads] on the text of the empty list, and a judge that answers
    with that text. *)
Definition loads_list (text : string) : Result pyvalue :=
  if String.eqb text "[]" then Ok (PyList []) else Raise decode_error.

Definition list_reply : Externals :=
  mkExternals pyvalue pyvalue nat check dumps loads_list
              (constant_judge (Ok "[]")).

(** [json.loads] given by a table of the texts it knows, and a judge that
    answers with one text. *)
Definition loads_table (table : list (string * pyvalue)) (text : string)
  : Result pyvalue :=
  match assoc_get text table with
  | Some v => Ok v
  | None => Raise decode_error
  end.

Definition replying (table : list (string * pyvalue))
  (reply : Result string) : Externals :=
  mkExternals pyvalue pyvalue nat check dumps (loads_table table)
              (constant_judge reply).

Definition payload_too_young : string :=
  "{" ++ key "is_valid" ++ ": false, " ++ key "errors" ++ ": ["
      ++ dq ++ "too young" ++ dq ++ "]}".
Definition decoded_too_young : pyvalue :=
  PyDict [("is_valid", PyBool false);
          ("errors", PyList [PyStr "too young"])].
Definition too_young : Externals :=
  replying [(payload_too_young, decoded_too_young)] (Ok payload_too_young).

Definition payload_errors_text : string :=
  "{" ++ key "is_valid" ++ ": false, " ++ key "errors" ++ ": "
      ++ dq ++ "bad" ++ dq ++ "}".
Definition decoded_errors_text : pyvalue :=
  PyDict [("is_valid", PyBool false); ("errors", PyStr "bad")].
Definition errors_text : Externals :=
  replying [(payload_errors_text, decoded_errors_text)]
           (Ok payload_errors_text).

(** A document that [json.dumps] refuses: here every document but the
    empty dictionary, to have one at hand. *)
Definition dumps_strict (d : pyvalue) : Result string :=
  match d with
  | PyDict [] => Ok "{}"
  | _ => Raise (mkExc TypeError "Object of type set is not JSON serializable")
  end.
Definition unserializable : Externals :=
  mkExternals pyvalue pyvalue nat check dumps_strict loads
              (constant_judge (Ok payload_pass)).

End Fixture.

(** ** The command-line program ([main.py]) and its data ([test_data.py]) *)

(** What the program writes to standard output, call by call: a [print]
    writes its text and a newline, an [input] writes its prompt, and
    [Written] is a text written as it is. *)
Inductive OutEvent : Type :=
| Printed (text : string)
| Prompted (text : string)
| Written (text : string).

(** The exceptions the program can meet: those of the validator, and the
    builtin ones its own calls raise.  [JSONDecodeError] is a subclass of
    [ValueError]; [OtherException] is taken to be none of the classes named
    here.  A [SyntaxError] carries its [lineno], its [msg] and the text of
    [str(e)]. *)
Inductive ShellExc : Type :=
| FromCore (e : PyException)
| ValueError (message : string)
| FileNotFoundError (message : string)
| KeyError (message : string)
| SyntaxError (lineno : option nat) (msg : string) (text : string)
| EOFError.

(** [str(e)] *)
Definition shell_str (e : ShellExc) : string :=
  match e with
  | FromCore ex => exc_str ex
  | ValueError message => message
  | FileNotFoundError message => message
  | KeyError message => message
  | SyntaxError _ _ text => text
  | EOFError => "EOF when reading a line"
  end.

(** [isinstance(e, ValueError)], [isinstance(e, json.JSONDecodeError)] and
    [isinstance(e, FileNotFoundError)] *)
Definition is_ValueError (e : ShellExc) : bool :=
  match e with
  | ValueError _ => true
  | FromCore ex => ExcClass_eqb (exc_class ex) JSONDecodeError
  | _ => false
  end.

Definition is_JSONDecodeError (e : ShellExc) : bool :=
  match e with
  | FromCore ex => ExcClass_eqb (exc_class ex) JSONDecodeError
  | _ => false
  end.

Definition is_FileNotFoundError (e : ShellExc) : bool :=
  match e with
  | FileNotFoundError _ => true
  | _ => false
  end.

Inductive Outcome (A : Type) : Type :=
| Returned (a : A)
| Thrown (e : ShellExc).
Arguments Returned {A} a.
Arguments Thrown {A} e.

(** The collaborators of the program: those of the validator, on documents
    and schemas that are Python values, and
    - [new_validator]: [JSONValidator()], which builds the chat client and
      raises when it cannot ([None] when it returns);
    - [str_of]: [str(v)] for a value that is not a [str];
    - [int_of]: [int(text)], [None] when it raises [ValueError];
    - [load_json_file]: [open(path, 'r')] followed by [json.load];
    - [help_text]: what [parser.print_help()] writes;
    - [read_source]: [open(filename, 'r')] followed by [read()];
    - [ast_parse]: [ast.parse(source)], [None] when it returns. *)
Record Shell : Type := mkShell {
  Judge : Type;
  check_schema : pyvalue -> pyvalue -> option PyException;
  dumps_indent2 : pyvalue -> Result string;
  loads_text : string -> Result pyvalue;
  chat : list Message -> Judge -> Result string * Judge;
  new_validator : option PyException;
  str_of : pyvalue -> string;
  int_of : string -> option Z;
  load_json_file : string -> Outcome pyvalue;
  help_text : string;
  read_source : string -> Outcome string;
  ast_parse : string -> option ShellExc
}.

Definition core (S : Shell) : Externals :=
  mkExternals pyvalue pyvalue (Judge S) (check_schema S) (dumps_indent2 S)
              (loads_text S) (chat S).

(** [s * n] *)
Fixpoint py_repeat (s : string) (n : nat) : string :=
  match n with
  | O => ""
  | S n' => s ++ py_repeat s n'
  end.

(** The decimal text of a natural number, as an f-string writes it. *)
Definition nat_text (n : nat) : string :=
  NilZero.string_of_uint (Nat.to_uint n).

(** [str(b)] *)
Definition bool_text (b : bool) : string :=
  if b then "True" else "False".

(** The text made of the given bytes. *)
Definition text_of_bytes (codes : list nat) : string :=
  string_of_list_ascii (List.map ascii_of_nat codes).

(** The characters for which [str.isspace] holds, which are the ones
    [str.strip] removes: U+0009 to U+000D, U+001C to U+0020, U+0085, U+00A0,
    U+1680, U+2000 to U+200A, U+2028, U+2029, U+202F, U+205F and U+3000. *)
Definition whitespace : list string :=
  List.map text_of_bytes
    [ [9]; [10]; [11]; [12]; [13]; [28]; [29]; [30]; [31]; [32];
      [194; 133]; [194; 160]; [225; 154; 128];
      [226; 128; 128]; [226; 128; 129]; [226; 128; 130]; [226; 128; 131];
      [226; 128; 132]; [226; 128; 133]; [226; 128; 134]; [226; 128; 135];
      [226; 128; 136]; [226; 128; 137]; [226; 128; 138];
      [226; 128; 168]; [226; 128; 169]; [226; 128; 175];
      [226; 129; 159]; [227; 128; 128] ]%nat.

Definition is_space (ch : string) : bool :=
  List.existsb (String.eqb ch) whitespace.

(** The characters left once the leading spaces are dropped. *)
Fixpoint lstrip (chars : list string) : list string :=
  match chars with
  | ch :: rest => if is_space ch then lstrip rest else chars
  | [] => []
  end.

(** The same at the other end. *)
Definition rstrip (chars : list string) : list string :=
  List.rev (lstrip (List.rev chars)).

(** [s.strip()] *)
Definition py_strip (s : string) : string :=
  String.concat "" (rstrip (lstrip (chars_of s))).

(** What a [for] loop over [v] visits: the items of a list, the characters
    of a string, the keys of a dictionary. *)
Definition py_iter (v : pyvalue) : Result (list pyvalue) :=
  match v with
  | PyList items => Ok items
  | PyStr s => Ok (List.map PyStr (chars_of s))
  | PyDict items => Ok (List.map (fun kv => PyStr (fst kv)) items)
  | _ => Raise (mkExc TypeError
                  ("'" ++ py_type_name v ++ "' object is not iterable"))
  end.

(** *** Sample schema, rules and test data *)

(** Create a sample JSON schema for testing. *)
Definition create_sample_schema : pyvalue :=
  PyDict
    [("type", PyStr "object");
     ("properties",
      PyDict
        [("user",
          PyDict
            [("type", PyStr "object");
             ("properties",
              PyDict
                [("id", PyDict [("type", PyStr "integer");
                                ("minimum", PyInt 1)]);
                 ("name", PyDict [("type", PyStr "string");
                                  ("minLength", PyInt 1)]);
                 ("email", PyDict [("type", PyStr "string");
                                   ("format", PyStr "email")]);
                 ("age", PyDict [("type", PyStr "integer");
                                 ("minimum", PyInt 0);
                                 ("maximum", PyInt 150)]);
                 ("roles",
                  PyDict [("type", PyStr "array");
                          ("items", PyDict [("type", PyStr "string")]);
                          ("minItems", PyInt 1)])]);
             ("required",
              PyList [PyStr "id"; PyStr "name"; PyStr "email"; PyStr "age";
                      PyStr "roles"])]);
         ("metadata",
          PyDict
            [("type", PyStr "object");
             ("properties",
              PyDict
                [("created_at", PyDict [("type", PyStr "string");
                                        ("format", PyStr "date-time")]);
                 ("version", PyDict [("type", PyStr "string")])]);
             ("required", PyList [PyStr "created_at"; PyStr "version"])])]);
     ("required", PyList [PyStr "user"; PyStr "metadata"])].

(** Create sample custom validation rules. *)
Definition create_sample_rules : list string :=
  ["User age must be reasonable for the assigned roles (e.g., admin role requires age >= 18)";
   "Email domain should be from a business domain (not personal email providers like gmail, yahoo)";
   "User name should not contain special characters or numbers";
   "At least one role must be assigned, and roles should be from: ['user', 'admin', 'moderator', 'guest']";
   "Version should follow semantic versioning format (e.g., 1.0.0)";
   "Created timestamp should not be in the future"].

(** A document of the shape all the test data have. *)
Definition user_record (id name email age : pyvalue) (roles : list string)
  (metadata : list (string * pyvalue)) : pyvalue :=
  PyDict
    [("user",
      PyDict [("id", id); ("name", name); ("email", email); ("age", age);
              ("roles", PyList (List.map PyStr roles))]);
     ("metadata", PyDict metadata)].

(** Returns valid JSON data that should pass all validations. *)
Definition get_valid_test_data : pyvalue :=
  user_record (PyInt 123) (PyStr "John Smith")
    (PyStr "john.smith@company.com") (PyInt 28) ["admin"; "user"]
    [("created_at", PyStr "2024-01-15T10:30:00Z");
     ("version", PyStr "1.2.0")].

(** Returns JSON data that fails schema validation. *)
Definition get_invalid_schema_data : pyvalue :=
  user_record (PyStr "not_a_number") (PyStr "") (PyStr "invalid-email")
    (PyInt (-5)) []
    [("created_at", PyStr "invalid-date")].

(** Returns JSON data that passes schema but fails semantic rules. *)
Definition get_invalid_semantic_data : pyvalue :=
  user_record (PyInt 456) (PyStr "User123!@#") (PyStr "user@gmail.com")
    (PyInt 16) ["admin"; "invalid_role"]
    [("created_at", PyStr "2025-12-31T23:59:59Z");
     ("version", PyStr "invalid.version.format")].

(** Returns various edge cases for testing. *)
Definition get_edge_case_data : list pyvalue :=
  [user_record (PyInt 1) (PyStr "Young User") (PyStr "young@company.com")
     (PyInt 0) ["guest"]
     [("created_at", PyStr "2024-01-01T00:00:00Z");
      ("version", PyStr "0.1.0")];
   user_record (PyInt 2) (PyStr "Senior User")
     (PyStr "senior@enterprise.org") (PyInt 150) ["user"]
     [("created_at", PyStr "2024-06-15T12:00:00Z");
      ("version", PyStr "10.0.0")];
   user_record (PyInt 3) (PyStr "Multi Role User")
     (PyStr "multi@business.net") (PyInt 35)
     ["admin"; "moderator"; "user"]
     [("created_at", PyStr "2024-03-20T08:30:00Z");
      ("version", PyStr "2.1.3")]].

(** Returns business-specific validation rules. *)
Definition get_business_rules : list string :=
  ["User age must be reasonable for the assigned roles (e.g., admin role requires age >= 18)";
   "Email domain should be from a business domain (not personal email providers like gmail, yahoo, hotmail)";
   "User name should not contain special characters or numbers";
   "At least one role must be assigned, and roles should be from: ['user', 'admin', 'moderator', 'guest']";
   "Version should follow semantic versioning format (e.g., 1.0.0)";
   "Created timestamp should not be in the future"].

(** Returns stricter business validation rules. *)
Definition get_strict_business_rules : list string :=
  ["Admin users must be at least 21 years old";
   "Moderator users must be at least 18 years old";
   "Email domain must be from approved corporate domains: ['company.com', 'enterprise.org', 'business.net']";
   "User names must be between 2 and 50 characters and contain only letters and spaces";
   "Users can have maximum 3 roles assigned";
   "Version must be a stable release (no pre-release identifiers like alpha, beta, rc)";
   "Created timestamp must be within the last 2 years"].

(** Returns technical validation rules. *)
Definition get_technical_rules : list string :=
  ["User ID must be a positive integer and unique within the system";
   "Email must be a valid RFC 5322 compliant email address";
   "Age must be between 0 and 150 years";
   "Roles array must not contain duplicates";
   "Version must follow semantic versioning specification (semver.org)";
   "Created timestamp must be in ISO 8601 format with UTC timezone"].

(** *** The program *)

Section Program.

Variable sh : Shell.

(** The world of the program: the lines still to be read from standard
    input, what was written to standard output, and the environment of the
    validator. *)
Record Console : Type := mkConsole {
  stdin : list string;
  stdout : list OutEvent;
  session : Env (core sh)
}.

Definition IO (A : Type) : Type := Console -> Outcome A * Console.

Definition io_ret {A : Type} (a : A) : IO A := fun c => (Returned a, c).

Definition io_bind {A B : Type} (m : IO A) (k : A -> IO B) : IO B :=
  fun c =>
    match m c with
    | (Returned a, c') => k a c'
    | (Thrown e, c') => (Thrown e, c')
    end.

Definition io_raise {A : Type} (e : ShellExc) : IO A :=
  fun c => (Thrown e, c).

(** [try: body / except ...: handler e], where [handler] re-raises what no
    clause catches. *)
Definition io_try {A : Type} (body : IO A) (handler : ShellExc -> IO A)
  : IO A :=
  fun c =>
    match body c with
    | (Returned a, c') => (Returned a, c')
    | (Thrown e, c') => handler e c'
    end.

(** The result of a call of the validator's library code. *)
Definition io_lift {A : Type} (r : Result A) : IO A :=
  fun c =>
    match r with
    | Ok a => (Returned a, c)
    | Raise e => (Thrown (FromCore e), c)
    end.

(** [print(text)] on a standard output that can encode the text.  (On a
    UTF-8 terminal that is every text without a lone surrogate; writing one
    raises [UnicodeEncodeError], which the console does not model.) *)
Definition print (text : string) : IO unit :=
  fun c =>
    (Returned tt,
     mkConsole (stdin c) (stdout c ++ [Printed text])%list (session c)).

(** [input(prompt)]: the prompt is written, then a line is read;
    [EOFError] when standard input is exhausted. *)
Definition input (prompt : string) : IO string :=
  fun c =>
    let written := (stdout c ++ [Prompted prompt])%list in
    match stdin c with
    | line :: rest => (Returned line, mkConsole rest written (session c))
    | [] => (Thrown EOFError, mkConsole [] written (session c))
    end.

(** [JSONValidator()] *)
Definition JSONValidator : IO unit :=
  match new_validator sh with
  | None => io_ret tt
  | Some e => io_raise (FromCore e)
  end.

(** [validator.validate_json(json_data, schema, rules)] *)
Definition call_validate_json (json_data sch : pyvalue)
  (rules : list string) : IO (option ValidationReport) :=
  fun c =>
    match validate_json (core sh) json_data sch rules (session c) with
    | (Ok report, e) =>
        (Returned report, mkConsole (stdin c) (stdout c) e)
    | (Raise ex, e) =>
        (Thrown (FromCore ex), mkConsole (stdin c) (stdout c) e)
    end.

Declare Scope io_scope.
Notation "x <- c ;; k" := (io_bind c (fun x => k))
  (at level 61, c at next level, right associativity) : io_scope.
Notation "c ;; k" := (io_bind c (fun _ => k))
  (at level 61, right associativity) : io_scope.
Local Open Scope io_scope.

(** [for x in items: body x] *)
Fixpoint for_each {A : Type} (items : list A) (body : A -> IO unit)
  : IO unit :=
  match items with
  | [] => io_ret tt
  | x :: rest => body x ;; for_each rest body
  end.

(** [enumerate(items, start)] *)
Fixpoint enumerate {A : Type} (items : list A) (start : nat)
  : list (nat * A) :=
  match items with
  | [] => []
  | x :: rest => (start, x) :: enumerate rest (S start)
  end.

(** Print a formatted separator. *)
Definition print_separator (title : string) : IO unit :=
  if negb (String.eqb title "") then
    print (nl ++ py_repeat "=" 20 ++ " " ++ title ++ " " ++ py_repeat "=" 20)
  else
    print (py_repeat "=" 60).

(** How an f-string writes a value. *)
Definition format_value (v : pyvalue) : string :=
  match v with
  | PyStr s => s
  | _ => str_of sh v
  end.

(** Print formatted validation results.  [result] is the dictionary
    [validate_json] returned; [None] stands for the empty one. *)
Definition print_validation_result (result : option ValidationReport)
  (title : string) : IO unit :=
  print_separator title ;;
  match result with
  | None => io_raise (KeyError "'overall_valid'")
  | Some report =>
      print ("Overall Valid: " ++ bool_text (overall_valid report)) ;;
      print ("Schema Validation: "
               ++ (if passed (schema_validation report)
                   then "✓ PASSED" else "✗ FAILED")) ;;
      print ("Semantic Validation: "
               ++ (if passed (semantic_validation report)
                   then "✓ PASSED" else "✗ FAILED")) ;;
      (match errors (schema_validation report) with
       | [] => io_ret tt
       | _ :: _ =>
           print (nl ++ "Schema Errors:") ;;
           for_each (errors (schema_validation report))
                    (fun error => print ("  - " ++ error))
       end) ;;
      (if py_truthy (errors (semantic_validation report)) then
         print (nl ++ "Semantic Errors:") ;;
         visited <- io_lift (py_iter (errors (semantic_validation report))) ;;
         for_each visited
                  (fun error => print ("  - " ++ format_value error))
       else io_ret tt) ;;
      print (nl ++ "Summary: " ++ summary report)
  end.

(** The list [test_cases] of [run_demo], and [test_options] of
    [validate_predefined_data], given the names of the first three and the
    prefix of the others. *)
Definition named_cases (valid invalid_schema invalid_semantic prefix : string)
  : list (string * pyvalue) :=
  List.app
    [(valid, get_valid_test_data);
     (invalid_schema, get_invalid_schema_data);
     (invalid_semantic, get_invalid_semantic_data)]
    (List.map (fun ic => (prefix ++ nat_text (fst ic), snd ic))
              (enumerate get_edge_case_data 1)).

(** Run a comprehensive demonstration of the JSON validator. *)
Definition run_demo : IO unit :=
  print "LangGraph JSON Rules Validator - Demo" ;;
  print_separator "" ;;
  initialized <-
    io_try
      (JSONValidator ;;
       print "✓ JSON Validator initialized successfully" ;;
       io_ret true)
      (fun e =>
         print ("✗ Failed to initialize validator: " ++ shell_str e) ;;
         print "Make sure you have set your OPENAI_API_KEY in a .env file" ;;
         io_ret false) ;;
  if negb initialized then io_ret tt
  else
    let sch := create_sample_schema in
    let rules := get_business_rules in
    print (nl ++ "Using " ++ nat_text (List.length rules)
              ++ " business rules for validation:") ;;
    for_each (enumerate rules 1)
             (fun ir => print ("  " ++ nat_text (fst ir) ++ ". " ++ snd ir)) ;;
    let test_cases :=
      named_cases "Valid Data" "Invalid Schema Data" "Invalid Semantic Data"
                  "Edge Case " in
    for_each test_cases
      (fun case =>
         print_separator ("Testing: " ++ fst case) ;;
         print "JSON Data:" ;;
         dumped <- io_lift (dumps_indent2 sh (snd case)) ;;
         print dumped ;;
         io_try
           (result <- call_validate_json (snd case) sch rules ;;
            print_validation_result result "Validation Result")
           (fun e =>
              print ("✗ Validation failed with error: " ++ shell_str e)) ;;
         print "").

(** The loop of [validate_custom_json] that reads the JSON text: lines are
    collected until an empty line follows an empty line.  [fuel] is the
    number of lines standard input holds when the loop is entered; the
    branch for [O] after a successful [input] is never taken
    ([read_json_lines] below starts the loop with that number). *)
Fixpoint read_json_lines_loop (fuel : nat) (json_lines : list string)
  : IO (list string) :=
  line <- input "" ;;
  if String.eqb line ""
     && negb (match json_lines with [] => true | _ :: _ => false end)
     && String.eqb (List.last json_lines "x") ""
  then io_ret json_lines
  else
    match fuel with
    | O => io_raise EOFError
    | S fuel' => read_json_lines_loop fuel' (json_lines ++ [line])%list
    end.

Definition read_json_lines : IO (list string) :=
  fun c => read_json_lines_loop (List.length (stdin c)) [] c.

(** The loop that reads custom rules, one per line, up to an empty line. *)
Fixpoint read_rules_loop (fuel : nat) (rules : list string)
  : IO (list string) :=
  rule <- input "" ;;
  if String.eqb rule "" then io_ret rules
  else
    match fuel with
    | O => io_raise EOFError
    | S fuel' => read_rules_loop fuel' (rules ++ [rule])%list
    end.

Definition read_rules : IO (list string) :=
  fun c => read_rules_loop (List.length (stdin c)) [] c.

(** Handle custom JSON validation. *)
Definition validate_custom_json : IO unit :=
  print (nl ++ "Custom JSON Validation") ;;
  print (py_repeat "-" 30) ;;
  print "Enter your JSON data (press Enter twice when done):" ;;
  json_lines <- read_json_lines ;;
  let json_text := String.concat nl (List.removelast json_lines) in
  parsed <-
    io_try
      (json_data <- io_lift (loads_text sh json_text) ;;
       io_ret (Some json_data))
      (fun e =>
         if is_JSONDecodeError e then
           print ("✗ Invalid JSON format: " ++ shell_str e) ;;
           io_ret None
         else io_raise e) ;;
  match parsed with
  | None => io_ret tt
  | Some json_data =>
      print (nl ++ "Select rule set:") ;;
      print "1. Business rules" ;;
      print "2. Strict business rules" ;;
      print "3. Technical rules" ;;
      print "4. Custom rules" ;;
      answer <- input "Enter choice (1-4): " ;;
      let rule_choice := py_strip answer in
      rules <-
        (if String.eqb rule_choice "1" then io_ret get_business_rules
         else if String.eqb rule_choice "2"
         then io_ret get_strict_business_rules
         else if String.eqb rule_choice "3" then io_ret get_technical_rules
         else if String.eqb rule_choice "4" then
           print "Enter custom rules (one per line, press Enter twice when done):" ;;
           read_rules
         else
           print "Invalid choice, using business rules" ;;
           io_ret get_business_rules) ;;
      let sch := create_sample_schema in
      io_try
        (result <- call_validate_json json_data sch rules ;;
         print_validation_result result "Custom JSON Validation")
        (fun e => print ("✗ Validation failed: " ++ shell_str e))
  end.

(** Handle predefined test data validation. *)
Definition validate_predefined_data : IO unit :=
  print (nl ++ "Predefined Test Data Validation") ;;
  print (py_repeat "-" 35) ;;
  let test_options :=
    named_cases "Valid test data" "Invalid schema data"
                "Invalid semantic data" "Edge case " in
  print "Select test data:" ;;
  for_each (enumerate test_options 1)
           (fun io => print (nat_text (fst io) ++ ". " ++ fst (snd io))) ;;
  io_try
    (answer <- input "Enter choice: " ;;
     number <-
       match int_of sh answer with
       | Some z => io_ret z
       | None =>
           io_raise (ValueError
                       ("invalid literal for int() with base 10: '"
                          ++ answer ++ "'"))
       end ;;
     let choice := (number - 1)%Z in
     if ((0 <=? choice)%Z
         && (choice <? Z.of_nat (List.length test_options))%Z)
     then
       match List.nth_error test_options (Z.to_nat choice) with
       | None =>
           io_raise (FromCore (mkExc OtherException
                                 "list index out of range"))
       | Some (name, data) =>
           let sch := create_sample_schema in
           let rules := get_business_rules in
           print (nl ++ "Validating: " ++ name) ;;
           print "JSON Data:" ;;
           dumped <- io_lift (dumps_indent2 sh data) ;;
           print dumped ;;
           result <- call_validate_json data sch rules ;;
           print_validation_result result "Validation Result"
       end
     else print "Invalid choice")
    (fun e =>
       if is_ValueError e then print "Please enter a valid number"
       else print ("✗ Validation failed: " ++ shell_str e)).

(** Validate JSON from a file. *)
Definition validate_file (file_path : string) : IO unit :=
  io_try
    (json_data <-
       (fun c => (load_json_file sh file_path, c)) ;;
     let sch := create_sample_schema in
     let rules := get_business_rules in
     print ("Validating file: " ++ file_path) ;;
     result <- call_validate_json json_data sch rules ;;
     print_validation_result result "Validation Result")
    (fun e =>
       if is_FileNotFoundError e then
         print ("✗ File not found: " ++ file_path)
       else if is_JSONDecodeError e then
         print ("✗ Invalid JSON in file: " ++ shell_str e)
       else print ("✗ Error validating file: " ++ shell_str e)).

(** The menu loop of [run_interactive_mode]; [fuel] is at least the number
    of lines standard input holds, and every turn reads one. *)
Fixpoint interactive_loop (fuel : nat) : IO unit :=
  print (nl ++ "Options:") ;;
  print "1. Validate custom JSON" ;;
  print "2. Use predefined test data" ;;
  print "3. Exit" ;;
  answer <- input (nl ++ "Enter your choice (1-3): ") ;;
  let choice := py_strip answer in
  if String.eqb choice "3" then print "Goodbye!"
  else
    (if String.eqb choice "1" then validate_custom_json
     else if String.eqb choice "2" then validate_predefined_data
     else print "Invalid choice. Please enter 1, 2, or 3.") ;;
    match fuel with
    | O => io_raise EOFError
    | S fuel' => interactive_loop fuel'
    end.

(** Run interactive mode for custom JSON validation. *)
Definition run_interactive_mode : IO unit :=
  print "LangGraph JSON Rules Validator - Interactive Mode" ;;
  print_separator "" ;;
  initialized <-
    io_try
      (JSONValidator ;;
       print "✓ JSON Validator initialized successfully" ;;
       io_ret true)
      (fun e =>
         print ("✗ Failed to initialize validator: " ++ shell_str e) ;;
         io_ret false) ;;
  if negb initialized then io_ret tt
  else fun c => interactive_loop (List.length (stdin c)) c.

(** The parsed command line. *)
Record Args : Type := mkArgs {
  demo : bool;
  interactive : bool;
  file : option string;
  show_test_data : bool
}.

(** Main entry point, after [parser.parse_args()]. *)
Definition main (args : Args) : IO unit :=
  if show_test_data args then
    print "Test Data Examples" ;;
    print_separator "" ;;
    print (nl ++ "1. Valid Data:") ;;
    dumped <- io_lift (dumps_indent2 sh get_valid_test_data) ;;
    print dumped ;;
    print (nl ++ "2. Invalid Schema Data:") ;;
    dumped <- io_lift (dumps_indent2 sh get_invalid_schema_data) ;;
    print dumped ;;
    print (nl ++ "3. Invalid Semantic Data:") ;;
    dumped <- io_lift (dumps_indent2 sh get_invalid_semantic_data) ;;
    print dumped
  else
    match file args with
    | Some (String c path) =>
        io_try
          (JSONValidator ;; validate_file (String c path))
          (fun e =>
             print ("✗ Failed to initialize validator: " ++ shell_str e))
    | _ =>
        if demo args then run_demo
        else if interactive args then run_interactive_mode
        else
          (fun c =>
             (Returned tt,
              mkConsole (stdin c)
                        (stdout c ++ [Written (help_text sh)])%list
                        (session c))) ;;
          print (nl ++ "Running demo by default..." ++ nl) ;;
          run_demo
    end.

End Program.

Arguments mkConsole {sh}.
Arguments stdin {sh}.
Arguments stdout {sh}.
Arguments session {sh}.

(** Whether the lines collected so far end with an empty line, and whether
    a sequence of lines, read after such a collection, holds an empty line
    right after an empty line. *)
Definition blank_last (json_lines : list string) : bool :=
  negb (match json_lines with [] => true | _ :: _ => false end)
  && String.eqb (List.last json_lines "x") "".

Fixpoint has_blank_pair (prev_blank : bool) (lines : list string) : bool :=
  match lines with
  | [] => false
  | line :: rest =>
      if String.eqb line "" then prev_blank || has_blank_pair true rest
      else has_blank_pair false rest
  end.

(** The lines before the first empty line, and the lines after it. *)
Fixpoint before_blank (lines : list string) : list string :=
  match lines with
  | [] => []
  | line :: rest =>
      if String.eqb line "" then [] else line :: before_blank rest
  end.

Fixpoint after_blank (lines : list string) : list string :=
  match lines with
  | [] => []
  | line :: rest => if String.eqb line "" then rest else after_blank rest
  end.

(** A computation only consumes standard input when, whatever its outcome,
    it leaves no more lines to read than it found. *)
Definition consumes {sh : Shell} {A : Type} (m : IO sh A) : Prop :=
  forall c : Console sh,
    List.length (stdin (snd (m c))) <= List.length (stdin c).

(** *** The syntax check ([test_syntax.py]) *)

Module TestSyntax.

Section Checker.

Variable sh : Shell.

(** Check if a Python file has valid syntax. *)
Definition check_syntax (filename : string) : IO sh bool :=
  io_try sh
    (io_bind sh (fun c => (read_source sh filename, c))
       (fun source =>
        io_bind sh
          (fun c =>
             (match ast_parse sh source with
              | None => Returned tt
              | Some e => Thrown e
              end, c))
          (fun _ =>
           io_bind sh (print sh ("✓ " ++ filename ++ ": Syntax is valid"))
             (fun _ => io_ret sh true))))
    (fun e =>
       match e with
       | SyntaxError lineno msg _ =>
           io_bind sh
             (print sh ("✗ " ++ filename ++ ": Syntax error at line "
                          ++ match lineno with
                             | Some n => nat_text n
                             | None => "None"
                             end
                          ++ ": " ++ msg))
             (fun _ => io_ret sh false)
       | _ =>
           io_bind sh
             (print sh ("✗ " ++ filename ++ ": Error reading file: "
                          ++ shell_str e))
             (fun _ => io_ret sh false)
       end).

Definition files_to_check : list string :=
  ["json_validator.py"; "test_data.py"; "main.py"].

(** The loop of [main] over the files, carrying [all_valid]. *)
Fixpoint check_files (files : list string) (all_valid : bool)
  : IO sh bool :=
  match files with
  | [] => io_ret sh all_valid
  | filename :: rest =>
      io_bind sh (check_syntax filename)
        (fun valid =>
           check_files rest (if negb valid then false else all_valid))
  end.

(** Test all Python files for syntax validity; the value returned is the
    exit status. *)
Definition main : IO sh Z :=
  io_bind sh (print sh "LangGraph JSON Validator - Syntax Check")
    (fun _ =>
     io_bind sh (print sh (py_repeat "=" 50))
       (fun _ =>
        io_bind sh (check_files files_to_check true)
          (fun all_valid =>
           io_bind sh (print sh (nl ++ py_repeat "=" 50))
             (fun _ =>
              io_bind sh
                (if all_valid then
                   io_bind sh (print sh "✓ All files have valid Python syntax!")
                     (fun _ =>
                      io_bind sh (print sh (nl ++ "To run the application:"))
                        (fun _ =>
                         io_bind sh
                           (print sh "1. Install Python 3.8+ from https://python.org")
                           (fun _ =>
                            io_bind sh
                              (print sh "2. Install dependencies: pip install -r requirements.txt")
                              (fun _ =>
                               io_bind sh
                                 (print sh "3. Set up your .env file with OPENAI_API_KEY")
                                 (fun _ =>
                                    print sh "4. Run: python main.py --demo")))))
                 else
                   print sh "✗ Some files have syntax errors that need to be fixed")
                (fun _ => io_ret sh (if all_valid then 0%Z else 1%Z)))))).

(** Whether a file can be read and parsed. *)
Definition file_checks (filename : string) : bool :=
  match read_source sh filename with
  | Returned source =>
      match ast_parse sh source with
      | None => true
      | Some _ => false
      end
  | Thrown _ => false
  end.

End Checker.

End TestSyntax.

(** Stand-ins for the collaborators of the program. *)
Module ShellFixture.

(** [int(text)] on the texts of the menu choices. *)
Definition int_of_digit (text : string) : option Z :=
  if String.eqb text "1" then Some 1%Z
  else if String.eqb text "2" then Some 2%Z
  else if String.eqb text "3" then Some 3%Z
  else if String.eqb text "7" then Some 7%Z
  else None.

(** A shell whose judge passes every document, whose schema checker is the
    one of [Fixture], and which finds no JSON file; of the three source
    files, [main.py] holds a line that does not parse. *)
Definition shell : Shell :=
  mkShell nat Fixture.check Fixture.dumps Fixture.loads
          (Fixture.constant_judge (Ok Fixture.payload_pass))
          None
          (fun _ => "?")
          int_of_digit
          (fun path => Thrown (FileNotFoundError
                                 ("[Errno 2] No such file or directory: '"
                                    ++ path ++ "'")))
          "usage: main.py [-h] [--demo] [--interactive] [--file FILE] [--show-test-data]"
          (fun filename =>
             if String.eqb filename "main.py" then Returned "def main(:"
             else Returned "pass")
          (fun source =>
             if String.eqb source "pass" then None
             else Some (SyntaxError (Some 1) "invalid syntax"
                          "invalid syntax (<unknown>, line 1)")).

Definition shell_env : Env (core shell) := mkEnv (X := core shell) 0 [].

End ShellFixture.

(** ** Properties of the workflow *)

(** Unfold the monad and the item assignments, leaving the calls of the
    collaborators in place. *)
Ltac unfold_monad :=
  cbv beta iota zeta delta
    [bind ret raise try_except lift get_state modify_state set_status
     set_schema_errors set_semantic_errors set_is_valid set_validation_report
     validate llm_call state env judge invocations
     json_data schema custom_rules status schema_errors semantic_errors
     is_valid validation_report fst snd].

(** The same, deciding the comparisons of statuses and exception classes. *)
Ltac eval_monad :=
  cbv beta iota zeta delta
    [bind ret raise try_except lift get_state modify_state set_status
     set_schema_errors set_semantic_errors set_is_valid set_validation_report
     validate llm_call state env judge invocations
     json_data schema custom_rules status schema_errors semantic_errors
     is_valid validation_report fst snd
     ValidationStatus_eqb ExcClass_eqb existsb andb orb].

Ltac unfold_nodes :=
  unfold semantic_validation_node, final_assessment_node,
         schema_validation_node, _generate_summary;
  eval_monad.

(** The message the structural node stores for an exception of [validate]. *)
Lemma schema_validation_node_eq (X : Externals) (h : Heap X) :
  schema_validation_node X h =
  (Ok tt,
   mkHeap
     (match jsonschema_validate X (json_data (state h)) (schema (state h)) with
      | None =>
          mkState (json_data (state h)) (schema (state h))
                  (custom_rules (state h)) SCHEMA_VALID []
                  (semantic_errors (state h)) (is_valid (state h))
                  (validation_report (state h))
      | Some e =>
          mkState (json_data (state h)) (schema (state h))
                  (custom_rules (state h)) SCHEMA_INVALID
                  [if ExcClass_eqb (exc_class e) ValidationError
                   then exc_str e
                   else "Schema validation error: " ++ exc_str e]
                  (semantic_errors (state h)) (is_valid (state h))
                  (validation_report (state h))
      end)
     (env h)).
Proof.
  destruct h as [st e]. unfold schema_validation_node. unfold_monad.
  destruct (jsonschema_validate X _ _) as [ex|]; [|reflexivity].
  destruct (ExcClass_eqb (exc_class ex) ValidationError); reflexivity.
Qed.

Lemma after_schema_eq (X : Externals) (d : Document X) (s : Schema X)
  (r : list string) (e0 : Env X) :
  after_schema X d s r e0 =
  mkHeap
    (match jsonschema_validate X d s with
     | None => mkState d s r SCHEMA_VALID [] (PyList []) false None
     | Some e =>
         mkState d s r SCHEMA_INVALID
           [if ExcClass_eqb (exc_class e) ValidationError then exc_str e
            else "Schema validation error: " ++ exc_str e]
           (PyList []) false None
     end) e0.
Proof.
  unfold after_schema. rewrite schema_validation_node_eq. reflexivity.
Qed.

(** One turn of the run loop. *)
Lemma run_from_S (X : Externals) (g : CompiledGraph X) (fuel : nat)
  (n : NodeName) (h : Heap X) :
  run_from X g (S fuel) n h =
  match node_fn X g n h with
  | (Ok _, h') =>
      match next_of X g n (state h') with
      | END => (Ok tt, h')
      | Goto n' => run_from X g fuel n' h'
      end
  | (Raise e, h') => (Raise e, h')
  end.
Proof.
  cbn [run_from]. unfold bind at 1.
  destruct (node_fn X g n h) as [[u|e] h']; [|reflexivity].
  unfold bind, get_state. destruct (next_of X g n (state h')); reflexivity.
Qed.

(** The path a run takes through the graph: the structural node, then the
    semantic node only when the status is [SCHEMA_VALID], then the final
    node; the run stops there, within the recursion limit. *)
Lemma invoke_after_schema (X : Externals) (d : Document X) (s : Schema X)
  (r : list string) (e0 : Env X) :
  invoke X (_build_workflow X) (mkHeap (initial_state X d s r) e0) =
  match jsonschema_validate X d s with
  | None =>
      match semantic_validation_node X (after_schema X d s r e0) with
      | (Ok _, h2) => final_assessment_node X h2
      | (Raise e, h2) => (Raise e, h2)
      end
  | Some _ => final_assessment_node X (after_schema X d s r e0)
  end.
Proof.
  unfold invoke, recursion_limit, after_schema.
  rewrite run_from_S. cbn [node_fn next_of entry_point _build_workflow].
  rewrite schema_validation_node_eq. cbn [snd state].
  unfold initial_state. cbn [json_data schema].
  unfold should_continue_to_semantic.
  destruct (jsonschema_validate X d s) as [ex|];
    cbn [status ValidationStatus_eqb].
  - rewrite run_from_S. cbn [node_fn next_of _build_workflow].
    destruct (final_assessment_node X _) as [[[]|e] h']; reflexivity.
  - rewrite run_from_S. cbn [node_fn next_of _build_workflow].
    destruct (semantic_validation_node X _) as [[[]|e] h2]; [|reflexivity].
    rewrite run_from_S. cbn [node_fn next_of _build_workflow].
    destruct (final_assessment_node X _) as [[[]|e] h']; reflexivity.
Qed.

(** The semantic node recovers every exception raised in its body: it
    always returns, writes only the status and the semantic errors, and
    sends the judge at most one request. *)
Lemma semantic_validation_node_returns (X : Externals)
  (st : ValidationState X) (w : World X) (log : list (list Message)) :
  exists sts errs w' log',
    semantic_validation_node X (mkHeap st (mkEnv w log)) =
      (Ok tt,
       mkHeap (mkState (json_data st) (schema st) (custom_rules st) sts
                       (schema_errors st) errs (is_valid st)
                       (validation_report st))
              (mkEnv w' log')) /\
    (log' = log \/ exists messages, log' = (log ++ [messages])%list).
Proof.
  destruct st as [d s r sts0 serrs merrs iv rep].
  unfold semantic_validation_node. unfold_monad.
  destruct (ValidationStatus_eqb _ SCHEMA_INVALID).
  { do 4 eexists. split; [reflexivity|]. left. reflexivity. }
  destruct (json_dumps X _) as [dumped|ex].
  2:{ do 4 eexists. split; [reflexivity|]. left. reflexivity. }
  destruct (llm_invoke X _ w) as [[content|ex] w'].
  2:{ do 4 eexists. split; [reflexivity|]. right. eexists. reflexivity. }
  destruct (json_loads X content) as [v|ex].
  2:{ destruct (ExcClass_eqb (exc_class ex) JSONDecodeError);
      do 4 eexists; (split; [reflexivity|]); right; eexists; reflexivity. }
  destruct (dict_get v "is_valid" (PyBool false)) as [b|ex].
  2:{ destruct (ExcClass_eqb (exc_class ex) JSONDecodeError);
      do 4 eexists; (split; [reflexivity|]); right; eexists; reflexivity. }
  destruct (py_truthy b).
  { do 4 eexists. split; [reflexivity|]. right. eexists. reflexivity. }
  destruct (dict_get v "errors" _) as [errs|ex].
  { do 4 eexists. split; [reflexivity|]. right. eexists. reflexivity. }
  destruct (ExcClass_eqb (exc_class ex) JSONDecodeError);
    do 4 eexists; (split; [reflexivity|]); right; eexists; reflexivity.
Qed.

(** What the final node leaves when it returns: the length of the semantic
    errors and the summary could be computed, and the report is built from
    them. *)
Lemma final_assessment_node_inv (X : Externals) (st : ValidationState X)
  (e : Env X) (u : unit) (h' : Heap X) :
  final_assessment_node X (mkHeap st e) = (Ok u, h') ->
  let iv :=
    existsb (ValidationStatus_eqb (status st))
            [SCHEMA_VALID; SEMANTIC_VALID; SEMANTIC_INVALID]
    && ValidationStatus_eqb (status st) SEMANTIC_VALID in
  exists n text,
    py_len (semantic_errors st) = Ok n /\
    _generate_summary X
      (mkState (json_data st) (schema st) (custom_rules st) COMPLETE
               (schema_errors st) (semantic_errors st) iv
               (validation_report st)) = Ok text /\
    h' = mkHeap
           (mkState (json_data st) (schema st) (custom_rules st) COMPLETE
              (schema_errors st) (semantic_errors st) iv
              (Some (mkReport iv
                       (mkPhase (Nat.eqb (List.length (schema_errors st)) 0)
                                (schema_errors st))
                       (mkPhase (Nat.eqb n 0) (semantic_errors st))
                       text)))
           e.
Proof.
  destruct st as [d s r sts serrs merrs iv0 rep].
  unfold final_assessment_node. unfold_monad. intros H.
  destruct (py_len merrs) as [n|ex]; [|discriminate].
  destruct (_generate_summary X _) as [text|ex]; [|discriminate].
  injection H as _ <-. exists n, text. repeat split.
Qed.

(** A text being read always ends in a character. *)
Lemma chars_from_not_nil (s : string) :
  forall current, chars_from current s <> [].
Proof.
  induction s as [|c rest IH]; intros current; cbn [chars_from];
    [discriminate|].
  destruct (is_continuation c); [apply IH|discriminate].
Qed.

(** Only the empty text has no character. *)
Lemma chars_of_length (s : string) :
  Nat.eqb (List.length (chars_of s)) 0 = String.eqb s "".
Proof.
  destruct s as [|c rest]; [reflexivity|]. cbn [chars_of String.eqb].
  destruct (chars_from _ rest) eqn:H;
    [exfalso; exact (chars_from_not_nil _ _ H)|reflexivity].
Qed.

(** Characters, not bytes, are counted and joined: "é" takes two bytes and
    "€" three. *)
Example chars_of_beyond_ascii :
  chars_of "é€a" = ["é"; "€"; "a"] /\
  py_len (PyStr "é€a") = Ok 3 /\
  py_join "; " (PyStr "éa") = Ok "é; a".
Proof. repeat split. Qed.

(** For the values that have a length, truth is having a positive one. *)
Lemma py_truthy_len (v : pyvalue) (n : nat) :
  py_len v = Ok n -> py_truthy v = negb (Nat.eqb n 0).
Proof.
  destruct v as [| b | z | f | s | items | items]; cbn [py_len py_truthy];
    try discriminate; intros [= <-].
  - rewrite chars_of_length. reflexivity.
  - destruct items; reflexivity.
  - destruct items; reflexivity.
Qed.

Lemma join_items_strings (i : nat) (l : list string) :
  join_items i (List.map PyStr l) = Ok l.
Proof.
  revert i. induction l as [|s l IH]; intros i; cbn; [reflexivity|].
  rewrite IH. reflexivity.
Qed.

(** On a list of [str], [join] is the concatenation with the separator. *)
Lemma py_join_strings (sep : string) (l : list string) :
  py_join sep (PyList (List.map PyStr l)) = Ok (String.concat sep l).
Proof. cbn. rewrite join_items_strings. reflexivity. Qed.

(** The final node returns on every state whose semantic errors are a list
    of [str], whatever the status. *)
Lemma final_assessment_node_total (X : Externals) (st : ValidationState X)
  (e : Env X) (l : list string) :
  semantic_errors st = PyList (List.map PyStr l) ->
  exists h', final_assessment_node X (mkHeap st e) = (Ok tt, h').
Proof.
  destruct st as [d s r sts serrs merrs iv0 rep]. cbn [semantic_errors].
  intros ->. unfold final_assessment_node. unfold_monad.
  cbn [py_len]. unfold _generate_summary.
  cbn [is_valid semantic_errors schema_errors].
  rewrite py_join_strings.
  destruct (existsb _ _ && _); [eexists; reflexivity|].
  destruct (py_truthy _); eexists; reflexivity.
Qed.

(** C9. From a state on which it returns, the Report Builder
    ([final_assessment_node] with [_generate_summary]) sets
    [schema_validation.passed] iff the schema errors are empty and
    [semantic_validation.passed] iff the semantic errors have length zero,
    copies both error values unchanged, and writes as summary the fixed
    confirmation when the report is overall valid, and otherwise the text
    "JSON data is invalid. Issues found: " followed by the sections
    "Schema validation failed: ..." and "Semantic validation failed: ...",
    joined by " | ", each present exactly when its errors are not empty and
    carrying them joined by "; ". *)
Theorem C9_report_builder (X : Externals) (st : ValidationState X)
  (e : Env X) (h' : Heap X) :
  final_assessment_node X (mkHeap st e) = (Ok tt, h') ->
  exists rep,
    validation_report (state h') = Some rep /\
    (passed (schema_validation rep) = true <-> schema_errors st = []) /\
    errors (schema_validation rep) = schema_errors st /\
    (passed (semantic_validation rep) = true <->
       py_len (semantic_errors st) = Ok 0) /\
    errors (semantic_validation rep) = semantic_errors st /\
    (overall_valid rep = true -> summary rep = valid_summary) /\
    (overall_valid rep = false ->
     exists semantic_section,
       summary rep =
         "JSON data is invalid. Issues found: "
           ++ String.concat " | "
                (List.app
                   match schema_errors st with
                   | [] => []
                   | _ :: _ =>
                       ["Schema validation failed: "
                          ++ String.concat "; " (schema_errors st)]
                   end
                   semantic_section) /\
       ((py_len (semantic_errors st) = Ok 0 /\ semantic_section = []) \/
        (py_len (semantic_errors st) <> Ok 0 /\
         exists joined,
           py_join "; " (semantic_errors st) = Ok joined /\
           semantic_section = ["Semantic validation failed: " ++ joined]))).
Proof.
  intros H. apply final_assessment_node_inv in H.
  destruct H as (n & text & Hlen & Hsum & ->).
  destruct st as [d s r sts serrs merrs iv0 rep0].
  cbn [status schema_errors semantic_errors json_data schema custom_rules
       validation_report] in *.
  eexists. split; [reflexivity|].
  cbn [schema_validation semantic_validation passed errors overall_valid
       summary].
  pose proof (py_truthy_len _ _ Hlen) as Htruthy.
  unfold _generate_summary in Hsum.
  cbn [is_valid schema_errors semantic_errors] in Hsum.
  rewrite Htruthy in Hsum.
  repeat split.
  - destruct serrs; [reflexivity|discriminate].
  - intros ->. reflexivity.
  - intros Hn. destruct n; [assumption|discriminate].
  - intros Hn. rewrite Hn in Hlen. injection Hlen as <-. reflexivity.
  - intros Hiv. rewrite Hiv in Hsum. injection Hsum as <-. reflexivity.
  - intros Hiv. rewrite Hiv in Hsum. rewrite Hlen. destruct n as [|n].
    + cbn [Nat.eqb negb] in Hsum. injection Hsum as <-.
      exists []. rewrite List.app_nil_r. split; [reflexivity|].
      left. split; reflexivity.
    + cbn [Nat.eqb negb] in Hsum.
      destruct (py_join "; " merrs) as [joined|ex]; [|discriminate].
      injection Hsum as <-. eexists. split; [reflexivity|].
      right. split; [discriminate|]. exists joined. split; reflexivity.
Qed.

(** The Report Builder on the state a semantically failed run reaches. *)
Lemma C9_report_builder_witness :
  exists rep,
    validation_report
      (state (snd (final_assessment_node (Fixture.externals (Ok "unused"))
                     (mkHeap Fixture.failed_state
                             (Fixture.fresh (Ok "unused")))))) = Some rep /\
    errors (semantic_validation rep) = PyList [PyStr "too young"] /\
    (passed (schema_validation rep) = true <-> @nil string = []).
Proof.
  destruct (C9_report_builder (Fixture.externals (Ok "unused"))
              Fixture.failed_state (Fixture.fresh (Ok "unused")) _ eq_refl)
    as (rep & Hrep & Hschema & _ & _ & Hsem & _).
  exists rep. split; [exact Hrep|]. split; [exact Hsem|exact Hschema].
Defined.

(** [dict.get] raises nothing but [AttributeError]. *)
Lemma dict_get_raises (v : pyvalue) (k : string) (dflt : pyvalue)
  (ex : PyException) :
  dict_get v k dflt = Raise ex -> exc_class ex = AttributeError.
Proof.
  destruct v; cbn; try discriminate; intros [= <-]; reflexivity.
Qed.

(** The semantic node on a state whose status is not [SCHEMA_INVALID]: when
    the document can be dumped, the judge is sent one request and its reply
    decides the status and the errors, as [semantic_verdict] says; when it
    cannot, the failure is recovered and no request is sent. *)
Lemma semantic_verdict_correct (X : Externals) (d : Document X)
  (s : Schema X) (r : list string) (sts : ValidationStatus)
  (serrs : list string) (merrs : pyvalue) (iv : bool)
  (rep : option ValidationReport) (w : World X)
  (log : list (list Message)) :
  ValidationStatus_eqb sts SCHEMA_INVALID = false ->
  semantic_validation_node X
    (mkHeap (mkState d s r sts serrs merrs iv rep) (mkEnv w log)) =
  (Ok tt,
   match json_dumps X d with
   | Raise ex =>
       mkHeap (mkState d s r (fst (recovered ex)) serrs (snd (recovered ex))
                       iv rep)
              (mkEnv w log)
   | Ok dumped =>
       let reply := llm_invoke X (messages_for dumped r) w in
       let verdict := semantic_verdict X (fst reply) in
       mkHeap (mkState d s r (fst verdict) serrs (snd verdict) iv rep)
              (mkEnv (snd reply) (log ++ [messages_for dumped r])%list)
   end).
Proof.
  intros Hsts. unfold semantic_validation_node. unfold_monad.
  rewrite Hsts.
  destruct (json_dumps X d) as [dumped|ex]; [|reflexivity].
  cbv zeta.
  destruct (llm_invoke X (messages_for dumped r) w) as [[content|ex] w'];
    cbn [fst snd semantic_verdict]; [|reflexivity].
  destruct (json_loads X content) as [v|ex].
  2:{ destruct (ExcClass_eqb (exc_class ex) JSONDecodeError); reflexivity. }
  destruct (dict_get v "is_valid" (PyBool false)) as [b|ex] eqn:Hget.
  2:{ rewrite (dict_get_raises _ _ _ _ Hget). reflexivity. }
  destruct (py_truthy b); [reflexivity|].
  destruct (dict_get v "errors" _) as [errs|ex] eqn:Herrs; [reflexivity|].
  rewrite (dict_get_raises _ _ _ _ Herrs). reflexivity.
Qed.

(** A run on a document the schema accepts ends with the final node on the
    heap the semantic node left. *)
Lemma validate_json_schema_valid (X : Externals) (d : Document X)
  (s : Schema X) (r : list string) (e0 : Env X) :
  jsonschema_validate X d s = None ->
  validate_json X d s r e0 =
  match final_assessment_node X (after_semantic X d s r e0) with
  | (Ok _, h) => (Ok (validation_report (state h)), env h)
  | (Raise e, h) => (Raise e, env h)
  end.
Proof.
  intros Hv. unfold validate_json. fold (initial_state X d s r).
  rewrite invoke_after_schema, Hv. unfold after_semantic.
  destruct (after_schema X d s r e0) as [st [w log]].
  destruct (semantic_validation_node_returns X st w log)
    as (sts & errs & w' & log' & -> & _).
  reflexivity.
Qed.

(** The heap the semantic node leaves on such a run. *)
Lemma after_semantic_schema_valid (X : Externals) (d : Document X)
  (s : Schema X) (r : list string) (w : World X)
  (log : list (list Message)) :
  jsonschema_validate X d s = None ->
  after_semantic X d s r (mkEnv w log) =
  match json_dumps X d with
  | Raise ex =>
      mkHeap (mkState d s r (fst (recovered ex)) [] (snd (recovered ex))
                      false None)
             (mkEnv w log)
  | Ok dumped =>
      let reply := llm_invoke X (messages_for dumped r) w in
      let verdict := semantic_verdict X (fst reply) in
      mkHeap (mkState d s r (fst verdict) [] (snd verdict) false None)
             (mkEnv (snd reply) (log ++ [messages_for dumped r])%list)
  end.
Proof.
  intros Hv. unfold after_semantic. rewrite after_schema_eq, Hv.
  rewrite semantic_verdict_correct by reflexivity. reflexivity.
Qed.

(** A run on a document the schema refuses goes from the structural node
    straight to the final node: the judge is not called and the semantic
    errors keep their initial value, the empty list. *)
Lemma validate_json_schema_invalid (X : Externals) (d : Document X)
  (s : Schema X) (r : list string) (e0 : Env X) (ex : PyException) :
  jsonschema_validate X d s = Some ex ->
  let message :=
    if ExcClass_eqb (exc_class ex) ValidationError then exc_str ex
    else "Schema validation error: " ++ exc_str ex in
  validate_json X d s r e0 =
  (Ok (Some (mkReport false
               (mkPhase false [message])
               (mkPhase true (PyList []))
               ("JSON data is invalid. Issues found: "
                  ++ String.concat " | "
                       ["Schema validation failed: "
                          ++ String.concat "; " [message]]))),
   e0).
Proof.
  intros Hv message. unfold validate_json. fold (initial_state X d s r).
  rewrite invoke_after_schema, after_schema_eq, Hv.
  destruct e0 as [w log]. reflexivity.
Qed.

(** The branch of the semantic node that stores the "skipped" sentinel: it
    is taken only on a state whose status is [SCHEMA_INVALID]. *)
Lemma semantic_validation_node_skip (X : Externals) (st : ValidationState X)
  (e : Env X) :
  status st = SCHEMA_INVALID ->
  semantic_validation_node X (mkHeap st e) =
  (Ok tt,
   mkHeap (mkState (json_data st) (schema st) (custom_rules st) (status st)
                   (schema_errors st) (PyList [PyStr skipped_message])
                   (is_valid st) (validation_report st))
          e).
Proof.
  destruct st as [d s r sts serrs merrs iv rep]. cbn [status]. intros ->.
  destruct e as [w log]. reflexivity.
Qed.

(** No run reaches that branch: the router sends a state whose status is
    not [SCHEMA_VALID] to the final node. *)
Lemma router_skips_semantic_node (X : Externals) (st : ValidationState X) :
  status st = SCHEMA_INVALID ->
  should_continue_to_semantic X st = Node.final_assessment.
Proof.
  unfold should_continue_to_semantic. intros ->. reflexivity.
Qed.

(** C1. For a document that fails structural validation the report has
    [schema_validation.passed = false] and [overall_valid = false], but its
    semantic errors are the empty list with [semantic_validation.passed =
    true], whatever the rules: the sentinel "Skipped due to schema
    validation failure" is not stored, because the router bypasses the node
    that would store it. *)
Theorem C1_schema_failure_report (X : Externals) (d : Document X)
  (s : Schema X) (r : list string) (e0 : Env X) (ex : PyException) :
  jsonschema_validate X d s = Some ex ->
  exists rep,
    validate_json X d s r e0 = (Ok (Some rep), e0) /\
    passed (schema_validation rep) = false /\
    overall_valid rep = false /\
    errors (semantic_validation rep) = PyList [] /\
    passed (semantic_validation rep) = true /\
    errors (semantic_validation rep) <> PyList [PyStr skipped_message].
Proof.
  intros Hv. eexists. split.
  - apply (validate_json_schema_invalid X d s r e0 ex Hv).
  - cbn. repeat split. discriminate.
Qed.

(** The empty document against a schema that requires the key "user". *)
Lemma C1_schema_failure_report_witness :
  exists rep,
    validate_json (Fixture.externals (Ok Fixture.payload_pass))
      Fixture.empty_document Fixture.user_schema Fixture.sample_rules
      (Fixture.fresh (Ok Fixture.payload_pass))
    = (Ok (Some rep), Fixture.fresh (Ok Fixture.payload_pass)) /\
    passed (schema_validation rep) = false /\
    overall_valid rep = false /\
    errors (semantic_validation rep) = PyList [] /\
    passed (semantic_validation rep) = true /\
    errors (semantic_validation rep) <> PyList [PyStr skipped_message].
Proof.
  apply (C1_schema_failure_report
           (Fixture.externals (Ok Fixture.payload_pass))
           Fixture.empty_document Fixture.user_schema Fixture.sample_rules
           (Fixture.fresh (Ok Fixture.payload_pass))
           (mkExc ValidationError "'user' is a required property")).
  reflexivity.
Defined.

(** C5. The Structural Validator ([schema_validation_node]) never raises
    and leaves the environment alone.  When [validate] returns, the status
    is [SCHEMA_VALID] and the errors are empty; when it raises a
    [ValidationError], the status is [SCHEMA_INVALID] and the errors are
    the one message of the exception; when it raises anything else, the
    status is [SCHEMA_INVALID] and the errors are the one message
    "Schema validation error: <cause>".  Every report of a run shows this
    outcome: [passed] is true in the first case and false in the others. *)
Theorem C5_structural_validator (X : Externals) (d : Document X)
  (s : Schema X) (r : list string) (e0 : Env X) :
  exists h1,
    schema_validation_node X (mkHeap (initial_state X d s r) e0)
      = (Ok tt, h1) /\
    env h1 = e0 /\
    match jsonschema_validate X d s with
    | None =>
        status (state h1) = SCHEMA_VALID /\
        schema_errors (state h1) = [] /\
        forall rep e1,
          validate_json X d s r e0 = (Ok (Some rep), e1) ->
          schema_validation rep = mkPhase true []
    | Some ex =>
        status (state h1) = SCHEMA_INVALID /\
        schema_errors (state h1) =
          [if ExcClass_eqb (exc_class ex) ValidationError then exc_str ex
           else "Schema validation error: " ++ exc_str ex] /\
        forall rep e1,
          validate_json X d s r e0 = (Ok (Some rep), e1) ->
          schema_validation rep =
            mkPhase false
              [if ExcClass_eqb (exc_class ex) ValidationError
               then exc_str ex
               else "Schema validation error: " ++ exc_str ex]
    end.
Proof.
  eexists. split; [apply schema_validation_node_eq|].
  split; [reflexivity|].
  cbn [state initial_state json_data schema].
  destruct (jsonschema_validate X d s) as [ex|] eqn:Hv.
  - split; [reflexivity|]. split; [reflexivity|].
    intros rep e1 Hrun.
    rewrite (validate_json_schema_invalid X d s r e0 ex Hv) in Hrun.
    injection Hrun as <- _. reflexivity.
  - split; [reflexivity|]. split; [reflexivity|].
    intros rep e1 Hrun.
    rewrite (validate_json_schema_valid X d s r e0 Hv) in Hrun.
    destruct e0 as [w log].
    rewrite (after_semantic_schema_valid X d s r w log Hv) in Hrun.
    destruct (json_dumps X d) as [dumped|exd]; cbv zeta in Hrun.
    + destruct (final_assessment_node X _) as [[u|exf] hf] eqn:Hf;
        [|discriminate].
      apply final_assessment_node_inv in Hf.
      destruct Hf as (n & text & _ & _ & ->).
      injection Hrun as <- _. reflexivity.
    + destruct (final_assessment_node X _) as [[u|exf] hf] eqn:Hf;
        [|discriminate].
      apply final_assessment_node_inv in Hf.
      destruct Hf as (n & text & _ & _ & ->).
      injection Hrun as <- _. reflexivity.
Qed.

(** The three outcomes of the structural node on concrete inputs: the
    empty schema accepts the empty document, a schema that requires "user"
    refuses it, and a schema that is the number 5 cannot be checked. *)
Example structural_outcomes :
  let run sch :=
    state (snd (schema_validation_node
                  (Fixture.externals (Ok Fixture.payload_pass))
                  (mkHeap (initial_state
                             (Fixture.externals (Ok Fixture.payload_pass))
                             Fixture.empty_document sch [])
                          (Fixture.fresh (Ok Fixture.payload_pass))))) in
  (status (run Fixture.any_schema), schema_errors (run Fixture.any_schema))
    = (SCHEMA_VALID, []) /\
  (status (run Fixture.user_schema), schema_errors (run Fixture.user_schema))
    = (SCHEMA_INVALID, ["'user' is a required property"]) /\
  (status (run Fixture.broken_schema),
   schema_errors (run Fixture.broken_schema))
    = (SCHEMA_INVALID,
       ["Schema validation error: schema is not of type 'object', 'boolean'"]).
Proof. repeat split. Qed.

(** C2. Whenever [validate_json] returns a report, [overall_valid] is true
    if and only if the structural node left the status [SCHEMA_VALID] and
    the semantic node then left the status [SEMANTIC_VALID]; a document
    that fails the structural checks is reported overall invalid. *)
Theorem C2_overall_valid_iff (X : Externals) (d : Document X)
  (s : Schema X) (r : list string) (e0 e1 : Env X)
  (rep : ValidationReport) :
  validate_json X d s r e0 = (Ok (Some rep), e1) ->
  (overall_valid rep = true <->
     status (state (after_schema X d s r e0)) = SCHEMA_VALID /\
     status (state (after_semantic X d s r e0)) = SEMANTIC_VALID) /\
  (status (state (after_schema X d s r e0)) = SCHEMA_INVALID ->
   overall_valid rep = false).
Proof.
  intros Hrun. destruct e0 as [w log].
  destruct (jsonschema_validate X d s) as [ex|] eqn:Hv.
  - rewrite (validate_json_schema_invalid X d s r _ ex Hv) in Hrun.
    injection Hrun as <- _. rewrite after_schema_eq, Hv. cbn. split.
    + split; [discriminate|]. intros [H _]. discriminate.
    + reflexivity.
  - rewrite (validate_json_schema_valid X d s r _ Hv) in Hrun.
    rewrite after_schema_eq, Hv. cbn [state status].
    destruct (after_semantic X d s r (mkEnv w log)) as [st2 e2].
    destruct (final_assessment_node X _) as [[u|exf] hf] eqn:Hf;
      [|discriminate].
    apply final_assessment_node_inv in Hf.
    destruct Hf as (n & text & _ & _ & ->).
    injection Hrun as <- _. cbn [overall_valid state status]. split.
    + destruct (status st2); cbn; split; intros H;
        try discriminate; try (destruct H; discriminate); auto.
    + discriminate.
Qed.

(** A run whose judge passes the document. *)
Lemma C2_overall_valid_iff_witness :
  (true = true <->
     status (state (after_schema (Fixture.externals (Ok Fixture.payload_pass))
                      Fixture.empty_document Fixture.any_schema
                      Fixture.sample_rules
                      (Fixture.fresh (Ok Fixture.payload_pass))))
       = SCHEMA_VALID /\
     status (state (after_semantic
                      (Fixture.externals (Ok Fixture.payload_pass))
                      Fixture.empty_document Fixture.any_schema
                      Fixture.sample_rules
                      (Fixture.fresh (Ok Fixture.payload_pass))))
       = SEMANTIC_VALID).
Proof.
  exact (proj1 (C2_overall_valid_iff
                  (Fixture.externals (Ok Fixture.payload_pass))
                  Fixture.empty_document Fixture.any_schema
                  Fixture.sample_rules
                  (Fixture.fresh (Ok Fixture.payload_pass))
                  _ _ eq_refl)).
Defined.

(** The final node on the state a failed semantic phase leaves with one
    message. *)
Lemma final_assessment_node_one_error (X : Externals) (d : Document X)
  (s : Schema X) (r : list string) (message : string) (e : Env X) :
  exists rep,
    final_assessment_node X
      (mkHeap (mkState d s r SEMANTIC_INVALID [] (PyList [PyStr message])
                       false None) e)
    = (Ok tt,
       mkHeap (mkState d s r COMPLETE [] (PyList [PyStr message]) false
                       (Some rep)) e) /\
    overall_valid rep = false /\
    schema_validation rep = mkPhase true [] /\
    semantic_validation rep = mkPhase false (PyList [PyStr message]).
Proof.
  destruct e as [w log]. unfold final_assessment_node, _generate_summary.
  eval_monad. cbn [py_len py_truthy py_join join_items List.length Nat.eqb].
  eexists. split; [reflexivity|]. repeat split.
Qed.

(** C4. For a structurally valid document whose request to the judge
    raises, the failure is recovered into data: the run returns a report
    with [semantic_validation.passed = false], the single semantic error
    "Semantic validation error: <cause>" and [overall_valid = false]; the
    judge was sent that one request and no other. *)
Theorem C4_judge_failure_recovered (X : Externals) (d : Document X)
  (s : Schema X) (r : list string) (e0 : Env X) (dumped : string)
  (ex : PyException) (w : World X) :
  jsonschema_validate X d s = None ->
  json_dumps X d = Ok dumped ->
  llm_invoke X (messages_for dumped r) (judge e0) = (Raise ex, w) ->
  exists rep,
    validate_json X d s r e0 =
      (Ok (Some rep),
       mkEnv w (invocations e0 ++ [messages_for dumped r])%list) /\
    passed (semantic_validation rep) = false /\
    errors (semantic_validation rep) =
      PyList [PyStr ("Semantic validation error: " ++ exc_str ex)] /\
    overall_valid rep = false.
Proof.
  intros Hv Hd Hl. destruct e0 as [w0 log]. cbn [judge invocations] in *.
  rewrite (validate_json_schema_valid X d s r _ Hv).
  rewrite (after_semantic_schema_valid X d s r w0 log Hv), Hd. cbv zeta.
  rewrite Hl. cbn [fst snd semantic_verdict recovered].
  destruct (final_assessment_node_one_error X d s r
              ("Semantic validation error: " ++ exc_str ex)
              (mkEnv w (log ++ [messages_for dumped r])%list))
    as (rep & -> & Hov & _ & Hsem).
  exists rep. cbn [state env validation_report]. rewrite Hsem.
  repeat split. exact Hov.
Qed.

(** The judge is down while the empty document is validated. *)
Lemma C4_judge_failure_recovered_witness :
  exists rep,
    validate_json (Fixture.externals (Raise Fixture.network_down))
      Fixture.empty_document Fixture.any_schema Fixture.sample_rules
      (Fixture.fresh (Raise Fixture.network_down))
    = (Ok (Some rep),
       mkEnv (X := Fixture.externals (Raise Fixture.network_down)) 1
             [messages_for "{}" Fixture.sample_rules]) /\
    passed (semantic_validation rep) = false /\
    errors (semantic_validation rep) =
      PyList [PyStr "Semantic validation error: Connection error."] /\
    overall_valid rep = false.
Proof.
  apply (C4_judge_failure_recovered
           (Fixture.externals (Raise Fixture.network_down))
           Fixture.empty_document Fixture.any_schema Fixture.sample_rules
           (Fixture.fresh (Raise Fixture.network_down))
           "{}" Fixture.network_down 1);
    reflexivity.
Defined.

(** C3, as the code has it. For a structurally valid document, when the
    reply of the judge cannot be decoded as JSON ([json.loads] raises
    [JSONDecodeError]), the run returns a report with
    [semantic_validation.passed = false], the single semantic error
    "Failed to parse LLM validation response" and [overall_valid = false]. *)
Theorem C3_undecodable_reply (X : Externals) (d : Document X)
  (s : Schema X) (r : list string) (e0 : Env X) (dumped content : string)
  (ex : PyException) (w : World X) :
  jsonschema_validate X d s = None ->
  json_dumps X d = Ok dumped ->
  llm_invoke X (messages_for dumped r) (judge e0) = (Ok content, w) ->
  json_loads X content = Raise ex ->
  exc_class ex = JSONDecodeError ->
  exists rep,
    validate_json X d s r e0 =
      (Ok (Some rep),
       mkEnv w (invocations e0 ++ [messages_for dumped r])%list) /\
    passed (semantic_validation rep) = false /\
    errors (semantic_validation rep) =
      PyList [PyStr "Failed to parse LLM validation response"] /\
    overall_valid rep = false.
Proof.
  intros Hv Hd Hl Hloads Hclass. destruct e0 as [w0 log].
  cbn [judge invocations] in *.
  rewrite (validate_json_schema_valid X d s r _ Hv).
  rewrite (after_semantic_schema_valid X d s r w0 log Hv), Hd. cbv zeta.
  rewrite Hl. cbn [fst snd semantic_verdict]. rewrite Hloads, Hclass.
  cbn [ExcClass_eqb fst snd].
  destruct (final_assessment_node_one_error X d s r parse_failure_message
              (mkEnv w (log ++ [messages_for dumped r])%list))
    as (rep & -> & Hov & _ & Hsem).
  exists rep. cbn [state env validation_report]. rewrite Hsem.
  repeat split. exact Hov.
Qed.

(** The judge answers with the text "not json". *)
Lemma C3_undecodable_reply_witness :
  exists rep,
    validate_json (Fixture.externals (Ok Fixture.payload_not_json))
      Fixture.empty_document Fixture.any_schema Fixture.sample_rules
      (Fixture.fresh (Ok Fixture.payload_not_json))
    = (Ok (Some rep),
       mkEnv (X := Fixture.externals (Ok Fixture.payload_not_json)) 1
             [messages_for "{}" Fixture.sample_rules]) /\
    passed (semantic_validation rep) = false /\
    errors (semantic_validation rep) =
      PyList [PyStr "Failed to parse LLM validation response"] /\
    overall_valid rep = false.
Proof.
  apply (C3_undecodable_reply
           (Fixture.externals (Ok Fixture.payload_not_json))
           Fixture.empty_document Fixture.any_schema Fixture.sample_rules
           (Fixture.fresh (Ok Fixture.payload_not_json))
           "{}" Fixture.payload_not_json Fixture.decode_error 1);
    reflexivity.
Defined.

(** C3, as the specification words it, fails: on a structurally valid
    document with a reply that is not JSON, no report of the run carries
    the semantic errors ["Failed to parse semantic validation response"]. *)
Lemma C3_counterexample :
  jsonschema_validate (Fixture.externals (Ok Fixture.payload_not_json))
    Fixture.empty_document Fixture.any_schema = None /\
  json_loads (Fixture.externals (Ok Fixture.payload_not_json))
    Fixture.payload_not_json = Raise Fixture.decode_error /\
  ~ exists rep e1,
      validate_json (Fixture.externals (Ok Fixture.payload_not_json))
        Fixture.empty_document Fixture.any_schema Fixture.sample_rules
        (Fixture.fresh (Ok Fixture.payload_not_json))
      = (Ok (Some rep), e1) /\
      errors (semantic_validation rep) =
        PyList [PyStr "Failed to parse semantic validation response"].
Proof.
  split; [reflexivity|]. split; [reflexivity|].
  intros (rep & e1 & Hrun & Herrs).
  vm_compute in Hrun. injection Hrun as <- _.
  cbn in Herrs. discriminate Herrs.
Qed.

(** The final node keeps the environment, whether it returns or raises. *)
Lemma final_assessment_node_env (X : Externals) (h : Heap X) :
  env (snd (final_assessment_node X h)) = env h.
Proof.
  destruct h as [st e]. unfold final_assessment_node. unfold_monad.
  destruct (py_len _); [|reflexivity].
  destruct (_generate_summary X _); reflexivity.
Qed.

(** What the final node returns, and the state it leaves, depend on the
    state alone. *)
Lemma final_assessment_node_env_irrelevant (X : Externals)
  (st : ValidationState X) (e e' : Env X) :
  fst (final_assessment_node X (mkHeap st e)) =
    fst (final_assessment_node X (mkHeap st e')) /\
  state (snd (final_assessment_node X (mkHeap st e))) =
    state (snd (final_assessment_node X (mkHeap st e'))).
Proof.
  unfold final_assessment_node. unfold_monad.
  destruct (py_len _); [|split; reflexivity].
  destruct (_generate_summary X _); split; reflexivity.
Qed.

(** C10, as the code has it. For a structurally valid document, when the
    reply of the judge decodes to a JSON object whose [is_valid] is absent
    or falsy ([false], [null], zero, an empty string, list or object), the
    semantic phase ends in [SEMANTIC_INVALID] with the [errors] of the
    reply as semantic errors, and no report of the run is overall valid;
    when [errors] is absent too, the run returns a report whose semantic
    errors are exactly ["Semantic validation failed"], with
    [semantic_validation.passed = false] and [overall_valid = false]. *)
Theorem C10_falsy_is_valid_fails (X : Externals) (d : Document X)
  (s : Schema X) (r : list string) (e0 : Env X) (dumped content : string)
  (items : list (string * pyvalue)) (w : World X) :
  jsonschema_validate X d s = None ->
  json_dumps X d = Ok dumped ->
  llm_invoke X (messages_for dumped r) (judge e0) = (Ok content, w) ->
  json_loads X content = Ok (PyDict items) ->
  (assoc_get "is_valid" items = None \/
   exists v, assoc_get "is_valid" items = Some v /\ falsy v) ->
  status (state (after_semantic X d s r e0)) = SEMANTIC_INVALID /\
  semantic_errors (state (after_semantic X d s r e0)) =
    match assoc_get "errors" items with
    | Some errs => errs
    | None => PyList [PyStr "Semantic validation failed"]
    end /\
  (forall rep e1,
     validate_json X d s r e0 = (Ok (Some rep), e1) ->
     overall_valid rep = false) /\
  (assoc_get "errors" items = None ->
   exists rep,
     validate_json X d s r e0 =
       (Ok (Some rep),
        mkEnv w (invocations e0 ++ [messages_for dumped r])%list) /\
     passed (semantic_validation rep) = false /\
     errors (semantic_validation rep) =
       PyList [PyStr "Semantic validation failed"] /\
     overall_valid rep = false).
Proof.
  intros Hv Hd Hl Hloads Hvalid. destruct e0 as [w0 log].
  cbn [judge invocations] in *.
  assert (Hfalsy :
            py_truthy (match assoc_get "is_valid" items with
                       | Some x => x
                       | None => PyBool false
                       end) = false).
  { destruct Hvalid as [-> | (v & -> & Hf)]; [reflexivity | exact Hf]. }
  assert (Hafter :
            after_semantic X d s r (mkEnv w0 log) =
            mkHeap (mkState d s r SEMANTIC_INVALID []
                      (match assoc_get "errors" items with
                       | Some errs => errs
                       | None => PyList [PyStr default_semantic_failure]
                       end) false None)
                   (mkEnv w (log ++ [messages_for dumped r])%list)).
  { rewrite (after_semantic_schema_valid X d s r w0 log Hv), Hd. cbv zeta.
    rewrite Hl. cbn [fst snd semantic_verdict]. rewrite Hloads.
    cbn [dict_get]. rewrite Hfalsy. reflexivity. }
  rewrite (validate_json_schema_valid X d s r _ Hv), Hafter.
  cbn [state status semantic_errors].
  split; [reflexivity|]. split; [reflexivity|]. split.
  - intros rep e1 Hrun.
    destruct (final_assessment_node X _) as [[u|exf] hf] eqn:Hf;
      [|discriminate].
    apply final_assessment_node_inv in Hf.
    destruct Hf as (n & text & _ & _ & ->).
    injection Hrun as <- _. reflexivity.
  - intros ->.
    destruct (final_assessment_node_one_error X d s r
                default_semantic_failure
                (mkEnv w (log ++ [messages_for dumped r])%list))
      as (rep & -> & Hov & _ & Hsem).
    exists rep. cbn [state env validation_report]. rewrite Hsem.
    repeat split. exact Hov.
Qed.

(** The judge answers with an object that only says [is_valid] is false. *)
Lemma C10_falsy_is_valid_fails_witness :
  status (state (after_semantic
                   (Fixture.externals (Ok Fixture.payload_fail_bare))
                   Fixture.empty_document Fixture.any_schema
                   Fixture.sample_rules
                   (Fixture.fresh (Ok Fixture.payload_fail_bare))))
    = SEMANTIC_INVALID /\
  semantic_errors (state (after_semantic
                   (Fixture.externals (Ok Fixture.payload_fail_bare))
                   Fixture.empty_document Fixture.any_schema
                   Fixture.sample_rules
                   (Fixture.fresh (Ok Fixture.payload_fail_bare))))
    = PyList [PyStr "Semantic validation failed"].
Proof.
  destruct (C10_falsy_is_valid_fails
              (Fixture.externals (Ok Fixture.payload_fail_bare))
              Fixture.empty_document Fixture.any_schema
              Fixture.sample_rules
              (Fixture.fresh (Ok Fixture.payload_fail_bare))
              "{}" Fixture.payload_fail_bare
              [("is_valid", PyBool false)] 1
              eq_refl eq_refl eq_refl eq_refl
              (or_intror (ex_intro _ (PyBool false)
                            (conj eq_refl eq_refl))))
    as (Hstatus & Herrors & _).
  split; [exact Hstatus | exact Herrors].
Defined.

(** C10, as it is worded, fails: a reply whose [is_valid] is the string
    "false" has an [is_valid] that is present and is not [true], yet the
    semantic phase ends in [SEMANTIC_VALID] and the report is overall
    valid, because the node tests the truth value of the field. *)
Lemma C10_counterexample :
  json_loads (Fixture.externals (Ok Fixture.payload_string_false))
    Fixture.payload_string_false
    = Ok (PyDict [("is_valid", PyStr "false")]) /\
  PyStr "false" <> PyBool true /\
  status (state (after_semantic
                   (Fixture.externals (Ok Fixture.payload_string_false))
                   Fixture.empty_document Fixture.any_schema
                   Fixture.sample_rules
                   (Fixture.fresh (Ok Fixture.payload_string_false))))
    = SEMANTIC_VALID /\
  exists rep e1,
    validate_json (Fixture.externals (Ok Fixture.payload_string_false))
      Fixture.empty_document Fixture.any_schema Fixture.sample_rules
      (Fixture.fresh (Ok Fixture.payload_string_false))
    = (Ok (Some rep), e1) /\
    overall_valid rep = true /\
    passed (semantic_validation rep) = true.
Proof.
  split; [reflexivity|]. split; [discriminate|]. split; [reflexivity|].
  do 2 eexists. split; [vm_compute; reflexivity|]. split; reflexivity.
Qed.

(** The reply that makes the semantic phase pass: it decodes to an object
    whose [is_valid] is present and truthy. *)
Lemma semantic_verdict_valid_iff (X : Externals) (reply : Result string) :
  fst (semantic_verdict X reply) = SEMANTIC_VALID <->
  exists content items v,
    reply = Ok content /\
    json_loads X content = Ok (PyDict items) /\
    assoc_get "is_valid" items = Some v /\
    py_truthy v = true.
Proof.
  split.
  - destruct reply as [content|ex]; cbn [semantic_verdict];
      [|discriminate].
    destruct (json_loads X content) as [v|ex] eqn:Hloads.
    2:{ destruct (ExcClass_eqb _ _); discriminate. }
    destruct v as [| b | z | f | str | l | items]; try discriminate.
    cbn [dict_get].
    destruct (assoc_get "is_valid" items) as [v|] eqn:Hget;
      [|discriminate].
    destruct (py_truthy v) eqn:Htruthy; [|discriminate].
    intros _. exists content, items, v. repeat split; assumption.
  - intros (content & items & v & -> & Hloads & Hget & Htruthy).
    cbn [semantic_verdict]. rewrite Hloads. cbn [dict_get].
    rewrite Hget, Htruthy. reflexivity.
Qed.

Lemma semantic_verdict_valid_errors (X : Externals) (reply : Result string) :
  fst (semantic_verdict X reply) = SEMANTIC_VALID ->
  snd (semantic_verdict X reply) = PyList [].
Proof.
  intros H. apply semantic_verdict_valid_iff in H.
  destruct H as (content & items & v & -> & Hloads & Hget & Htruthy).
  cbn [semantic_verdict]. rewrite Hloads. cbn [dict_get].
  rewrite Hget, Htruthy. reflexivity.
Qed.

(** C8, as the code has it. For a structurally valid document validated
    with an empty rule list the judge is still sent one request, the one
    built from the empty list, whenever [json.dumps] serialises the
    document, and none when it does not; the semantic phase passes (status
    [SEMANTIC_VALID]) if and only if [json.dumps] serialises the document
    and the reply to that request decodes to a JSON object whose
    [is_valid] is truthy; when it passes, the report has
    [semantic_validation.passed = true], no semantic errors and
    [overall_valid = true]. *)
Theorem C8_empty_rules_judge_decides (X : Externals) (d : Document X)
  (s : Schema X) (e0 : Env X) :
  jsonschema_validate X d s = None ->
  invocations (env (after_semantic X d s [] e0)) =
    match json_dumps X d with
    | Ok dumped => (invocations e0 ++ [messages_for dumped []])%list
    | Raise _ => invocations e0
    end /\
  (status (state (after_semantic X d s [] e0)) = SEMANTIC_VALID <->
   exists dumped content items v,
     json_dumps X d = Ok dumped /\
     fst (llm_invoke X (messages_for dumped []) (judge e0)) = Ok content /\
     json_loads X content = Ok (PyDict items) /\
     assoc_get "is_valid" items = Some v /\
     py_truthy v = true) /\
  (status (state (after_semantic X d s [] e0)) = SEMANTIC_VALID ->
   exists rep,
     validate_json X d s [] e0 =
       (Ok (Some rep), env (after_semantic X d s [] e0)) /\
     passed (semantic_validation rep) = true /\
     errors (semantic_validation rep) = PyList [] /\
     overall_valid rep = true).
Proof.
  intros Hv. destruct e0 as [w0 log]. cbn [judge invocations].
  rewrite (validate_json_schema_valid X d s [] _ Hv).
  rewrite (after_semantic_schema_valid X d s [] w0 log Hv).
  destruct (json_dumps X d) as [dumped|exd].
  - cbv zeta. cbn [state env status invocations].
    split; [reflexivity|]. split.
    + split.
      * intros Hvalid. apply semantic_verdict_valid_iff in Hvalid.
        destruct Hvalid as (content & items & v & Hreply & Hrest).
        exists dumped, content, items, v. split; [reflexivity|].
        split; assumption.
      * intros (dumped' & content & items & v & [= <-] & Hrest).
        apply semantic_verdict_valid_iff. exists content, items, v.
        exact Hrest.
    + intros Hvalid.
      rewrite (semantic_verdict_valid_errors X _ Hvalid), Hvalid.
      unfold final_assessment_node, _generate_summary. eval_monad.
      cbn [py_len List.length Nat.eqb].
      eexists. split; [reflexivity|]. repeat split.
  - cbn [state env status invocations recovered fst snd].
    split; [reflexivity|]. split.
    + split; [discriminate|].
      intros (dumped & content & items & v & Hd & _). discriminate Hd.
    + discriminate.
Qed.

(** The judge passes the empty document under the empty rule list. *)
Lemma C8_empty_rules_judge_decides_witness :
  status (state (after_semantic
                   (Fixture.externals (Ok Fixture.payload_pass))
                   Fixture.empty_document Fixture.any_schema []
                   (Fixture.fresh (Ok Fixture.payload_pass))))
    = SEMANTIC_VALID <->
  exists dumped content items v,
    json_dumps (Fixture.externals (Ok Fixture.payload_pass))
      Fixture.empty_document = Ok dumped /\
    fst (llm_invoke (Fixture.externals (Ok Fixture.payload_pass))
           (messages_for dumped []) 0) = Ok content /\
    json_loads (Fixture.externals (Ok Fixture.payload_pass)) content
      = Ok (PyDict items) /\
    assoc_get "is_valid" items = Some v /\
    py_truthy v = true.
Proof.
  exact (proj1 (proj2 (C8_empty_rules_judge_decides
                         (Fixture.externals (Ok Fixture.payload_pass))
                         Fixture.empty_document Fixture.any_schema
                         (Fixture.fresh (Ok Fixture.payload_pass))
                         eq_refl))).
Defined.

(** C8, as it is worded, fails: with an empty rule list and a judge that is
    down, a structurally valid document gets a report whose semantic
    section did not pass and carries an error. *)
Lemma C8_counterexample :
  jsonschema_validate (Fixture.externals (Raise Fixture.network_down))
    Fixture.empty_document Fixture.any_schema = None /\
  exists rep e1,
    validate_json (Fixture.externals (Raise Fixture.network_down))
      Fixture.empty_document Fixture.any_schema []
      (Fixture.fresh (Raise Fixture.network_down))
    = (Ok (Some rep), e1) /\
    passed (semantic_validation rep) = false /\
    errors (semantic_validation rep) =
      PyList [PyStr "Semantic validation error: Connection error."] /\
    overall_valid rep = false.
Proof.
  split; [reflexivity|].
  do 2 eexists. split; [vm_compute; reflexivity|]. repeat split.
Qed.

(** A run returns a report whenever the schema refuses the document, and
    whenever the semantic node left a list of [str] as semantic errors. *)
Lemma validate_json_returns_on_string_errors (X : Externals)
  (d : Document X) (s : Schema X) (r : list string) (e0 : Env X) :
  (jsonschema_validate X d s <> None \/
   exists l,
     semantic_errors (state (after_semantic X d s r e0)) =
       PyList (List.map PyStr l)) ->
  exists rep e1, validate_json X d s r e0 = (Ok (Some rep), e1).
Proof.
  intros H. destruct (jsonschema_validate X d s) as [ex|] eqn:Hv.
  - do 2 eexists. apply (validate_json_schema_invalid X d s r e0 ex Hv).
  - destruct H as [H | (l & Hl)]; [congruence|].
    rewrite (validate_json_schema_valid X d s r e0 Hv).
    destruct (after_semantic X d s r e0) as [st2 e2].
    cbn [state] in Hl.
    destruct (final_assessment_node_total X st2 e2 l Hl) as (h' & Hf).
    rewrite Hf. pose proof (final_assessment_node_inv X st2 e2 tt h' Hf) as Hi.
    destruct Hi as (n & text & _ & _ & ->).
    do 2 eexists. reflexivity.
Qed.

(** C6. The engine does not always return a report: when the document is
    structurally valid and the judge answers
    [{"is_valid": false, "errors": null}], the semantic node stores [None]
    as semantic errors and the final node raises [TypeError], which
    escapes [validate_json]. *)
Theorem C6_malformed_errors_escape :
  validate_json (Fixture.externals (Ok Fixture.payload_errors_null))
    Fixture.empty_document Fixture.any_schema Fixture.sample_rules
    (Fixture.fresh (Ok Fixture.payload_errors_null))
  = (Raise (mkExc TypeError "object of type 'NoneType' has no len()"),
     mkEnv (X := Fixture.externals (Ok Fixture.payload_errors_null)) 1
           [messages_for "{}" Fixture.sample_rules]).
Proof. vm_compute. reflexivity. Qed.

(** Against a judge that is a function of its request, what a run returns
    does not depend on the environment it starts from. *)
Lemma validate_json_env_irrelevant (X : Externals) (d : Document X)
  (s : Schema X) (r : list string) (e e' : Env X) :
  judge_deterministic X ->
  fst (validate_json X d s r e) = fst (validate_json X d s r e').
Proof.
  intros Hdet. destruct (jsonschema_validate X d s) as [ex|] eqn:Hv.
  - rewrite (validate_json_schema_invalid X d s r e ex Hv).
    rewrite (validate_json_schema_invalid X d s r e' ex Hv).
    reflexivity.
  - rewrite (validate_json_schema_valid X d s r e Hv).
    rewrite (validate_json_schema_valid X d s r e' Hv).
    destruct e as [w log], e' as [w' log'].
    rewrite (after_semantic_schema_valid X d s r w log Hv).
    rewrite (after_semantic_schema_valid X d s r w' log' Hv).
    assert (Hfinal :
              forall (st : ValidationState X) (e1 e2 : Env X),
                fst (let (res, h) := final_assessment_node X (mkHeap st e1) in
                     match res with
                     | Ok _ => (Ok (validation_report (state h)), env h)
                     | Raise exn => (Raise exn, env h)
                     end) =
                fst (let (res, h) := final_assessment_node X (mkHeap st e2) in
                     match res with
                     | Ok _ => (Ok (validation_report (state h)), env h)
                     | Raise exn => (Raise exn, env h)
                     end)).
    { intros st e1 e2.
      destruct (final_assessment_node_env_irrelevant X st e1 e2)
        as [Hres Hstate].
      destruct (final_assessment_node X (mkHeap st e1)) as [res1 h1].
      destruct (final_assessment_node X (mkHeap st e2)) as [res2 h2].
      cbn [fst snd] in Hres, Hstate. subst res2.
      destruct res1; cbn [fst]; [rewrite Hstate|]; reflexivity. }
    destruct (json_dumps X d) as [dumped|exd]; [|apply Hfinal].
    cbv zeta. rewrite (Hdet (messages_for dumped r) w w'). apply Hfinal.
Qed.

(** C7. Against a judge that is a function of its request, a second call
    of [validate_json] with the same document, schema and rules, made in
    the environment the first call left, returns the same result as the
    first: the same report, or the same exception. *)
Theorem C7_two_runs_same_report (X : Externals) (d : Document X)
  (s : Schema X) (r : list string) (e0 : Env X) :
  judge_deterministic X ->
  fst (validate_json X d s r (snd (validate_json X d s r e0))) =
  fst (validate_json X d s r e0).
Proof.
  intros Hdet. apply validate_json_env_irrelevant. exact Hdet.
Qed.

(** Two runs against the constant judge, which counts its requests. *)
Lemma C7_two_runs_same_report_witness :
  fst (validate_json (Fixture.externals (Ok Fixture.payload_pass))
         Fixture.empty_document Fixture.any_schema Fixture.sample_rules
         (snd (validate_json (Fixture.externals (Ok Fixture.payload_pass))
                 Fixture.empty_document Fixture.any_schema
                 Fixture.sample_rules
                 (Fixture.fresh (Ok Fixture.payload_pass))))) =
  fst (validate_json (Fixture.externals (Ok Fixture.payload_pass))
         Fixture.empty_document Fixture.any_schema Fixture.sample_rules
         (Fixture.fresh (Ok Fixture.payload_pass))).
Proof.
  apply (C7_two_runs_same_report
           (Fixture.externals (Ok Fixture.payload_pass))).
  intros messages w1 w2. reflexivity.
Defined.

(** The hypothesis on the judge is needed: against the scripted judge,
    whose reply depends on its hidden state, two runs on the same input
    disagree. *)
Example scripted_judge_runs_differ :
  let e0 := mkEnv (X := Fixture.scripted) [Ok Fixture.payload_pass] [] in
  fst (validate_json Fixture.scripted Fixture.empty_document
         Fixture.any_schema Fixture.sample_rules
         (snd (validate_json Fixture.scripted Fixture.empty_document
                 Fixture.any_schema Fixture.sample_rules e0))) <>
  fst (validate_json Fixture.scripted Fixture.empty_document
         Fixture.any_schema Fixture.sample_rules e0).
Proof. vm_compute. discriminate. Qed.

(** Every run sends the judge at most one request. *)
Lemma validate_json_at_most_one_request (X : Externals) (d : Document X)
  (s : Schema X) (r : list string) (e0 : Env X) :
  invocations (snd (validate_json X d s r e0)) = invocations e0 \/
  exists messages,
    invocations (snd (validate_json X d s r e0)) =
      (invocations e0 ++ [messages])%list.
Proof.
  destruct (jsonschema_validate X d s) as [ex|] eqn:Hv.
  - rewrite (validate_json_schema_invalid X d s r e0 ex Hv). left.
    reflexivity.
  - rewrite (validate_json_schema_valid X d s r e0 Hv).
    destruct e0 as [w log].
    pose proof (final_assessment_node_env X
                  (after_semantic X d s r (mkEnv w log))) as Henv.
    destruct (final_assessment_node X _) as [[u|exf] hf];
      cbn [snd] in Henv |- *; rewrite Henv;
      rewrite (after_semantic_schema_valid X d s r w log Hv);
      (destruct (json_dumps X d) as [dumped|exd];
       [right; eexists; reflexivity | left; reflexivity]).
Qed.

(** ** Further properties of the workflow *)

(** [len] and [join] raise nothing but [TypeError]. *)
Lemma py_len_raises (v : pyvalue) (ex : PyException) :
  py_len v = Raise ex -> exc_class ex = TypeError.
Proof.
  destruct v; cbn; try discriminate; intros [= <-]; reflexivity.
Qed.

Lemma join_items_raises (items : list pyvalue) (i : nat)
  (ex : PyException) :
  join_items i items = Raise ex -> exc_class ex = TypeError.
Proof.
  revert i. induction items as [|v items IH]; intros i; cbn;
    [discriminate|].
  destruct v; try (intros [= <-]; reflexivity).
  destruct (join_items (S i) items) eqn:Hrest; [discriminate|].
  intros [= <-]. exact (IH (S i) Hrest).
Qed.

Lemma py_join_raises (sep : string) (v : pyvalue) (ex : PyException) :
  py_join sep v = Raise ex -> exc_class ex = TypeError.
Proof.
  destruct v; cbn; try discriminate; try (intros [= <-]; reflexivity).
  destruct (join_items 0 items) eqn:Hitems; [discriminate|].
  intros [= <-]. exact (join_items_raises _ _ _ Hitems).
Qed.

(** When the final node raises, the exception comes from [len] of the
    semantic errors or, on a state that is not valid, from joining them. *)
Lemma final_assessment_node_raise_inv (X : Externals)
  (st : ValidationState X) (e : Env X) (ex : PyException) (h' : Heap X) :
  final_assessment_node X (mkHeap st e) = (Raise ex, h') ->
  py_len (semantic_errors st) = Raise ex \/
  (status st <> SEMANTIC_VALID /\
   py_truthy (semantic_errors st) = true /\
   py_join "; " (semantic_errors st) = Raise ex).
Proof.
  destruct st as [d s r sts serrs merrs iv0 rep].
  unfold final_assessment_node. unfold_monad.
  cbn [semantic_errors status].
  destruct (py_len merrs) as [n|exl]; [|intros [= <- _]; left; reflexivity].
  unfold _generate_summary. cbn [is_valid schema_errors semantic_errors].
  destruct (existsb _ _ && ValidationStatus_eqb sts SEMANTIC_VALID)
    eqn:Hiv; [discriminate|].
  destruct (py_truthy merrs); [|discriminate].
  destruct (py_join "; " merrs) as [joined|exj]; [discriminate|].
  intros [= <- _]. right. split; [|split; reflexivity].
  intros ->. discriminate Hiv.
Qed.

(** The verdict on a reply stores a value that is neither a string nor a
    list of strings only when it copies the [errors] of a decoded object
    whose [is_valid] is falsy. *)
Lemma semantic_verdict_cases (X : Externals) (reply : Result string) :
  (exists message,
     semantic_verdict X reply = (SEMANTIC_INVALID, PyList [PyStr message])) \/
  semantic_verdict X reply = (SEMANTIC_VALID, PyList []) \/
  (exists content items errs,
     reply = Ok content /\
     json_loads X content = Ok (PyDict items) /\
     py_truthy (match assoc_get "is_valid" items with
                | Some v => v
                | None => PyBool false
                end) = false /\
     assoc_get "errors" items = Some errs /\
     semantic_verdict X reply = (SEMANTIC_INVALID, errs)).
Proof.
  destruct reply as [content|ex]; cbn [semantic_verdict].
  2:{ left. eexists. reflexivity. }
  destruct (json_loads X content) as [v|ex] eqn:Hloads.
  2:{ left. destruct (ExcClass_eqb _ _); eexists; reflexivity. }
  destruct v as [| b | z | f | str | l | items];
    try (left; eexists; reflexivity).
  cbn [dict_get].
  destruct (py_truthy _) eqn:Htruthy; [right; left; reflexivity|].
  destruct (assoc_get "errors" items) as [errs|] eqn:Herrs.
  - right. right. exists content, items, errs. repeat split; assumption.
  - left. eexists. reflexivity.
Qed.

(** The only exception that escapes [validate_json] is a [TypeError]
    of the final node, and it escapes only when the schema accepted the
    document and the judge replied with a JSON object whose [is_valid] is
    falsy and whose [errors] value has no length or cannot be joined; the
    recursion limit of the graph is never reached. *)
Lemma validate_json_raise_inv (X : Externals) (d : Document X)
  (s : Schema X) (r : list string) (e0 e1 : Env X) (ex : PyException) :
  validate_json X d s r e0 = (Raise ex, e1) ->
  exc_class ex = TypeError /\
  jsonschema_validate X d s = None /\
  exists dumped content items errs,
    json_dumps X d = Ok dumped /\
    fst (llm_invoke X (messages_for dumped r) (judge e0)) = Ok content /\
    json_loads X content = Ok (PyDict items) /\
    py_truthy (match assoc_get "is_valid" items with
               | Some v => v
               | None => PyBool false
               end) = false /\
    assoc_get "errors" items = Some errs /\
    (py_len errs = Raise ex \/ py_join "; " errs = Raise ex).
Proof.
  intros Hrun. destruct (jsonschema_validate X d s) as [exv|] eqn:Hv.
  { rewrite (validate_json_schema_invalid X d s r e0 exv Hv) in Hrun.
    discriminate. }
  rewrite (validate_json_schema_valid X d s r e0 Hv) in Hrun.
  destruct e0 as [w log]. cbn [judge].
  rewrite (after_semantic_schema_valid X d s r w log Hv) in Hrun.
  assert (Hclass :
            forall v, py_len v = Raise ex \/ py_join "; " v = Raise ex ->
                      exc_class ex = TypeError).
  { intros v [H|H]; [exact (py_len_raises _ _ H)
                    | exact (py_join_raises _ _ _ H)]. }
  destruct (json_dumps X d) as [dumped|exd]; cbv zeta in Hrun.
  2:{ destruct (final_assessment_node X _) as [[u|exf] hf] eqn:Hf;
        [discriminate|].
      injection Hrun as -> _.
      apply final_assessment_node_raise_inv in Hf.
      cbn in Hf. destruct Hf as [Hf | (_ & _ & Hf)]; discriminate. }
  destruct (final_assessment_node X _) as [[u|exf] hf] eqn:Hf;
    [discriminate|].
  injection Hrun as -> _.
  apply final_assessment_node_raise_inv in Hf.
  cbn [semantic_errors status] in Hf.
  destruct (semantic_verdict_cases X
              (fst (llm_invoke X (messages_for dumped r) w)))
    as [(message & Hverdict) | [Hverdict
       | (content & items & errs & Hreply & Hloads & Hfalsy & Herrs
          & Hverdict)]];
    rewrite Hverdict in Hf; cbn [fst snd] in Hf.
  - cbn in Hf. destruct Hf as [Hf | (_ & _ & Hf)]; discriminate.
  - cbn in Hf. destruct Hf as [Hf | (Hf & _)]; [discriminate|].
    exfalso. apply Hf. reflexivity.
  - assert (Hbad : py_len errs = Raise ex \/ py_join "; " errs = Raise ex).
    { destruct Hf as [Hf | (_ & _ & Hf)]; [left | right]; exact Hf. }
    split; [exact (Hclass errs Hbad)|]. split; [reflexivity|].
    exists dumped, content, items, errs. repeat split; assumption.
Qed.

(** X1. The only exception that escapes [validate_json] is a [TypeError]
    of the final node, and it escapes only when the schema accepted the
    document and the judge replied with a JSON object whose [is_valid] is
    falsy and whose [errors] value has no length or cannot be joined; the
    recursion limit of the graph is never reached. *)
Theorem X1_only_type_error_escapes (X : Externals) (d : Document X)
  (s : Schema X) (r : list string) (e0 e1 : Env X) (ex : PyException) :
  validate_json X d s r e0 = (Raise ex, e1) ->
  exc_class ex = TypeError /\
  jsonschema_validate X d s = None /\
  exists dumped content items errs,
    json_dumps X d = Ok dumped /\
    fst (llm_invoke X (messages_for dumped r) (judge e0)) = Ok content /\
    json_loads X content = Ok (PyDict items) /\
    py_truthy (match assoc_get "is_valid" items with
               | Some v => v
               | None => PyBool false
               end) = false /\
    assoc_get "errors" items = Some errs /\
    (py_len errs = Raise ex \/ py_join "; " errs = Raise ex).
Proof.
  exact (validate_json_raise_inv X d s r e0 e1 ex).
Qed.

(** The run in which the judge answers with [errors] set to [null]. *)
Lemma X1_only_type_error_escapes_witness :
  exc_class (mkExc TypeError "object of type 'NoneType' has no len()")
    = TypeError /\
  jsonschema_validate (Fixture.externals (Ok Fixture.payload_errors_null))
    Fixture.empty_document Fixture.any_schema = None.
Proof.
  assert (Hrun :
            validate_json
              (Fixture.externals (Ok Fixture.payload_errors_null))
              Fixture.empty_document Fixture.any_schema
              Fixture.sample_rules
              (Fixture.fresh (Ok Fixture.payload_errors_null))
            = (Raise (mkExc TypeError
                        "object of type 'NoneType' has no len()"),
               mkEnv (X := Fixture.externals
                             (Ok Fixture.payload_errors_null)) 1
                     [messages_for "{}" Fixture.sample_rules])).
  { vm_compute. reflexivity. }
  destruct (X1_only_type_error_escapes _ _ _ _ _ _ _ Hrun)
    as (Hclass & Hv & _).
  split; [exact Hclass | exact Hv].
Defined.

(** X2. For a structurally valid document, a reply that decodes to a JSON
    object whose [is_valid] is truthy gives the fully valid report: both
    sections passed with no errors and the fixed confirmation as summary,
    whatever else the reply holds (its [errors] and [warnings] are
    dropped). *)
Theorem X2_truthy_reply_valid_report (X : Externals) (d : Document X)
  (s : Schema X) (r : list string) (e0 : Env X) (dumped content : string)
  (items : list (string * pyvalue)) (v : pyvalue) (w : World X) :
  jsonschema_validate X d s = None ->
  json_dumps X d = Ok dumped ->
  llm_invoke X (messages_for dumped r) (judge e0) = (Ok content, w) ->
  json_loads X content = Ok (PyDict items) ->
  assoc_get "is_valid" items = Some v ->
  py_truthy v = true ->
  validate_json X d s r e0 =
    (Ok (Some (mkReport true (mkPhase true []) (mkPhase true (PyList []))
                 "JSON data is valid according to both schema and semantic rules.")),
     mkEnv w (invocations e0 ++ [messages_for dumped r])%list).
Proof.
  intros Hv Hd Hl Hloads Hget Htruthy. destruct e0 as [w0 log].
  cbn [judge invocations] in *.
  rewrite (validate_json_schema_valid X d s r _ Hv).
  rewrite (after_semantic_schema_valid X d s r w0 log Hv), Hd. cbv zeta.
  rewrite Hl. cbn [fst snd semantic_verdict]. rewrite Hloads.
  cbn [dict_get]. rewrite Hget, Htruthy. cbn [fst snd].
  unfold final_assessment_node, _generate_summary. eval_monad.
  cbn [py_len List.length Nat.eqb]. reflexivity.
Qed.

(** The judge passes the empty document. *)
Lemma X2_truthy_reply_valid_report_witness :
  validate_json (Fixture.externals (Ok Fixture.payload_pass))
    Fixture.empty_document Fixture.any_schema Fixture.sample_rules
    (Fixture.fresh (Ok Fixture.payload_pass)) =
  (Ok (Some (mkReport true (mkPhase true []) (mkPhase true (PyList []))
               "JSON data is valid according to both schema and semantic rules.")),
   mkEnv (X := Fixture.externals (Ok Fixture.payload_pass)) 1
         [messages_for "{}" Fixture.sample_rules]).
Proof.
  apply (X2_truthy_reply_valid_report
           (Fixture.externals (Ok Fixture.payload_pass))
           Fixture.empty_document Fixture.any_schema Fixture.sample_rules
           (Fixture.fresh (Ok Fixture.payload_pass))
           "{}" Fixture.payload_pass
           [("is_valid", PyBool true); ("errors", PyList [])]
           (PyBool true) 1);
    reflexivity.
Defined.

(** X3. For a structurally valid document, a reply that decodes to a JSON
    object whose [is_valid] is absent or falsy and whose [errors] is a list
    of strings gives a report that is not overall valid and carries that
    list as semantic errors.  The semantic section counts as passed exactly
    when the list is empty, and then the summary names no section at all. *)
Theorem X3_falsy_reply_lists_errors (X : Externals) (d : Document X)
  (s : Schema X) (r : list string) (e0 : Env X) (dumped content : string)
  (items : list (string * pyvalue)) (l : list string) (w : World X) :
  jsonschema_validate X d s = None ->
  json_dumps X d = Ok dumped ->
  llm_invoke X (messages_for dumped r) (judge e0) = (Ok content, w) ->
  json_loads X content = Ok (PyDict items) ->
  py_truthy (match assoc_get "is_valid" items with
             | Some v => v
             | None => PyBool false
             end) = false ->
  assoc_get "errors" items = Some (PyList (List.map PyStr l)) ->
  validate_json X d s r e0 =
    (Ok (Some (mkReport false
                 (mkPhase true [])
                 (mkPhase match l with [] => true | _ :: _ => false end
                          (PyList (List.map PyStr l)))
                 ("JSON data is invalid. Issues found: "
                    ++ String.concat " | "
                         match l with
                         | [] => []
                         | _ :: _ =>
                             ["Semantic validation failed: "
                                ++ String.concat "; " l]
                         end))),
     mkEnv w (invocations e0 ++ [messages_for dumped r])%list).
Proof.
  intros Hv Hd Hl Hloads Hfalsy Herrs. destruct e0 as [w0 log].
  cbn [judge invocations] in *.
  rewrite (validate_json_schema_valid X d s r _ Hv).
  rewrite (after_semantic_schema_valid X d s r w0 log Hv), Hd. cbv zeta.
  rewrite Hl. cbn [fst snd semantic_verdict]. rewrite Hloads.
  cbn [dict_get]. rewrite Hfalsy, Herrs. cbn [fst snd].
  unfold final_assessment_node, _generate_summary. eval_monad.
  rewrite py_join_strings. cbn [py_len].
  destruct l as [|m l]; reflexivity.
Qed.

(** X4. For a structurally valid document, a reply that decodes to JSON
    that is not an object (a list, a number, a string, [null], ...) is
    recovered by the outer handler: the single semantic error is
    "Semantic validation error: '<type>' object has no attribute 'get'",
    not the parse-failure message, and the report is not overall valid. *)
Theorem X4_non_object_reply (X : Externals) (d : Document X)
  (s : Schema X) (r : list string) (e0 : Env X) (dumped content : string)
  (v : pyvalue) (w : World X) :
  jsonschema_validate X d s = None ->
  json_dumps X d = Ok dumped ->
  llm_invoke X (messages_for dumped r) (judge e0) = (Ok content, w) ->
  json_loads X content = Ok v ->
  (forall items, v <> PyDict items) ->
  exists rep,
    validate_json X d s r e0 =
      (Ok (Some rep),
       mkEnv w (invocations e0 ++ [messages_for dumped r])%list) /\
    semantic_validation rep =
      mkPhase false
        (PyList [PyStr ("Semantic validation error: '" ++ py_type_name v
                          ++ "' object has no attribute 'get'")]) /\
    schema_validation rep = mkPhase true [] /\
    overall_valid rep = false.
Proof.
  intros Hv Hd Hl Hloads Hshape. destruct e0 as [w0 log].
  cbn [judge invocations] in *.
  rewrite (validate_json_schema_valid X d s r _ Hv).
  rewrite (after_semantic_schema_valid X d s r w0 log Hv), Hd. cbv zeta.
  rewrite Hl. cbn [fst snd semantic_verdict]. rewrite Hloads.
  destruct (final_assessment_node_one_error X d s r
              ("Semantic validation error: "
                 ++ ("'" ++ py_type_name v
                       ++ "' object has no attribute 'get'"))
              (mkEnv w (log ++ [messages_for dumped r])%list))
    as (rep & Hfinal & Hov & Hschema & Hsem).
  destruct v as [| b | z | f | str | l | items];
    try (cbn [dict_get recovered fst snd exc_str];
         rewrite Hfinal; exists rep; cbn [state env validation_report];
         split; [reflexivity|];
         split; [exact Hsem|]; split; [exact Hschema | exact Hov]).
  exfalso. exact (Hshape items eq_refl).
Qed.

(** The judge answers with the text of the empty list. *)
Lemma X4_non_object_reply_witness :
  exists rep,
    validate_json Fixture.list_reply Fixture.empty_document
      Fixture.any_schema Fixture.sample_rules
      (mkEnv (X := Fixture.list_reply) 0 [])
    = (Ok (Some rep),
       mkEnv (X := Fixture.list_reply) 1
             [messages_for "{}" Fixture.sample_rules]) /\
    semantic_validation rep =
      mkPhase false
        (PyList [PyStr "Semantic validation error: 'list' object has no attribute 'get'"]) /\
    schema_validation rep = mkPhase true [] /\
    overall_valid rep = false.
Proof.
  apply (X4_non_object_reply Fixture.list_reply Fixture.empty_document
           Fixture.any_schema Fixture.sample_rules
           (mkEnv (X := Fixture.list_reply) 0 [])
           "{}" "[]" (PyList []) 1);
    try reflexivity.
  intros items. discriminate.
Defined.

(** The judge reports one violation. *)
Lemma X3_falsy_reply_lists_errors_witness :
  validate_json Fixture.too_young Fixture.empty_document Fixture.any_schema
    Fixture.sample_rules (mkEnv (X := Fixture.too_young) 0 []) =
  (Ok (Some (mkReport false
               (mkPhase true [])
               (mkPhase false (PyList [PyStr "too young"]))
               "JSON data is invalid. Issues found: Semantic validation failed: too young")),
   mkEnv (X := Fixture.too_young) 1
         [messages_for "{}" Fixture.sample_rules]).
Proof.
  apply (X3_falsy_reply_lists_errors Fixture.too_young
           Fixture.empty_document Fixture.any_schema Fixture.sample_rules
           (mkEnv (X := Fixture.too_young) 0 [])
           "{}" Fixture.payload_too_young
           [("is_valid", PyBool false);
            ("errors", PyList [PyStr "too young"])]
           ["too young"] 1);
    reflexivity.
Defined.

(** X5. A report that is overall valid is the fully valid report: both
    sections passed, both error lists are empty and the summary is the
    fixed confirmation. *)
Theorem X5_overall_valid_report_is_clean (X : Externals) (d : Document X)
  (s : Schema X) (r : list string) (e0 e1 : Env X)
  (rep : ValidationReport) :
  validate_json X d s r e0 = (Ok (Some rep), e1) ->
  overall_valid rep = true ->
  rep = mkReport true (mkPhase true []) (mkPhase true (PyList []))
          "JSON data is valid according to both schema and semantic rules.".
Proof.
  intros Hrun Hov. destruct (jsonschema_validate X d s) as [exv|] eqn:Hv.
  { rewrite (validate_json_schema_invalid X d s r e0 exv Hv) in Hrun.
    injection Hrun as <- _. discriminate Hov. }
  rewrite (validate_json_schema_valid X d s r e0 Hv) in Hrun.
  destruct e0 as [w log].
  rewrite (after_semantic_schema_valid X d s r w log Hv) in Hrun.
  assert (Hfinal :
            forall sts errs e2,
              (sts = SEMANTIC_VALID -> errs = PyList []) ->
              (let (res, h) :=
                 final_assessment_node X
                   (mkHeap (mkState d s r sts [] errs false None) e2) in
               match res with
               | Ok _ => (Ok (validation_report (state h)), env h)
               | Raise exn => (Raise exn, env h)
               end) = (Ok (Some rep), e1) ->
              rep = mkReport true (mkPhase true [])
                      (mkPhase true (PyList [])) valid_summary).
  { clear Hrun. intros sts errs e2 Hclean Hf.
    destruct (final_assessment_node X _) as [[u|exf] hf] eqn:Hnode;
      [|discriminate].
    apply final_assessment_node_inv in Hnode.
    destruct Hnode as (n & text & Hlen & Hsum & ->).
    cbn [status schema_errors semantic_errors json_data schema
         custom_rules validation_report] in *.
    injection Hf as Hrep _. subst rep. cbn [overall_valid] in Hov.
    destruct sts; try discriminate Hov.
    rewrite (Hclean eq_refl) in *. cbn in Hlen. injection Hlen as <-.
    cbn in Hsum. injection Hsum as <-. reflexivity. }
  destruct (json_dumps X d) as [dumped|exd]; cbv zeta in Hrun.
  - apply (Hfinal _ _ _ (semantic_verdict_valid_errors X _) Hrun).
  - refine (Hfinal (fst (recovered exd)) (snd (recovered exd))
                   (mkEnv w log) _ Hrun).
    cbn. discriminate.
Qed.

(** The report of the run in which the judge passes the empty document. *)
Lemma X5_overall_valid_report_is_clean_witness :
  mkReport true (mkPhase true []) (mkPhase true (PyList []))
    "JSON data is valid according to both schema and semantic rules." =
  mkReport true (mkPhase true []) (mkPhase true (PyList []))
    "JSON data is valid according to both schema and semantic rules.".
Proof.
  assert (Hrun :
            validate_json (Fixture.externals (Ok Fixture.payload_pass))
              Fixture.empty_document Fixture.any_schema
              Fixture.sample_rules
              (Fixture.fresh (Ok Fixture.payload_pass))
            = (Ok (Some (mkReport true (mkPhase true [])
                           (mkPhase true (PyList []))
                           "JSON data is valid according to both schema and semantic rules.")),
               mkEnv (X := Fixture.externals (Ok Fixture.payload_pass)) 1
                     [messages_for "{}" Fixture.sample_rules])).
  { vm_compute. reflexivity. }
  exact (X5_overall_valid_report_is_clean _ _ _ _ _ _ _ Hrun eq_refl).
Defined.

(** X6. What a run costs: the judge is sent no request, and its hidden
    state is left alone, when the schema refuses the document or the
    document cannot be dumped; otherwise it is sent exactly one request,
    the one built from the dumped document and the rules, whether the run
    returns a report or raises. *)
Theorem X6_requests_sent (X : Externals) (d : Document X) (s : Schema X)
  (r : list string) (e0 : Env X) :
  snd (validate_json X d s r e0) =
  match jsonschema_validate X d s, json_dumps X d with
  | None, Ok dumped =>
      mkEnv (snd (llm_invoke X (messages_for dumped r) (judge e0)))
            (invocations e0 ++ [messages_for dumped r])%list
  | _, _ => e0
  end.
Proof.
  destruct (jsonschema_validate X d s) as [exv|] eqn:Hv.
  { rewrite (validate_json_schema_invalid X d s r e0 exv Hv). reflexivity. }
  rewrite (validate_json_schema_valid X d s r e0 Hv).
  destruct e0 as [w log]. cbn [judge invocations].
  pose proof (final_assessment_node_env X
                (after_semantic X d s r (mkEnv w log))) as Henv.
  rewrite (after_semantic_schema_valid X d s r w log Hv) in *.
  destruct (final_assessment_node X _) as [[u|exf] hf];
    cbn [snd] in Henv |- *; rewrite Henv;
    destruct (json_dumps X d); reflexivity.
Qed.

(** X7. For a structurally valid document that [json.dumps] refuses, the
    failure is recovered before the judge is called: the run returns a
    report with the single semantic error
    "Semantic validation error: <cause>", not overall valid, and leaves
    the environment as it was. *)
Theorem X7_undumpable_document (X : Externals) (d : Document X)
  (s : Schema X) (r : list string) (e0 : Env X) (ex : PyException) :
  jsonschema_validate X d s = None ->
  json_dumps X d = Raise ex ->
  exists rep,
    validate_json X d s r e0 = (Ok (Some rep), e0) /\
    schema_validation rep = mkPhase true [] /\
    semantic_validation rep =
      mkPhase false
        (PyList [PyStr ("Semantic validation error: " ++ exc_str ex)]) /\
    overall_valid rep = false.
Proof.
  intros Hv Hd. destruct e0 as [w log].
  rewrite (validate_json_schema_valid X d s r _ Hv).
  rewrite (after_semantic_schema_valid X d s r w log Hv), Hd.
  cbn [recovered fst snd].
  destruct (final_assessment_node_one_error X d s r
              ("Semantic validation error: " ++ exc_str ex) (mkEnv w log))
    as (rep & -> & Hov & Hschema & Hsem).
  exists rep. cbn [state env validation_report].
  split; [reflexivity|]. split; [exact Hschema|].
  split; [exact Hsem | exact Hov].
Qed.

(** A document that holds a value [json.dumps] cannot serialize. *)
Lemma X7_undumpable_document_witness :
  exists rep,
    validate_json Fixture.unserializable (PyDict [("tags", PyNone)])
      Fixture.any_schema Fixture.sample_rules
      (mkEnv (X := Fixture.unserializable) 0 [])
    = (Ok (Some rep), mkEnv (X := Fixture.unserializable) 0 []) /\
    schema_validation rep = mkPhase true [] /\
    semantic_validation rep =
      mkPhase false
        (PyList [PyStr "Semantic validation error: Object of type set is not JSON serializable"]) /\
    overall_valid rep = false.
Proof.
  apply (X7_undumpable_document Fixture.unserializable
           (PyDict [("tags", PyNone)]) Fixture.any_schema
           Fixture.sample_rules (mkEnv (X := Fixture.unserializable) 0 [])
           (mkExc TypeError "Object of type set is not JSON serializable"));
    reflexivity.
Defined.

(** X8. For a structurally valid document, a reply whose [is_valid] is
    falsy and whose [errors] is one non-empty string, not a list, is
    stored as it is: the report carries the string, the semantic section
    did not pass, and the summary joins the characters of the string with
    "; ". *)
Theorem X8_errors_given_as_text (X : Externals) (d : Document X)
  (s : Schema X) (r : list string) (e0 : Env X) (dumped content : string)
  (items : list (string * pyvalue)) (text : string) (w : World X) :
  jsonschema_validate X d s = None ->
  json_dumps X d = Ok dumped ->
  llm_invoke X (messages_for dumped r) (judge e0) = (Ok content, w) ->
  json_loads X content = Ok (PyDict items) ->
  py_truthy (match assoc_get "is_valid" items with
             | Some v => v
             | None => PyBool false
             end) = false ->
  assoc_get "errors" items = Some (PyStr text) ->
  text <> "" ->
  validate_json X d s r e0 =
    (Ok (Some (mkReport false
                 (mkPhase true [])
                 (mkPhase false (PyStr text))
                 ("JSON data is invalid. Issues found: "
                    ++ ("Semantic validation failed: "
                          ++ String.concat "; " (chars_of text))))),
     mkEnv w (invocations e0 ++ [messages_for dumped r])%list).
Proof.
  intros Hv Hd Hl Hloads Hfalsy Herrs Htext. destruct e0 as [w0 log].
  cbn [judge invocations] in *.
  rewrite (validate_json_schema_valid X d s r _ Hv).
  rewrite (after_semantic_schema_valid X d s r w0 log Hv), Hd. cbv zeta.
  rewrite Hl. cbn [fst snd semantic_verdict]. rewrite Hloads.
  cbn [dict_get]. rewrite Hfalsy, Herrs. cbn [fst snd].
  unfold final_assessment_node, _generate_summary. eval_monad.
  cbn [py_len py_truthy py_join]. rewrite chars_of_length.
  destruct text as [|c text]; [contradiction Htext; reflexivity|].
  reflexivity.
Qed.

(** The judge gives its errors as the text "bad". *)
Lemma X8_errors_given_as_text_witness :
  validate_json Fixture.errors_text Fixture.empty_document
    Fixture.any_schema Fixture.sample_rules
    (mkEnv (X := Fixture.errors_text) 0 []) =
  (Ok (Some (mkReport false
               (mkPhase true [])
               (mkPhase false (PyStr "bad"))
               "JSON data is invalid. Issues found: Semantic validation failed: b; a; d")),
   mkEnv (X := Fixture.errors_text) 1
         [messages_for "{}" Fixture.sample_rules]).
Proof.
  apply (X8_errors_given_as_text Fixture.errors_text
           Fixture.empty_document Fixture.any_schema Fixture.sample_rules
           (mkEnv (X := Fixture.errors_text) 0 [])
           "{}" Fixture.payload_errors_text
           [("is_valid", PyBool false); ("errors", PyStr "bad")]
           "bad" 1);
    try reflexivity.
  discriminate.
Defined.

(** X9. Whenever the compiled graph returns from a run started by
    [validate_json], the state it leaves has status [COMPLETE], still
    holds the document, the schema and the rules it was given, and holds a
    report (never the empty dictionary) whose [overall_valid] is the
    [is_valid] of the state and whose error values are those of the
    state. *)
Theorem X9_completed_state (X : Externals) (d : Document X) (s : Schema X)
  (r : list string) (e0 : Env X) (h : Heap X) :
  invoke X (_build_workflow X) (mkHeap (initial_state X d s r) e0)
    = (Ok tt, h) ->
  status (state h) = COMPLETE /\
  json_data (state h) = d /\
  schema (state h) = s /\
  custom_rules (state h) = r /\
  exists rep,
    validation_report (state h) = Some rep /\
    overall_valid rep = is_valid (state h) /\
    errors (schema_validation rep) = schema_errors (state h) /\
    errors (semantic_validation rep) = semantic_errors (state h).
Proof.
  rewrite invoke_after_schema, after_schema_eq. intros Hrun.
  assert (Hfinal :
            forall sts serrs merrs e2,
              final_assessment_node X
                (mkHeap (mkState d s r sts serrs merrs false None) e2)
              = (Ok tt, h) ->
              status (state h) = COMPLETE /\
              json_data (state h) = d /\
              schema (state h) = s /\
              custom_rules (state h) = r /\
              exists rep,
                validation_report (state h) = Some rep /\
                overall_valid rep = is_valid (state h) /\
                errors (schema_validation rep) = schema_errors (state h) /\
                errors (semantic_validation rep)
                  = semantic_errors (state h)).
  { clear Hrun. intros sts serrs merrs e2 Hf.
    apply final_assessment_node_inv in Hf.
    destruct Hf as (n & text & _ & _ & ->). cbn.
    repeat split. eexists. repeat split. }
  destruct (jsonschema_validate X d s) as [exv|].
  - exact (Hfinal _ _ _ _ Hrun).
  - destruct e0 as [w log].
    destruct (semantic_validation_node_returns X
                (mkState d s r SCHEMA_VALID [] (PyList []) false None)
                w log)
      as (sts & errs & w' & log' & Hsem & _).
    rewrite Hsem in Hrun. exact (Hfinal _ _ _ _ Hrun).
Qed.

(** The state left by the run in which the judge is down. *)
Lemma X9_completed_state_witness :
  status (state (snd (invoke (Fixture.externals (Raise Fixture.network_down))
                        (_build_workflow
                           (Fixture.externals (Raise Fixture.network_down)))
                        (mkHeap
                           (initial_state
                              (Fixture.externals (Raise Fixture.network_down))
                              Fixture.empty_document Fixture.any_schema
                              Fixture.sample_rules)
                           (Fixture.fresh (Raise Fixture.network_down))))))
    = COMPLETE.
Proof.
  assert (Hrun :
            invoke (Fixture.externals (Raise Fixture.network_down))
              (_build_workflow
                 (Fixture.externals (Raise Fixture.network_down)))
              (mkHeap
                 (initial_state
                    (Fixture.externals (Raise Fixture.network_down))
                    Fixture.empty_document Fixture.any_schema
                    Fixture.sample_rules)
                 (Fixture.fresh (Raise Fixture.network_down)))
            = (Ok tt,
               snd (invoke (Fixture.externals (Raise Fixture.network_down))
                      (_build_workflow
                         (Fixture.externals (Raise Fixture.network_down)))
                      (mkHeap
                         (initial_state
                            (Fixture.externals (Raise Fixture.network_down))
                            Fixture.empty_document Fixture.any_schema
                            Fixture.sample_rules)
                         (Fixture.fresh (Raise Fixture.network_down)))))).
  { vm_compute. reflexivity. }
  exact (proj1 (X9_completed_state _ _ _ _ _ _ Hrun)).
Defined.

(** ** Properties of the command-line program *)

Lemma blank_last_snoc (acc : list string) (x : string) :
  blank_last (acc ++ [x])%list = String.eqb x "".
Proof.
  unfold blank_last. rewrite List.last_last.
  destruct acc; reflexivity.
Qed.

(** The loop that reads the JSON text, from any collection: when the lines
    [ls] bring no empty line right after an empty line and the collection
    extended by [ls] ends with an empty line, an empty line read next ends
    the loop with that collection. *)
Lemma read_json_lines_loop_stops (sh : Shell) (ls : list string) :
  forall (acc : list string) (fuel : nat) (rest : list string)
         (out : list OutEvent) (e : Env (core sh)),
    List.length ls <= fuel ->
    has_blank_pair (blank_last acc) ls = false ->
    blank_last (acc ++ ls)%list = true ->
    read_json_lines_loop sh fuel acc
      (mkConsole (ls ++ "" :: rest)%list out e) =
    (Returned (acc ++ ls)%list,
     mkConsole rest
       (out ++ List.repeat (Prompted "") (S (List.length ls)))%list e).
Proof.
  induction ls as [|x ls IH]; intros acc fuel rest out e Hfuel Hpair Hlast.
  - rewrite List.app_nil_r in *. cbn [List.app List.length List.repeat].
    unfold blank_last in Hlast.
    destruct fuel; cbn [read_json_lines_loop];
      unfold io_bind, input; cbn [stdin stdout session];
      cbn [String.eqb andb]; rewrite Hlast; reflexivity.
  - destruct fuel as [|fuel]; [cbn in Hfuel; inversion Hfuel|].
    cbn [read_json_lines_loop List.app].
    unfold io_bind at 1. unfold input at 1. cbn [stdin stdout session].
    cbn [has_blank_pair] in Hpair.
    assert (Hstop : String.eqb x ""
                    && negb match acc with [] => true | _ :: _ => false end
                    && String.eqb (List.last acc "x") "" = false).
    { destruct (String.eqb x ""); [|reflexivity].
      apply Bool.orb_false_iff in Hpair. destruct Hpair as [Hacc _].
      exact Hacc. }
    rewrite Hstop.
    rewrite (IH (acc ++ [x])%list fuel rest (out ++ [Prompted ""])%list e).
    + rewrite <- !List.app_assoc. reflexivity.
    + cbn in Hfuel. apply le_S_n. exact Hfuel.
    + rewrite blank_last_snoc.
      destruct (String.eqb x "");
        [apply Bool.orb_false_iff in Hpair; apply Hpair | exact Hpair].
    + rewrite <- List.app_assoc. exact Hlast.
Qed.

(** Typing lines and then pressing Enter twice. *)
Lemma json_text_entry (sh : Shell) (l rest : list string)
  (out : list OutEvent) (e : Env (core sh)) :
  has_blank_pair false (l ++ [""])%list = false ->
  read_json_lines sh (mkConsole (l ++ "" :: "" :: rest)%list out e) =
    (Returned (l ++ [""])%list,
     mkConsole rest
       (out ++ List.repeat (Prompted "") (List.length l + 2))%list e) /\
  String.concat nl (List.removelast (l ++ [""])%list) = String.concat nl l.
Proof.
  intros Hpair. split; [|rewrite List.removelast_last; reflexivity].
  unfold read_json_lines. cbn [stdin].
  replace (l ++ "" :: "" :: rest)%list
    with ((l ++ [""]) ++ "" :: rest)%list
    by (rewrite <- List.app_assoc; reflexivity).
  rewrite (read_json_lines_loop_stops sh (l ++ [""])%list []).
  - cbn [List.app]. rewrite List.length_app. cbn [List.length].
    replace (S (List.length l + 1)) with (List.length l + 2) by lia.
    reflexivity.
  - rewrite !List.length_app. cbn [List.length]. lia.
  - exact Hpair.
  - cbn [List.app]. apply blank_last_snoc.
Qed.

(** X10. Entering JSON text in [validate_custom_json]: when the lines [l]
    followed by one empty line hold no empty line right after an empty
    line, typing [l] and then pressing Enter twice ends the loop; the
    lines collected are [l] and one empty line, every later line is left
    unread, and the text handed to [json.loads] is [l] joined by
    newlines. *)
Theorem X10_json_text_entry (sh : Shell) (l rest : list string)
  (out : list OutEvent) (e : Env (core sh)) :
  has_blank_pair false (l ++ [""])%list = false ->
  read_json_lines sh (mkConsole (l ++ "" :: "" :: rest)%list out e) =
    (Returned (l ++ [""])%list,
     mkConsole rest
       (out ++ List.repeat (Prompted "") (List.length l + 2))%list e) /\
  String.concat nl (List.removelast (l ++ [""])%list) = String.concat nl l.
Proof.
  exact (json_text_entry sh l rest out e).
Qed.

(** A two-line JSON object, then Enter twice, then the answer to the next
    prompt. *)
Lemma X10_json_text_entry_witness :
  read_json_lines ShellFixture.shell
    (mkConsole (sh := ShellFixture.shell)
       (["{"; "}"] ++ ""%string :: ""%string :: ["1"])%list []
       ShellFixture.shell_env) =
    (Returned (["{"; "}"] ++ [""%string])%list,
     mkConsole (sh := ShellFixture.shell) ["1"]
       ([] ++ List.repeat (Prompted "") (List.length ["{"; "}"] + 2))%list
       ShellFixture.shell_env) /\
  String.concat nl (List.removelast (["{"; "}"] ++ [""%string])%list) =
    String.concat nl ["{"; "}"].
Proof.
  apply (X10_json_text_entry ShellFixture.shell ["{"; "}"] ["1"] []
           ShellFixture.shell_env).
  reflexivity.
Defined.

(** The loop that reads the JSON text, on any input. *)
Lemma read_json_lines_loop_outcome (sh : Shell) (ls : list string) :
  forall (acc : list string) (fuel : nat) (out : list OutEvent)
         (e : Env (core sh)),
    List.length ls <= fuel ->
    if has_blank_pair (blank_last acc) ls then
      exists json_lines c',
        read_json_lines_loop sh fuel acc (mkConsole ls out e)
          = (Returned json_lines, c')
    else
      read_json_lines_loop sh fuel acc (mkConsole ls out e) =
      (Thrown EOFError,
       mkConsole []
         (out ++ List.repeat (Prompted "") (S (List.length ls)))%list e).
Proof.
  induction ls as [|x ls IH]; intros acc fuel out e Hfuel.
  - cbn [has_blank_pair]. destruct fuel; reflexivity.
  - destruct fuel as [|fuel]; [cbn in Hfuel; inversion Hfuel|].
    assert (Hfuel' : List.length ls <= fuel)
      by (cbn in Hfuel; apply le_S_n; exact Hfuel).
    cbn [read_json_lines_loop has_blank_pair].
    unfold io_bind, input. cbn [stdin stdout session].
    specialize (IH (acc ++ [x])%list fuel (out ++ [Prompted ""])%list e
                   Hfuel').
    rewrite blank_last_snoc in IH.
    destruct (String.eqb x "") eqn:Hx; cbn [andb orb].
    + fold (blank_last acc). destruct (blank_last acc); cbn [orb].
      * do 2 eexists. reflexivity.
      * destruct (has_blank_pair true ls).
        -- exact IH.
        -- rewrite IH. rewrite <- List.app_assoc. reflexivity.
    + destruct (has_blank_pair false ls).
      * exact IH.
      * rewrite IH. rewrite <- List.app_assoc. reflexivity.
Qed.

(** X11. The loop that reads the JSON text returns exactly when standard
    input holds an empty line right after an empty line; otherwise it
    reads standard input to its end and [EOFError] escapes, since the
    [input] calls of [validate_custom_json] are outside its [try]
    blocks. *)
Theorem X11_json_text_entry_ends (sh : Shell) (c : Console sh) :
  if has_blank_pair false (stdin c) then
    exists json_lines c',
      read_json_lines sh c = (Returned json_lines, c')
  else
    read_json_lines sh c =
    (Thrown EOFError,
     mkConsole []
       (stdout c
          ++ List.repeat (Prompted "") (S (List.length (stdin c))))%list
       (session c)).
Proof.
  destruct c as [ls out e]. unfold read_json_lines. cbn [stdin stdout session].
  exact (read_json_lines_loop_outcome sh ls [] (List.length ls) out e
           (le_n _)).
Qed.

(** The loop that reads custom rules, from any collection. *)
Lemma read_rules_loop_outcome (sh : Shell) (ls : list string) :
  forall (acc : list string) (fuel : nat) (out : list OutEvent)
         (e : Env (core sh)),
    List.length ls <= fuel ->
    read_rules_loop sh fuel acc (mkConsole ls out e) =
    if List.existsb (fun line => String.eqb line "") ls then
      (Returned (acc ++ before_blank ls)%list,
       mkConsole (after_blank ls)
         (out ++ List.repeat (Prompted "")
                   (S (List.length (before_blank ls))))%list e)
    else
      (Thrown EOFError,
       mkConsole []
         (out ++ List.repeat (Prompted "") (S (List.length ls)))%list e).
Proof.
  induction ls as [|x ls IH]; intros acc fuel out e Hfuel.
  - destruct fuel; reflexivity.
  - destruct fuel as [|fuel]; [cbn in Hfuel; inversion Hfuel|].
    assert (Hfuel' : List.length ls <= fuel)
      by (cbn in Hfuel; apply le_S_n; exact Hfuel).
    cbn [read_rules_loop List.existsb before_blank after_blank].
    unfold io_bind at 1. unfold input at 1. cbn [stdin stdout session].
    destruct (String.eqb x "") eqn:Hx; cbn [orb].
    + rewrite List.app_nil_r. reflexivity.
    + rewrite (IH (acc ++ [x])%list fuel (out ++ [Prompted ""])%list e
                  Hfuel').
      destruct (List.existsb _ ls); cbn [List.length List.repeat];
        rewrite <- !List.app_assoc; reflexivity.
Qed.

(** X12. Entering custom rules: the loop returns the lines before the
    first empty line, in order, and leaves the lines after it unread; when
    standard input holds no empty line it is read to its end and
    [EOFError] escapes. *)
Theorem X12_custom_rules_entry (sh : Shell) (c : Console sh) :
  read_rules sh c =
  if List.existsb (fun line => String.eqb line "") (stdin c) then
    (Returned (before_blank (stdin c)),
     mkConsole (after_blank (stdin c))
       (stdout c ++ List.repeat (Prompted "")
                      (S (List.length (before_blank (stdin c)))))%list
       (session c))
  else
    (Thrown EOFError,
     mkConsole []
       (stdout c
          ++ List.repeat (Prompted "") (S (List.length (stdin c))))%list
       (session c)).
Proof.
  destruct c as [ls out e]. unfold read_rules. cbn [stdin stdout session].
  exact (read_rules_loop_outcome sh ls [] (List.length ls) out e (le_n _)).
Qed.

(** A loop that only prints writes one line per item and returns. *)
Lemma for_each_print (sh : Shell) (A : Type) (line : A -> string)
  (items : list A) :
  forall c : Console sh,
    for_each sh items (fun x => print sh (line x)) c =
    (Returned tt,
     mkConsole (stdin c)
       (stdout c ++ List.map (fun x => Printed (line x)) items)%list
       (session c)).
Proof.
  induction items as [|x items IH]; intros [ins out e].
  - cbn. rewrite List.app_nil_r. reflexivity.
  - cbn [for_each List.map]. unfold io_bind, print at 1.
    cbn [stdin stdout session]. rewrite IH. cbn [stdin stdout session].
    rewrite <- List.app_assoc. reflexivity.
Qed.

(** Whatever [validate_json] returns is a report, and the semantic errors
    in it have a length. *)
Lemma validate_json_returns_report (X : Externals) (d : Document X)
  (s : Schema X) (r : list string) (e0 e1 : Env X)
  (result : option ValidationReport) :
  validate_json X d s r e0 = (Ok result, e1) ->
  exists rep n,
    result = Some rep /\
    py_len (errors (semantic_validation rep)) = Ok n.
Proof.
  intros Hrun. destruct (jsonschema_validate X d s) as [exv|] eqn:Hv.
  { rewrite (validate_json_schema_invalid X d s r e0 exv Hv) in Hrun.
    injection Hrun as <- _. do 2 eexists. split; reflexivity. }
  rewrite (validate_json_schema_valid X d s r e0 Hv) in Hrun.
  destruct (after_semantic X d s r e0) as [st2 e2].
  destruct (final_assessment_node X _) as [[u|exf] hf] eqn:Hf;
    [|discriminate].
  apply final_assessment_node_inv in Hf.
  destruct Hf as (n & text & Hlen & _ & ->).
  injection Hrun as <- _. eexists. exists n.
  split; [reflexivity|exact Hlen].
Qed.

(** A value that has a length can be iterated. *)
Lemma py_iter_of_sized (v : pyvalue) (n : nat) :
  py_len v = Ok n -> exists visited, py_iter v = Ok visited.
Proof.
  destruct v; cbn; try discriminate; intros _; eexists; reflexivity.
Qed.

(** Printing what [validate_json] returned never fails. *)
Lemma print_validation_result_returns (sh : Shell) (d s : pyvalue)
  (r : list string) (e0 e1 : Env (core sh))
  (result : option ValidationReport) (title : string) (c : Console sh) :
  validate_json (core sh) d s r e0 = (Ok result, e1) ->
  exists written,
    print_validation_result sh result title c =
    (Returned tt,
     mkConsole (stdin c) (stdout c ++ written)%list (session c)).
Proof.
  intros Hrun.
  destruct (validate_json_returns_report _ _ _ _ _ _ _ Hrun)
    as (rep & n & -> & Hlen).
  destruct (py_iter_of_sized _ _ Hlen) as (visited & Hiter).
  destruct c as [ins out e].
  unfold print_validation_result, print_separator.
  assert (Hschema :
            forall c0 : Console sh,
              match errors (schema_validation rep) with
              | [] => io_ret sh tt
              | _ :: _ =>
                  io_bind sh (print sh (nl ++ "Schema Errors:"))
                    (fun _ =>
                       for_each sh (errors (schema_validation rep))
                         (fun error => print sh ("  - " ++ error)))
              end c0 =
              (Returned tt,
               mkConsole (stdin c0)
                 (stdout c0 ++
                  match errors (schema_validation rep) with
                  | [] => []
                  | _ :: _ =>
                      Printed (nl ++ "Schema Errors:")
                        :: List.map (fun error => Printed ("  - " ++ error))
                             (errors (schema_validation rep))
                  end)%list
                 (session c0))).
  { intros [ins0 out0 e00]. destruct (errors (schema_validation rep)).
    - cbn. rewrite List.app_nil_r. reflexivity.
    - unfold io_bind, print at 1. cbn [stdin stdout session].
      rewrite for_each_print. cbn [stdin stdout session].
      rewrite <- List.app_assoc. reflexivity. }
  assert (Hsemantic :
            forall c0 : Console sh,
              (if py_truthy (errors (semantic_validation rep)) then
                 io_bind sh (print sh (nl ++ "Semantic Errors:"))
                   (fun _ =>
                      io_bind sh
                        (io_lift sh
                           (py_iter (errors (semantic_validation rep))))
                        (fun visited0 =>
                           for_each sh visited0
                             (fun error =>
                                print sh ("  - " ++ format_value sh error))))
               else io_ret sh tt) c0 =
              (Returned tt,
               mkConsole (stdin c0)
                 (stdout c0 ++
                  (if py_truthy (errors (semantic_validation rep)) then
                     Printed (nl ++ "Semantic Errors:")
                       :: List.map
                            (fun error =>
                               Printed ("  - " ++ format_value sh error))
                            visited
                   else []))%list
                 (session c0))).
  { intros [ins0 out0 e00].
    destruct (py_truthy (errors (semantic_validation rep))).
    - unfold io_bind, print at 1, io_lift. cbn [stdin stdout session].
      rewrite Hiter. rewrite for_each_print. cbn [stdin stdout session].
      rewrite <- List.app_assoc. reflexivity.
    - cbn. rewrite List.app_nil_r. reflexivity. }
  destruct (negb (String.eqb title ""));
    unfold io_bind at 1 2 3 4; unfold print at 1 2 3 4;
    cbn [stdin stdout session];
    unfold io_bind at 1; rewrite Hschema; cbn [stdin stdout session];
    unfold io_bind at 1; rewrite Hsemantic; cbn [stdin stdout session];
    unfold print; cbn [stdin stdout session];
    rewrite <- !List.app_assoc; eexists; reflexivity.
Qed.

(** X13. On what [validate_json] returned, none of the lookups of
    [print_validation_result] fails: it raises no [KeyError] (the result is
    a report with every key the function reads, never the empty
    dictionary) and no [TypeError] (the semantic errors, whatever the judge
    put there, can be iterated).  Whatever the call does, it reads no
    input, leaves the validator's environment alone and only appends to
    standard output. *)
Theorem X13_report_lookups_succeed (sh : Shell) (d s : pyvalue)
  (r : list string) (e0 e1 : Env (core sh))
  (result : option ValidationReport) (title : string) (c c' : Console sh)
  (o : Outcome unit) :
  validate_json (core sh) d s r e0 = (Ok result, e1) ->
  print_validation_result sh result title c = (o, c') ->
  (forall message, o <> Thrown (KeyError message)) /\
  (forall ex, exc_class ex = TypeError -> o <> Thrown (FromCore ex)) /\
  stdin c' = stdin c /\
  session c' = session c /\
  exists written, stdout c' = (stdout c ++ written)%list.
Proof.
  intros Hrun Hprint.
  destruct (print_validation_result_returns sh d s r e0 e1 result title c
              Hrun) as (written & Hreturns).
  rewrite Hreturns in Hprint. injection Hprint as <- <-.
  cbn [stdin stdout session].
  split; [discriminate|]. split; [discriminate|].
  split; [reflexivity|]. split; [reflexivity|].
  exists written. reflexivity.
Qed.

(** The report of the run whose judge passes the empty document. *)
Lemma X13_report_lookups_succeed_witness :
  stdin (snd (print_validation_result ShellFixture.shell
                (Some (mkReport true (mkPhase true [])
                         (mkPhase true (PyList [])) valid_summary))
                "Validation Result"
                (mkConsole (sh := ShellFixture.shell) ["next"] []
                           ShellFixture.shell_env)))
    = ["next"].
Proof.
  assert (Hrun :
            validate_json (core ShellFixture.shell) Fixture.empty_document
              Fixture.any_schema Fixture.sample_rules
              ShellFixture.shell_env
            = (Ok (Some (mkReport true (mkPhase true [])
                           (mkPhase true (PyList [])) valid_summary)),
               mkEnv (X := core ShellFixture.shell) 1
                     [messages_for "{}" Fixture.sample_rules])).
  { vm_compute. reflexivity. }
  exact (proj1 (proj2 (proj2
           (X13_report_lookups_succeed ShellFixture.shell _ _ _ _ _ _
              "Validation Result"
              (mkConsole (sh := ShellFixture.shell) ["next"] []
                         ShellFixture.shell_env)
              _ _ Hrun (surjective_pairing _))))).
Defined.

(** X14. What the program shows for a document the schema refuses:
    validating it and printing the result writes "Overall Valid: False"
    and "Schema Validation: ✗ FAILED", but "Semantic Validation: ✓ PASSED"
    with no semantic error listed, although the judge was never asked;
    the judge's state and standard input are untouched. *)
Theorem X14_schema_failure_display (sh : Shell) (d s : pyvalue)
  (r : list string) (c : Console sh) (ex : PyException) :
  check_schema sh d s = Some ex ->
  let message :=
    if ExcClass_eqb (exc_class ex) ValidationError then exc_str ex
    else "Schema validation error: " ++ exc_str ex in
  io_bind sh (call_validate_json sh d s r)
    (fun result => print_validation_result sh result "Validation Result") c
  = (Returned tt,
     mkConsole (stdin c)
       (stdout c ++
        [Printed (nl ++ "==================== Validation Result ====================");
         Printed "Overall Valid: False";
         Printed "Schema Validation: ✗ FAILED";
         Printed "Semantic Validation: ✓ PASSED";
         Printed (nl ++ "Schema Errors:");
         Printed ("  - " ++ message);
         Printed (nl ++ "Summary: JSON data is invalid. Issues found: Schema validation failed: "
                     ++ message)])%list
       (session c)).
Proof.
  intros Hv message. destruct c as [ins out e].
  unfold io_bind at 1. unfold call_validate_json. cbn [stdin stdout session].
  rewrite (validate_json_schema_invalid (core sh) d s r e ex Hv).
  fold message. cbv zeta.
  unfold print_validation_result, print_separator.
  cbn [String.eqb Ascii.eqb Bool.eqb negb overall_valid schema_validation
       semantic_validation passed errors summary py_truthy bool_text].
  cbv beta iota delta [io_bind print io_ret for_each stdin stdout session].
  rewrite <- !List.app_assoc. reflexivity.
Qed.

(** The empty document against the schema that requires "user". *)
Lemma X14_schema_failure_display_witness :
  stdout
    (snd (io_bind ShellFixture.shell
            (call_validate_json ShellFixture.shell Fixture.empty_document
               Fixture.user_schema Fixture.sample_rules)
            (fun result =>
               print_validation_result ShellFixture.shell result
                 "Validation Result")
            (mkConsole (sh := ShellFixture.shell) [] []
                       ShellFixture.shell_env))) =
  [Printed (nl ++ "==================== Validation Result ====================");
   Printed "Overall Valid: False";
   Printed "Schema Validation: ✗ FAILED";
   Printed "Semantic Validation: ✓ PASSED";
   Printed (nl ++ "Schema Errors:");
   Printed "  - 'user' is a required property";
   Printed (nl ++ "Summary: JSON data is invalid. Issues found: Schema validation failed: 'user' is a required property")].
Proof.
  rewrite (X14_schema_failure_display ShellFixture.shell
             Fixture.empty_document Fixture.user_schema
             Fixture.sample_rules
             (mkConsole (sh := ShellFixture.shell) [] []
                        ShellFixture.shell_env)
             (mkExc ValidationError "'user' is a required property")
             eq_refl).
  reflexivity.
Defined.



(** A handler that prints one of two lines always returns. *)
Lemma caught_and_printed (sh : Shell) (e : ShellExc) (c : Console sh) :
  (if is_ValueError e then print sh "Please enter a valid number"
   else print sh ("✗ Validation failed: " ++ shell_str e)) c =
  (Returned tt,
   mkConsole (stdin c)
     (stdout c ++
      [Printed (if is_ValueError e then "Please enter a valid number"
                else "✗ Validation failed: " ++ shell_str e)])%list
     (session c)).
Proof. destruct (is_ValueError e); reflexivity. Qed.

(** X19. [validate_predefined_data] never raises, whatever is typed.  With
    no line to read it reports the [EOFError]; an answer that is not a
    number gives "Please enter a valid number"; a number outside 1..6
    gives "Invalid choice"; in those cases the judge is not called.  A
    number from 1 to 6 always selects an existing option (the list is
    never indexed out of range), which is then validated against the
    sample schema and the business rules. *)
Theorem X19_predefined_choice (sh : Shell) (c : Console sh) :
  exists c',
    validate_predefined_data sh c = (Returned tt, c') /\
    match stdin c with
    | [] =>
        session c' = session c /\
        List.last (stdout c') (Printed "") =
          Printed "✗ Validation failed: EOF when reading a line"
    | answer :: rest =>
        match int_of sh answer with
        | None =>
            session c' = session c /\ stdin c' = rest /\
            List.last (stdout c') (Printed "") =
              Printed "Please enter a valid number"
        | Some z =>
            if ((1 <=? z) && (z <=? 6))%Z then
              exists name data,
                List.nth_error
                  (named_cases "Valid test data" "Invalid schema data"
                     "Invalid semantic data" "Edge case ")
                  (Z.to_nat (z - 1)) = Some (name, data) /\
                stdin c' = rest /\
                (forall text, dumps_indent2 sh data = Ok text ->
                   session c' =
                     snd (validate_json (core sh) data create_sample_schema
                            get_business_rules (session c)))
            else
              session c' = session c /\ stdin c' = rest /\
              List.last (stdout c') (Printed "") = Printed "Invalid choice"
        end
    end.
Proof.
  destruct c as [ins out e]. unfold validate_predefined_data.
  unfold io_bind at 1. unfold print at 1. cbn [stdin stdout session].
  unfold io_bind at 1. unfold print at 1. cbn [stdin stdout session].
  unfold io_bind at 1. unfold print at 1. cbn [stdin stdout session].
  unfold io_bind at 1. rewrite for_each_print. cbn [stdin stdout session].
  set (options := named_cases "Valid test data" "Invalid schema data"
                    "Invalid semantic data" "Edge case ").
  unfold io_try. unfold io_bind at 1. unfold input at 1.
  cbn [stdin stdout session].
  destruct ins as [|answer rest].
  { cbn [is_ValueError]. eexists. split; [reflexivity|].
    cbn [stdin stdout session]. split; [reflexivity|].
    rewrite List.last_last. reflexivity. }
  unfold io_bind at 1.
  destruct (int_of sh answer) as [z|].
  2:{ unfold io_raise. cbn [is_ValueError]. eexists.
      split; [reflexivity|]. cbn [stdin stdout session].
      split; [reflexivity|]. split; [reflexivity|].
      rewrite List.last_last. reflexivity. }
  unfold io_ret at 1.
  change (List.length options) with 6.
  replace ((0 <=? z - 1)%Z && (z - 1 <? Z.of_nat 6)%Z)
    with ((1 <=? z) && (z <=? 6))%Z
    by (destruct (Z.leb_spec 1 z), (Z.leb_spec z 6),
          (Z.leb_spec 0 (z - 1)), (Z.ltb_spec (z - 1) (Z.of_nat 6));
        cbn [andb]; try reflexivity; lia).
  destruct ((1 <=? z) && (z <=? 6))%Z eqn:Hrange.
  2:{ eexists. split; [reflexivity|]. cbn [stdin stdout session].
      split; [reflexivity|]. split; [reflexivity|].
      rewrite List.last_last. reflexivity. }
  apply Bool.andb_true_iff in Hrange. destruct Hrange as [Hlo Hhi].
  apply Z.leb_le in Hlo. apply Z.leb_le in Hhi.
  destruct (List.nth_error options (Z.to_nat (z - 1)))
    as [[name data]|] eqn:Hnth.
  2:{ exfalso. apply List.nth_error_None in Hnth.
      change (List.length options) with 6 in Hnth. lia. }
  unfold io_bind at 1. unfold print at 1. cbn [stdin stdout session].
  unfold io_bind at 1. unfold print at 1. cbn [stdin stdout session].
  unfold io_bind at 1. unfold io_lift at 1.
  destruct (dumps_indent2 sh data) as [text|exd] eqn:Hdumps.
  2:{ rewrite caught_and_printed. eexists. split; [reflexivity|].
      cbn [stdin stdout session]. exists name, data.
      split; [reflexivity|]. split; [reflexivity|].
      intros text Habsurd. rewrite Hdumps in Habsurd.
      discriminate Habsurd. }
  unfold io_bind at 1. unfold print at 1. cbn [stdin stdout session].
  unfold io_bind at 1. unfold call_validate_json at 1.
  cbn [stdin stdout session].
  destruct (validate_json (core sh) data create_sample_schema
              get_business_rules e) as [[result|exv] e1] eqn:Hrun.
  - match goal with
    | |- context [print_validation_result sh result ?t ?c0] =>
        destruct (print_validation_result_returns sh _ _ _ _ _ _ t c0 Hrun)
          as (written & ->)
    end.
    eexists. split; [reflexivity|]. cbn [stdin stdout session].
    exists name, data. split; [reflexivity|]. split; [reflexivity|].
    intros _ _. rewrite Hrun. reflexivity.
  - rewrite caught_and_printed. eexists. split; [reflexivity|].
    cbn [stdin stdout session]. exists name, data.
    split; [reflexivity|]. split; [reflexivity|].
    intros _ _. rewrite Hrun. reflexivity.
Qed.

(** *** Standard input only shrinks *)

Lemma consumes_ret (sh : Shell) (A : Type) (a : A) :
  consumes (io_ret sh a).
Proof. intros c. apply le_n. Qed.

Lemma consumes_raise (sh : Shell) (A : Type) (e : ShellExc) :
  consumes (io_raise sh (A := A) e).
Proof. intros c. apply le_n. Qed.

Lemma consumes_bind (sh : Shell) (A B : Type) (m : IO sh A)
  (k : A -> IO sh B) :
  consumes m -> (forall a, consumes (k a)) -> consumes (io_bind sh m k).
Proof.
  intros Hm Hk c. unfold io_bind. specialize (Hm c).
  destruct (m c) as [[a|e] c1]; cbn [snd] in *; [|exact Hm].
  exact (Nat.le_trans _ _ _ (Hk a c1) Hm).
Qed.

Lemma consumes_try (sh : Shell) (A : Type) (body : IO sh A)
  (handler : ShellExc -> IO sh A) :
  consumes body -> (forall e, consumes (handler e)) ->
  consumes (io_try sh body handler).
Proof.
  intros Hm Hk c. unfold io_try. specialize (Hm c).
  destruct (body c) as [[a|e] c1]; cbn [snd] in *; [exact Hm|].
  exact (Nat.le_trans _ _ _ (Hk e c1) Hm).
Qed.

Lemma consumes_lift (sh : Shell) (A : Type) (r : Result A) :
  consumes (io_lift sh r).
Proof. intros c. unfold io_lift. destruct r; apply le_n. Qed.

Lemma consumes_print (sh : Shell) (text : string) :
  consumes (print sh text).
Proof. intros c. apply le_n. Qed.

Lemma consumes_input (sh : Shell) (prompt : string) :
  consumes (input sh prompt).
Proof.
  intros c. unfold input. destruct (stdin c); cbn; [apply le_n|].
  apply Nat.le_succ_diag_r.
Qed.

Lemma consumes_call_validate_json (sh : Shell) (d s : pyvalue)
  (r : list string) :
  consumes (call_validate_json sh d s r).
Proof.
  intros c. unfold call_validate_json.
  destruct (validate_json _ _ _ _ _) as [[result|ex] e]; apply le_n.
Qed.

Lemma consumes_for_each (sh : Shell) (A : Type) (items : list A)
  (body : A -> IO sh unit) :
  (forall x, consumes (body x)) -> consumes (for_each sh items body).
Proof.
  intros Hbody. induction items as [|x items IH]; cbn [for_each].
  - apply consumes_ret.
  - apply consumes_bind; [apply Hbody | intros _; exact IH].
Qed.

Lemma consumes_if (sh : Shell) (A : Type) (b : bool) (m1 m2 : IO sh A) :
  consumes m1 -> consumes m2 -> consumes (if b then m1 else m2).
Proof. destruct b; auto. Qed.

Lemma consumes_read_json_lines_loop (sh : Shell) (fuel : nat) :
  forall acc, consumes (read_json_lines_loop sh fuel acc).
Proof.
  induction fuel as [|fuel IH]; intros acc; cbn [read_json_lines_loop];
    (apply consumes_bind; [apply consumes_input|intros line]);
    (apply consumes_if; [apply consumes_ret|]);
    [apply consumes_raise | apply IH].
Qed.

Lemma consumes_read_json_lines (sh : Shell) :
  consumes (read_json_lines sh).
Proof. intros c. apply consumes_read_json_lines_loop. Qed.

Lemma consumes_read_rules_loop (sh : Shell) (fuel : nat) :
  forall acc, consumes (read_rules_loop sh fuel acc).
Proof.
  induction fuel as [|fuel IH]; intros acc; cbn [read_rules_loop];
    (apply consumes_bind; [apply consumes_input|intros line]);
    (apply consumes_if; [apply consumes_ret|]);
    [apply consumes_raise | apply IH].
Qed.

Lemma consumes_read_rules (sh : Shell) : consumes (read_rules sh).
Proof. intros c. apply consumes_read_rules_loop. Qed.

Lemma consumes_print_separator (sh : Shell) (title : string) :
  consumes (print_separator sh title).
Proof. unfold print_separator. apply consumes_if; apply consumes_print. Qed.

(** Break a computation into its parts. *)
Ltac consumes_auto :=
  repeat
    first
      [ apply consumes_ret
      | apply consumes_raise
      | apply consumes_print
      | apply consumes_input
      | apply consumes_lift
      | apply consumes_call_validate_json
      | apply consumes_read_json_lines
      | apply consumes_read_rules
      | apply consumes_print_separator
      | apply consumes_bind; [|intros ?]
      | apply consumes_try; [|intros ?]
      | apply consumes_for_each; intros ?
      | apply consumes_if
      | match goal with
        | |- consumes (match ?x with _ => _ end) => destruct x
        end ].

Lemma consumes_print_validation_result (sh : Shell)
  (result : option ValidationReport) (title : string) :
  consumes (print_validation_result sh result title).
Proof. unfold print_validation_result. consumes_auto. Qed.

Lemma consumes_validate_custom_json (sh : Shell) :
  consumes (validate_custom_json sh).
Proof.
  unfold validate_custom_json. consumes_auto;
    apply consumes_print_validation_result.
Qed.

Lemma consumes_validate_predefined_data (sh : Shell) :
  consumes (validate_predefined_data sh).
Proof.
  unfold validate_predefined_data. consumes_auto;
    apply consumes_print_validation_result.
Qed.

(** One turn of the menu loop, up to the point where it loops. *)
Lemma interactive_loop_unfold (sh : Shell) (fuel : nat) :
  interactive_loop sh fuel =
  io_bind sh (print sh (nl ++ "Options:"))
    (fun _ =>
     io_bind sh (print sh "1. Validate custom JSON")
       (fun _ =>
        io_bind sh (print sh "2. Use predefined test data")
          (fun _ =>
           io_bind sh (print sh "3. Exit")
             (fun _ =>
              io_bind sh (input sh (nl ++ "Enter your choice (1-3): "))
                (fun answer =>
                 let choice := py_strip answer in
                 if String.eqb choice "3" then print sh "Goodbye!"
                 else
                   io_bind sh
                     (if String.eqb choice "1" then validate_custom_json sh
                      else if String.eqb choice "2"
                           then validate_predefined_data sh
                           else print sh
                                  "Invalid choice. Please enter 1, 2, or 3.")
                     (fun _ =>
                        match fuel with
                        | O => io_raise sh EOFError
                        | S fuel' => interactive_loop sh fuel'
                        end)))))).
Proof. destruct fuel; reflexivity. Qed.

Lemma io_bind_print (sh : Shell) (A : Type) (text : string)
  (k : unit -> IO sh A) (c : Console sh) :
  io_bind sh (print sh text) k c =
  k tt (mkConsole (stdin c) (stdout c ++ [Printed text])%list (session c)).
Proof. reflexivity. Qed.

Lemma io_bind_input (sh : Shell) (A : Type) (prompt : string)
  (k : string -> IO sh A) (c : Console sh) :
  io_bind sh (input sh prompt) k c =
  match stdin c with
  | line :: rest =>
      k line (mkConsole rest (stdout c ++ [Prompted prompt])%list
                        (session c))
  | [] =>
      (Thrown EOFError,
       mkConsole [] (stdout c ++ [Prompted prompt])%list (session c))
  end.
Proof. unfold io_bind, input. destruct (stdin c); reflexivity. Qed.

(** X18. The menu loop of [run_interactive_mode] ends on every finite
    standard input: every turn reads at least one line and nothing the
    turn calls puts lines back, so the loop takes no more turns than there
    are lines, and its outcome is the same for every bound on the number
    of turns that is at least the number of lines. *)
Theorem X18_interactive_loop_ends (sh : Shell) (fuel1 : nat) :
  forall (fuel2 : nat) (c : Console sh),
    List.length (stdin c) <= fuel1 ->
    List.length (stdin c) <= fuel2 ->
    interactive_loop sh fuel1 c = interactive_loop sh fuel2 c.
Proof.
  induction fuel1 as [|fuel1 IH]; intros fuel2 c H1 H2;
    rewrite (interactive_loop_unfold sh fuel2);
    rewrite (interactive_loop_unfold sh _);
    rewrite !io_bind_print, !io_bind_input;
    cbn [stdin stdout session];
    destruct (stdin c) as [|answer rest] eqn:Hin; try reflexivity.
  - cbn in H1. inversion H1.
  - cbv zeta. destruct (String.eqb (py_strip answer) "3"); [reflexivity|].
    cbn [List.length] in H1, H2.
    assert (Hturn :
              forall (m : IO sh unit) (c0 : Console sh),
                consumes m ->
                stdin c0 = rest ->
                io_bind sh m (fun _ => interactive_loop sh fuel1) c0 =
                io_bind sh m
                  (fun _ =>
                     match fuel2 with
                     | O => io_raise sh EOFError
                     | S fuel' => interactive_loop sh fuel'
                     end) c0).
    { intros m c0 Hm Hc0. unfold io_bind. specialize (Hm c0).
      destruct (m c0) as [[u|ex] c1]; [|reflexivity].
      cbn [snd] in Hm. rewrite Hc0 in Hm.
      destruct fuel2 as [|fuel2]; [lia|].
      apply IH; lia. }
    destruct (String.eqb (py_strip answer) "1");
      [apply Hturn; [apply consumes_validate_custom_json|reflexivity]|].
    destruct (String.eqb (py_strip answer) "2");
      [apply Hturn; [apply consumes_validate_predefined_data|reflexivity]|].
    apply Hturn; [apply consumes_print|reflexivity].
Qed.

(** The answer "3" at the menu, with two different bounds. *)
Lemma X18_interactive_loop_ends_witness :
  interactive_loop ShellFixture.shell 1
    (mkConsole (sh := ShellFixture.shell) ["3"] [] ShellFixture.shell_env) =
  interactive_loop ShellFixture.shell 5
    (mkConsole (sh := ShellFixture.shell) ["3"] [] ShellFixture.shell_env).
Proof.
  apply (X18_interactive_loop_ends ShellFixture.shell 1 5
           (mkConsole (sh := ShellFixture.shell) ["3"] []
                      ShellFixture.shell_env));
    cbn; lia.
Defined.

Lemma print_separator_eq (sh : Shell) (title : string) (c : Console sh) :
  print_separator sh title c =
  (Returned tt,
   mkConsole (stdin c)
     (stdout c ++
      [Printed (if negb (String.eqb title "")
                then nl ++ py_repeat "=" 20 ++ " " ++ title ++ " "
                        ++ py_repeat "=" 20
                else py_repeat "=" 60)])%list
     (session c)).
Proof.
  unfold print_separator. destruct (negb (String.eqb title ""));
    reflexivity.
Qed.

Lemma io_bind_returned (sh : Shell) (A B : Type) (m : IO sh A)
  (k : A -> IO sh B) (c c1 : Console sh) (a : A) :
  m c = (Returned a, c1) -> io_bind sh m k c = k a c1.
Proof. intros H. unfold io_bind. rewrite H. reflexivity. Qed.

(** Validating a document and printing the result, with every exception
    caught and printed: it returns, reads no input, and sends the judge at
    most one request. *)
Lemma guarded_validation_returns (sh : Shell) (d s : pyvalue)
  (r : list string) (title prefix : string) (c : Console sh) :
  exists c',
    io_try sh
      (io_bind sh (call_validate_json sh d s r)
         (fun result => print_validation_result sh result title))
      (fun e => print sh (prefix ++ shell_str e)) c
    = (Returned tt, c') /\
    stdin c' = stdin c /\
    session c' = snd (validate_json (core sh) d s r (session c)).
Proof.
  destruct c as [ins out e]. unfold io_try, io_bind, call_validate_json.
  cbn [stdin stdout session].
  destruct (validate_json (core sh) d s r e) as [[result|ex] e1] eqn:Hrun.
  - destruct (print_validation_result_returns sh _ _ _ _ _ _ title
                (mkConsole ins out e1) Hrun) as (written & ->).
    eexists. repeat split.
  - eexists. repeat split.
Qed.

(** The loop of [run_demo] over its test cases. *)
Lemma run_demo_cases (sh : Shell) (sch : pyvalue) (rules : list string)
  (cases : list (string * pyvalue)) :
  (forall case, List.In case cases ->
                exists text, dumps_indent2 sh (snd case) = Ok text) ->
  forall c : Console sh,
  exists c',
    for_each sh cases
      (fun case =>
         io_bind sh (print_separator sh ("Testing: " ++ fst case))
           (fun _ =>
            io_bind sh (print sh "JSON Data:")
              (fun _ =>
               io_bind sh (io_lift sh (dumps_indent2 sh (snd case)))
                 (fun dumped =>
                  io_bind sh (print sh dumped)
                    (fun _ =>
                     io_bind sh
                       (io_try sh
                          (io_bind sh
                             (call_validate_json sh (snd case) sch rules)
                             (fun result =>
                                print_validation_result sh result
                                  "Validation Result"))
                          (fun e =>
                             print sh ("✗ Validation failed with error: "
                                         ++ shell_str e)))
                       (fun _ => print sh ""))))))
      c = (Returned tt, c') /\
    stdin c' = stdin c /\
    List.length (invocations (session c'))
      <= List.length (invocations (session c)) + List.length cases.
Proof.
  induction cases as [|case cases IH]; intros Hdumps c.
  - exists c. cbn. repeat split. lia.
  - cbn [for_each].
    destruct (Hdumps case (or_introl eq_refl)) as (text & Htext).
    set (body := fun case0 : string * pyvalue => _).
    unfold io_bind at 1. unfold body at 1.
    rewrite (io_bind_returned _ _ _ _ _ _ _ _ (print_separator_eq sh _ c)).
    rewrite io_bind_print. rewrite Htext.
    unfold io_bind at 1, io_lift at 1. rewrite io_bind_print.
    cbn [stdin stdout session].
    match goal with
    | |- context [io_bind sh (io_try sh ?b ?h) ?k ?c0] =>
        destruct (guarded_validation_returns sh (snd case) sch rules
                    "Validation Result"
                    "✗ Validation failed with error: " c0)
          as (c1 & Hguard & Hin1 & Hsession1);
        rewrite (io_bind_returned _ _ _ _ _ _ _ _ Hguard)
    end.
    unfold print at 1. cbv beta iota.
    destruct (IH (fun case0 Hin => Hdumps case0 (or_intror Hin))
                 (mkConsole (stdin c1) (stdout c1 ++ [Printed ""])%list
                            (session c1)))
      as (c2 & Hloop & Hin2 & Hcount2).
    exists c2. split; [exact Hloop|]. cbn [stdin session] in *.
    split; [congruence|].
    rewrite Hsession1 in Hcount2. cbn [session] in Hcount2.
    destruct (validate_json_at_most_one_request (core sh) (snd case) sch
                rules (session c)) as [Hsame | (m & Hone)].
    + rewrite Hsame in Hcount2. cbn [List.length]. lia.
    + rewrite Hone, List.length_app in Hcount2. cbn [List.length] in *. lia.
Qed.

(** X16. [run_demo] always completes when [json.dumps] accepts the six
    test documents: every exception of a validation is caught and printed,
    no input is read, and the judge is sent at most six requests, one per
    test case.  When the validator cannot be constructed, nothing is
    validated and the judge is not called. *)
Theorem X16_run_demo_completes (sh : Shell) (c : Console sh) :
  (forall case,
     List.In case (named_cases "Valid Data" "Invalid Schema Data"
                     "Invalid Semantic Data" "Edge Case ") ->
     exists text, dumps_indent2 sh (snd case) = Ok text) ->
  exists c',
    run_demo sh c = (Returned tt, c') /\
    stdin c' = stdin c /\
    match new_validator sh with
    | Some ex =>
        session c' = session c /\
        stdout c' =
          (stdout c ++
           [Printed "LangGraph JSON Rules Validator - Demo";
            Printed (py_repeat "=" 60);
            Printed ("✗ Failed to initialize validator: " ++ exc_str ex);
            Printed "Make sure you have set your OPENAI_API_KEY in a .env file"])%list
    | None =>
        List.length (invocations (session c'))
          <= List.length (invocations (session c)) + 6
    end.
Proof.
  intros Hdumps. unfold run_demo.
  rewrite io_bind_print.
  rewrite (io_bind_returned _ _ _ _ _ _ _ _ (print_separator_eq sh "" _)).
  cbn [stdin stdout session String.eqb negb].
  unfold JSONValidator.
  destruct (new_validator sh) as [ex|].
  - unfold io_bind at 1, io_try, io_bind at 1, io_raise.
    unfold io_bind at 1, print at 1. cbn [stdin stdout session].
    unfold io_bind at 1, print at 1, io_ret. cbn [stdin stdout session negb].
    eexists. split; [reflexivity|]. cbn [stdin stdout session shell_str].
    rewrite <- !List.app_assoc. repeat split.
  - unfold io_bind at 1, io_try, io_bind at 1, io_ret at 1.
    unfold io_bind at 1, print at 1. cbn [stdin stdout session].
    unfold io_ret at 1. cbn [negb].
    rewrite io_bind_print. unfold io_bind at 1.
    rewrite for_each_print. cbn [stdin stdout session].
    match goal with
    | |- context [for_each sh ?cases ?body ?c0] =>
        destruct (run_demo_cases sh create_sample_schema get_business_rules
                    cases Hdumps c0) as (c1 & Hloop & Hin & Hcount)
    end.
    exists c1. split; [exact Hloop|]. cbn [stdin session] in *.
    split; [exact Hin|]. exact Hcount.
Qed.

(** The demonstration against the judge that passes every document. *)
Lemma X16_run_demo_completes_witness :
  exists c',
    run_demo ShellFixture.shell
      (mkConsole (sh := ShellFixture.shell) [] [] ShellFixture.shell_env)
    = (Returned tt, c') /\
    stdin c' = [] /\
    List.length (invocations (session c')) <= 0 + 6.
Proof.
  apply (X16_run_demo_completes ShellFixture.shell
           (mkConsole (sh := ShellFixture.shell) [] []
                      ShellFixture.shell_env)).
  intros case Hin. destruct (snd case) as [| | | | | |items];
    try (eexists; reflexivity).
  destruct items; eexists; reflexivity.
Defined.



Lemma io_bind_lift (sh : Shell) (A B : Type) (r : Result A)
  (k : A -> IO sh B) (c : Console sh) :
  io_bind sh (io_lift sh r) k c =
  match r with
  | Ok a => k a c
  | Raise e => (Thrown (FromCore e), c)
  end.
Proof. unfold io_bind, io_lift. destruct r; reflexivity. Qed.

(** [main] under [--show-test-data]. *)
Lemma main_show_test_data (sh : Shell) (args : Args) (c : Console sh) :
  show_test_data args = true ->
  exists outcome written,
    main sh args c =
    (outcome,
     mkConsole (stdin c)
       (stdout c ++
        Printed "Test Data Examples" :: Printed (py_repeat "=" 60)
          :: Printed (nl ++ "1. Valid Data:") :: written)%list
       (session c)).
Proof.
  intros Hshow. unfold main. rewrite Hshow.
  rewrite io_bind_print.
  rewrite (io_bind_returned _ _ _ _ _ _ _ _ (print_separator_eq sh "" _)).
  rewrite io_bind_print. cbn [stdin stdout session String.eqb negb].
  rewrite <- !List.app_assoc. cbn [List.app].
  rewrite io_bind_lift.
  destruct (dumps_indent2 sh get_valid_test_data);
    [|do 2 eexists; reflexivity].
  rewrite !io_bind_print, io_bind_lift. cbn [stdin stdout session].
  rewrite <- !List.app_assoc. cbn [List.app].
  destruct (dumps_indent2 sh get_invalid_schema_data);
    [|do 2 eexists; reflexivity].
  rewrite !io_bind_print, io_bind_lift. cbn [stdin stdout session].
  rewrite <- !List.app_assoc. cbn [List.app].
  destruct (dumps_indent2 sh get_invalid_semantic_data);
    [|do 2 eexists; reflexivity].
  unfold print. cbn [stdin stdout session].
  rewrite <- !List.app_assoc. cbn [List.app].
  do 2 eexists; reflexivity.
Qed.

(** X20. [--show-test-data] takes precedence over every other option:
    whatever else is on the command line, [main] then only prints; it
    constructs no validator, never calls the judge and reads no input,
    whether or not [json.dumps] succeeds on the test data. *)
Theorem X20_show_test_data_only_prints (sh : Shell) (args : Args)
  (c : Console sh) :
  show_test_data args = true ->
  stdin (snd (main sh args c)) = stdin c /\
  session (snd (main sh args c)) = session c /\
  exists written,
    stdout (snd (main sh args c)) =
      (stdout c ++
       Printed "Test Data Examples" :: Printed (py_repeat "=" 60)
         :: Printed (nl ++ "1. Valid Data:") :: written)%list.
Proof.
  intros Hshow.
  destruct (main_show_test_data sh args c Hshow)
    as (outcome & written & ->).
  cbn [snd stdin stdout session]. repeat split.
  exists written. reflexivity.
Qed.

(** Every option given at once. *)
Lemma X20_show_test_data_only_prints_witness :
  session (snd (main ShellFixture.shell
                  (mkArgs true true (Some "data.json") true)
                  (mkConsole (sh := ShellFixture.shell) ["1"] []
                             ShellFixture.shell_env)))
    = ShellFixture.shell_env.
Proof.
  exact (proj1 (proj2 (X20_show_test_data_only_prints ShellFixture.shell
                         (mkArgs true true (Some "data.json") true)
                         (mkConsole (sh := ShellFixture.shell) ["1"] []
                                    ShellFixture.shell_env)
                         eq_refl))).
Defined.

Lemma io_bind_bind_print (sh : Shell) (A B : Type) (text : string)
  (m : IO sh A) (k : A -> IO sh B) (c : Console sh) :
  io_bind sh (io_bind sh (print sh text) (fun _ => m)) k c =
  io_bind sh m k
    (mkConsole (stdin c) (stdout c ++ [Printed text])%list (session c)).
Proof. reflexivity. Qed.

(** [strip] removes the spaces beyond ASCII too: a no-break space (U+00A0)
    before "4" and an em space (U+2003) after it leave "4", and the spaces
    inside a text stay. *)
Example py_strip_beyond_ascii :
  py_strip (text_of_bytes [194; 160] ++ "4" ++ text_of_bytes [226; 128; 131])
    = "4" /\
  py_strip (" a b" ++ nl) = "a b" /\
  py_strip (" " ++ nl) = "".
Proof. repeat split. Qed.

(** X21. A whole session of [validate_custom_json]: after the lines [l]
    and Enter twice, when [json.loads] accepts [l] joined by newlines and
    the answer to the rule-set prompt is not "4", the document is
    validated against the sample schema and the chosen rule set (business
    rules for "1", strict for "2", technical for "3", and business rules
    again for any other answer); the function returns whatever the
    validation does, and leaves the remaining lines unread. *)
Theorem X21_custom_json_session (sh : Shell) (l rest : list string)
  (answer : string) (data : pyvalue) (out : list OutEvent)
  (e : Env (core sh)) :
  has_blank_pair false (l ++ [""])%list = false ->
  loads_text sh (String.concat nl l) = Ok data ->
  String.eqb (py_strip answer) "4" = false ->
  exists c',
    validate_custom_json sh
      (mkConsole (l ++ "" :: "" :: answer :: rest)%list out e)
    = (Returned tt, c') /\
    stdin c' = rest /\
    session c' =
      snd (validate_json (core sh) data create_sample_schema
             (if String.eqb (py_strip answer) "1" then get_business_rules
              else if String.eqb (py_strip answer) "2"
                   then get_strict_business_rules
                   else if String.eqb (py_strip answer) "3"
                        then get_technical_rules
                        else get_business_rules)
             e).
Proof.
  intros Hpair Hloads Hfour. unfold validate_custom_json.
  rewrite !io_bind_print. cbn [stdin stdout session].
  match goal with
  | |- context [io_bind sh (read_json_lines sh) _ (mkConsole _ ?o _)] =>
      destruct (json_text_entry sh l (answer :: rest) o e Hpair)
        as [Hread Htext]
  end.
  rewrite (io_bind_returned _ _ _ _ _ _ _ _ Hread).
  rewrite Htext.
  unfold io_bind at 1, io_try at 1. rewrite io_bind_lift, Hloads.
  unfold io_ret at 1.
  rewrite !io_bind_print, io_bind_input. cbn [stdin stdout session].
  rewrite Hfour.
  assert (Hguard :
            forall (rules : list string) (c0 : Console sh),
              stdin c0 = rest -> session c0 = e ->
              exists c',
                io_bind sh (io_ret sh rules)
                  (fun rules0 =>
                     io_try sh
                       (io_bind sh
                          (call_validate_json sh data create_sample_schema
                             rules0)
                          (fun result =>
                             print_validation_result sh result
                               "Custom JSON Validation"))
                       (fun e1 =>
                          print sh ("✗ Validation failed: " ++ shell_str e1)))
                  c0 = (Returned tt, c') /\
                stdin c' = rest /\
                session c' =
                  snd (validate_json (core sh) data create_sample_schema
                         rules e)).
  { intros rules c0 Hin Hsession. unfold io_bind at 1, io_ret at 1.
    destruct (guarded_validation_returns sh data create_sample_schema rules
                "Custom JSON Validation" "✗ Validation failed: " c0)
      as (c' & Hrun & Hin' & Hsession').
    exists c'. rewrite Hrun, Hin', Hsession', Hin, Hsession.
    repeat split. }
  destruct (String.eqb (py_strip answer) "1");
    [apply Hguard; reflexivity|].
  destruct (String.eqb (py_strip answer) "2");
    [apply Hguard; reflexivity|].
  destruct (String.eqb (py_strip answer) "3");
    [apply Hguard; reflexivity|].
  rewrite io_bind_bind_print. apply Hguard; reflexivity.
Qed.

(** One line of JSON, Enter twice, and the strict rules. *)
Lemma X21_custom_json_session_witness :
  exists c',
    validate_custom_json ShellFixture.shell
      (mkConsole (sh := ShellFixture.shell)
         ([Fixture.payload_pass] ++ ""%string :: ""%string :: "2" :: ["3"])%list
         [] ShellFixture.shell_env)
    = (Returned tt, c') /\
    stdin c' = ["3"] /\
    session c' =
      snd (validate_json (core ShellFixture.shell)
             (PyDict [("is_valid", PyBool true); ("errors", PyList [])])
             create_sample_schema get_strict_business_rules
             ShellFixture.shell_env).
Proof.
  apply (X21_custom_json_session ShellFixture.shell [Fixture.payload_pass]
           ["3"] "2"
           (PyDict [("is_valid", PyBool true); ("errors", PyList [])])
           [] ShellFixture.shell_env);
    reflexivity.
Defined.

(** X22. Text that is not JSON in [validate_custom_json]: after the lines
    [l] and Enter twice, when [json.loads] raises [JSONDecodeError] on [l]
    joined by newlines, the function writes one line, "Invalid JSON
    format: <cause>", and returns; it asks for no rule set, leaves the
    remaining lines unread and does not call the judge.  Pressing Enter
    twice at once hands [json.loads] the empty text. *)
Theorem X22_invalid_json_text (sh : Shell) (l rest : list string)
  (ex : PyException) (out : list OutEvent) (e : Env (core sh)) :
  has_blank_pair false (l ++ [""])%list = false ->
  loads_text sh (String.concat nl l) = Raise ex ->
  exc_class ex = JSONDecodeError ->
  validate_custom_json sh (mkConsole (l ++ "" :: "" :: rest)%list out e) =
  (Returned tt,
   mkConsole rest
     (out ++
      [Printed (nl ++ "Custom JSON Validation");
       Printed (py_repeat "-" 30);
       Printed "Enter your JSON data (press Enter twice when done):"]
      ++ List.repeat (Prompted "") (List.length l + 2)
      ++ [Printed ("✗ Invalid JSON format: " ++ exc_str ex)])%list
     e).
Proof.
  intros Hpair Hloads Hclass. unfold validate_custom_json.
  rewrite !io_bind_print. cbn [stdin stdout session].
  match goal with
  | |- context [io_bind sh (read_json_lines sh) _ (mkConsole _ ?o _)] =>
      destruct (json_text_entry sh l rest o e Hpair) as [Hread Htext]
  end.
  rewrite (io_bind_returned _ _ _ _ _ _ _ _ Hread).
  rewrite Htext.
  unfold io_bind at 1, io_try at 1. rewrite io_bind_lift, Hloads.
  cbn [is_JSONDecodeError]. rewrite Hclass. cbn [ExcClass_eqb].
  rewrite io_bind_print. unfold io_ret. cbn [stdin stdout session shell_str].
  rewrite <- !List.app_assoc. reflexivity.
Qed.

(** Enter pressed twice at once. *)
Lemma X22_invalid_json_text_witness :
  validate_custom_json ShellFixture.shell
    (mkConsole (sh := ShellFixture.shell)
       ([] ++ ""%string :: ""%string :: ["1"])%list []
       ShellFixture.shell_env) =
  (Returned tt,
   mkConsole (sh := ShellFixture.shell) ["1"]
     ([] ++
      [Printed (nl ++ "Custom JSON Validation");
       Printed (py_repeat "-" 30);
       Printed "Enter your JSON data (press Enter twice when done):"]
      ++ List.repeat (Prompted "") (List.length (@nil string) + 2)
      ++ [Printed ("✗ Invalid JSON format: "
                     ++ exc_str Fixture.decode_error)])%list
     ShellFixture.shell_env).
Proof.
  apply (X22_invalid_json_text ShellFixture.shell [] ["1"]
           Fixture.decode_error [] ShellFixture.shell_env);
    reflexivity.
Defined.

(** [check_syntax] never raises; it writes one line and returns whether
    the file could be read and parsed. *)
Lemma check_syntax_outcome (sh : Shell) (filename : string)
  (c : Console sh) :
  exists line,
    TestSyntax.check_syntax sh filename c =
    (Returned (TestSyntax.file_checks sh filename),
     mkConsole (stdin c) (stdout c ++ [Printed line])%list (session c)).
Proof.
  unfold TestSyntax.check_syntax, TestSyntax.file_checks, io_try.
  unfold io_bind at 1.
  destruct (read_source sh filename) as [source|e].
  - unfold io_bind at 1. destruct (ast_parse sh source) as [e|].
    + destruct e; eexists; reflexivity.
    + eexists; reflexivity.
  - destruct e; eexists; reflexivity.
Qed.

(** The loop over the files checks every one of them, in order, also after
    a failure, and returns whether all passed. *)
Lemma check_files_outcome (sh : Shell) (files : list string) :
  forall (all_valid : bool) (c : Console sh),
  exists lines,
    TestSyntax.check_files sh files all_valid c =
    (Returned (all_valid && List.forallb (TestSyntax.file_checks sh) files),
     mkConsole (stdin c) (stdout c ++ List.map Printed lines)%list
               (session c)) /\
    List.length lines = List.length files.
Proof.
  induction files as [|filename files IH]; intros all_valid c.
  - exists []. cbn. rewrite List.app_nil_r, Bool.andb_true_r.
    destruct c; split; reflexivity.
  - cbn [TestSyntax.check_files List.forallb].
    destruct (check_syntax_outcome sh filename c) as (line & Hcheck).
    rewrite (io_bind_returned _ _ _ _ _ _ _ _ Hcheck).
    destruct (IH (if negb (TestSyntax.file_checks sh filename)
                  then false else all_valid)
                 (mkConsole (stdin c) (stdout c ++ [Printed line])%list
                            (session c)))
      as (lines & Hloop & Hlen).
    exists (line :: lines). rewrite Hloop. cbn [stdin stdout session].
    split; [|cbn; rewrite Hlen; reflexivity].
    rewrite <- List.app_assoc. cbn [List.map List.app].
    destruct (TestSyntax.file_checks sh filename), all_valid; reflexivity.
Qed.

(** X23. The syntax check ([test_syntax.py]) never raises and exits with
    status 0 exactly when each of the three files can be read and parsed,
    and with status 1 otherwise; every file is checked, also after an
    earlier one failed, and each gets one line of output. *)
Theorem X23_syntax_check_status (sh : Shell) (c : Console sh) :
  exists verdicts closing,
    TestSyntax.main sh c =
    (Returned
       (if List.forallb (TestSyntax.file_checks sh)
             ["json_validator.py"; "test_data.py"; "main.py"]
        then 0%Z else 1%Z),
     mkConsole (stdin c)
       (stdout c ++
        [Printed "LangGraph JSON Validator - Syntax Check";
         Printed (py_repeat "=" 50)]
        ++ List.map Printed verdicts
        ++ Printed (nl ++ py_repeat "=" 50) :: closing)%list
       (session c)) /\
    List.length verdicts = 3.
Proof.
  unfold TestSyntax.main. rewrite !io_bind_print.
  match goal with
  | |- context [io_bind sh (TestSyntax.check_files sh ?fs true) _ ?c0] =>
      destruct (check_files_outcome sh fs true c0)
        as (lines & Hloop & Hlen)
  end.
  rewrite (io_bind_returned _ _ _ _ _ _ _ _ Hloop).
  cbn [andb]. rewrite io_bind_print. cbn [stdin stdout session].
  exists lines.
  destruct (List.forallb (TestSyntax.file_checks sh)
              TestSyntax.files_to_check) eqn:Hall;
    unfold TestSyntax.files_to_check in Hall; rewrite Hall;
    rewrite ?io_bind_bind_print; unfold io_bind, print, io_ret;
    cbn [stdin stdout session]; rewrite <- !List.app_assoc;
    eexists; (split; [reflexivity|exact Hlen]).
Qed.
